(** * FossenEnv: encounter classification, target spawning, reward and
      termination of the CyberShip II environment

    A shallow embedding of [tud_rl/envs/FossenEnv.py].  numpy floats are read
    as real numbers (rounding, NaN and the float32 cast of [eta] are outside
    the model); Python integers are [Z]; Python lists are [list]; the two
    random generators ([np.random] and [random]) are explicit streams that the
    code consumes in program order; Python exceptions are an error result. *)

From Stdlib Require Import Reals Lra Zfloor List String ZArith Bool Lia.
Import ListNotations.

Open Scope R_scope.

(* ------------------------------------------------------------------ *)
(** ** Comparisons of floats, as booleans *)

Definition Rleb (x y : R) : bool := if Rle_dec x y then true else false.
Definition Rltb (x y : R) : bool := if Rlt_dec x y then true else false.

(** Python's chained comparison [lo <= x <= hi]. *)
Definition between (lo x hi : R) : bool := Rleb lo x && Rleb x hi.

(** [x ** y] on floats for a base that is never negative here:
    [0.0 ** y] is [0.0] for a positive exponent. *)
Definition float_pow (x y : R) : R :=
  if Req_dec_T x 0 then 0 else Rpower x y.

(** A float that may be [np.inf] (the default of a distance cutoff). *)
Inductive float_ext : Type :=
| finite (r : R)
| np_inf.

(** [x > d] for a float [x] and a possibly infinite [d]. *)
Definition gt_ext (x : R) (d : float_ext) : bool :=
  match d with
  | finite r => Rltb r x
  | np_inf => false
  end.

(* ------------------------------------------------------------------ *)
(** ** The helpers of [tud_rl.envs.FossenFnc]

    [FossenEnv.py] imports them; the module itself is not among the
    sources. *)

Module FossenFnc.

(** Modelled from the spec: [dtr] of [tud_rl.envs.FossenFnc] is missing;
    degrees to radians. *)
Definition dtr (angle : R) : R := angle * PI / 180.

(** Modelled from the spec: [rtd] of [tud_rl.envs.FossenFnc] is missing;
    radians to degrees. *)
Definition rtd (angle : R) : R := angle * 180 / PI.

(** Modelled from the spec: [angle_to_2pi] of [tud_rl.envs.FossenFnc] is
    missing; an angle wrapped to [0, 2π). *)
Definition angle_to_2pi (angle : R) : R :=
  angle - IZR (Zfloor (angle / (2 * PI))) * (2 * PI).

(** Modelled from the spec: [angle_to_pi] of [tud_rl.envs.FossenFnc] is
    missing; an angle wrapped to (−π, π]. *)
Definition angle_to_pi (angle : R) : R :=
  let a := angle_to_2pi angle in
  if Rle_dec a PI then a else a - 2 * PI.

(** Modelled from the spec: [head_inter] of [tud_rl.envs.FossenFnc] is
    missing; the heading-intersection angle, the difference of the absolute
    headings wrapped to [0, 2π).  The sign is the one [_get_TS] inverts with
    [head_TS_s = angle_to_2pi(C_TS_s + head0)]. *)
Definition head_inter (head_OS head_TS : R) : R :=
  angle_to_2pi (head_TS - head_OS).

(** Modelled from the spec: [ED] of [tud_rl.envs.FossenFnc] is missing; the
    Euclidean distance of two points, squared when [sqrt=False].  The calls
    that do not pass [sqrt] compare the result with distances in metres, so
    its default is taken to be [True]. *)
Definition ED (N0 E0 N1 E1 : R) (sqrt_flag : bool) : R :=
  let d_sq := (N0 - N1) * (N0 - N1) + (E0 - E1) * (E0 - E1) in
  if sqrt_flag then sqrt d_sq else d_sq.

(** The angle of the point [(x, y)], in (−π, π]. *)
Definition atan2 (y x : R) : R :=
  if Rlt_dec 0 x then atan (y / x)
  else if Rlt_dec x 0 then
         if Rle_dec 0 y then atan (y / x) + PI else atan (y / x) - PI
       else if Rlt_dec 0 y then PI / 2
            else if Rlt_dec y 0 then - (PI / 2) else 0.

(** Modelled from the spec: [bng_abs] of [tud_rl.envs.FossenFnc] is missing;
    the absolute bearing of [(N1, E1)] seen from [(N0, E0)], in [0, 2π),
    measured from north, clockwise (a unit step along bearing [b] moves
    [sin b] east and [cos b] north, as in [_get_ship_domain]). *)
Definition bng_abs (N0 E0 N1 E1 : R) : R :=
  angle_to_2pi (atan2 (E1 - E0) (N1 - N0)).

(** Modelled from the spec: [bng_rel] of [tud_rl.envs.FossenFnc] is missing;
    the bearing relative to the heading [head0], in [0, 2π) ([_get_TS]
    inverts it with [bng_abs_s = angle_to_2pi(bng_rel_s + head0)]). *)
Definition bng_rel (N0 E0 N1 E1 head0 : R) : R :=
  angle_to_2pi (bng_abs N0 E0 N1 E1 - head0).

End FossenFnc.
Import FossenFnc.

(* ------------------------------------------------------------------ *)
(** ** Vessels *)

(** Modelled from the spec: the class [CyberShipII] of
    [tud_rl.envs.FossenCS2] is missing; a vessel holds a pose [eta], a body
    velocity [nu], its length, its forward thrust and the map it lives on. *)
Record CyberShipII : Type := mkCyberShipII {
  eta : R * R * R;            (* N, E, heading *)
  nu : R * R * R;             (* u, v, r *)
  tau_u : R;
  CS_length : R;
  CS_delta_t : R;
  CS_N_max : R;
  CS_E_max : R;
  CS_cnt_approach : string
}.

Definition eta_N (CS : CyberShipII) : R := fst (fst (eta CS)).
Definition eta_E (CS : CyberShipII) : R := snd (fst (eta CS)).
Definition eta_psi (CS : CyberShipII) : R := snd (eta CS).

Definition set_eta (CS : CyberShipII) (e : R * R * R) : CyberShipII :=
  mkCyberShipII e (nu CS) (tau_u CS) (CS_length CS) (CS_delta_t CS)
                (CS_N_max CS) (CS_E_max CS) (CS_cnt_approach CS).

(** [CS.nu[0] = u] *)
Definition set_nu0 (CS : CyberShipII) (u : R) : CyberShipII :=
  mkCyberShipII (eta CS) (u, snd (fst (nu CS)), snd (nu CS)) (tau_u CS)
                (CS_length CS) (CS_delta_t CS) (CS_N_max CS) (CS_E_max CS)
                (CS_cnt_approach CS).

Definition set_tau_u (CS : CyberShipII) (t : R) : CyberShipII :=
  mkCyberShipII (eta CS) (nu CS) t (CS_length CS) (CS_delta_t CS)
                (CS_N_max CS) (CS_E_max CS) (CS_cnt_approach CS).

(** The methods of [CyberShipII] that the environment calls.  Their bodies
    are in the missing module; the environment only queries speed, course
    and the off-map status, and commands control and one integration step. *)
Class VesselModel : Type := {
  hull_length : R;
  _get_V : CyberShipII -> R;
  _get_course : CyberShipII -> R;
  _is_off_map : CyberShipII -> bool;
  _u_from_tau_u : CyberShipII -> R -> R;
  _tau_u_from_u : CyberShipII -> R -> R;
  _set_tau : CyberShipII -> CyberShipII;
  _control : CyberShipII -> Z -> CyberShipII;
  _upd_dynamics : CyberShipII -> CyberShipII
}.

(** [CyberShipII(N_init=..., ..., tau_u=...)] *)
Definition CyberShipII_init `{VesselModel}
    (N_init E_init psi_init u_init v_init r_init delta_t N_max E_max : R)
    (cnt_approach : string) (tau_u0 : R) : CyberShipII :=
  mkCyberShipII (N_init, E_init, psi_init) (u_init, v_init, r_init) tau_u0
                hull_length delta_t N_max E_max cnt_approach.

(* ------------------------------------------------------------------ *)
(** ** Ship domain and encounter classification *)

Section Classifier.
Context `{VM : VesselModel}.

Definition _get_ship_domain (OS TS : CyberShipII) : R :=
  (* compute speeds and courses *)
  let VOS := _get_V OS in
  let VTS := _get_V TS in
  let chiOS := _get_course OS in
  let chiTS := _get_course TS in
  (* compute relative speed *)
  let vxOS := VOS * sin chiOS in
  let vyOS := VOS * cos chiOS in
  let vxTS := VTS * sin chiTS in
  let vyTS := VTS * cos chiTS in
  let VR := sqrt ((vyTS - vyOS) * (vyTS - vyOS) + (vxTS - vxOS) * (vxTS - vxOS)) in
  (* compute domain *)
  let V := Rmax VOS VR in
  CS_length OS * float_pow V 1.26 + 30 * V.

Definition _get_COLREG_situation (OS TS : CyberShipII) (distance : float_ext) : Z :=
  (* quick access *)
  let '(NOS, EOS, psi_OS) := eta OS in
  let '(NTS, ETS, psi_TS) := eta TS in
  (* check whether TS is too far away *)
  if gt_ext (ED NOS EOS NTS ETS true) distance then 0%Z
  else
    (* relative bearing from OS to TS *)
    let bng_OS := bng_rel NOS EOS NTS ETS psi_OS in
    (* relative bearing from TS to OS *)
    let bng_TS := bng_rel NTS ETS NOS EOS psi_TS in
    (* get overall speeds *)
    let V_OS := _get_V OS in
    let V_TS := _get_V TS in
    (* intersection angle *)
    let C_T := head_inter psi_OS psi_TS in
    (* intersection angle under consideration of sideslip *)
    let C_T_side := head_inter (_get_course OS) (_get_course TS) in
    (* COLREG 1: Head-on *)
    if between (-5) (rtd (angle_to_pi bng_OS)) 5 && between 175 (rtd C_T) 185
    then 1%Z
    (* COLREG 2: Starboard crossing *)
    else if between 5 (rtd bng_OS) 112.5 && between 185 (rtd C_T) 292.5
    then 2%Z
    (* COLREG 3: Portside crossing *)
    else if between 247.5 (rtd bng_OS) 355 && between 67.5 (rtd C_T) 175
    then 3%Z
    (* COLREG 4: Overtaking *)
    else if between 112.5 (rtd bng_TS) 247.5
            && between (-67.5) (rtd (angle_to_pi C_T)) 67.5
            && Rltb V_TS (V_OS * cos C_T_side)
    then 4%Z
    (* COLREG 0: nothing *)
    else 0%Z.

(** *** The encounter classes as the specification words them

    Angles are in radians; the thresholds are the degrees of the
    specification converted with [dtr]. *)

(** Bearing of the target seen from the own ship, relative to the own
    ship's heading, in [0, 2π). *)
Definition bearing_OS (OS TS : CyberShipII) : R :=
  bng_rel (eta_N OS) (eta_E OS) (eta_N TS) (eta_E TS) (eta_psi OS).

(** Bearing of the own ship seen from the target, relative to the target's
    heading, in [0, 2π). *)
Definition bearing_TS (OS TS : CyberShipII) : R :=
  bng_rel (eta_N TS) (eta_E TS) (eta_N OS) (eta_E OS) (eta_psi TS).

(** Heading-intersection angle, in [0, 2π). *)
Definition C_T (OS TS : CyberShipII) : R :=
  head_inter (eta_psi OS) (eta_psi TS).

(** Intersection angle of the courses (heading plus sideslip). *)
Definition C_T_side (OS TS : CyberShipII) : R :=
  head_inter (_get_course OS) (_get_course TS).

(** [x] lies in the closed band from [lo] to [hi] degrees. *)
Definition in_band (lo x hi : R) : Prop := dtr lo <= x <= dtr hi.

Definition HeadOn (OS TS : CyberShipII) : Prop :=
  in_band (-5) (angle_to_pi (bearing_OS OS TS)) 5
  /\ in_band 175 (C_T OS TS) 185.

Definition StarboardCrossing (OS TS : CyberShipII) : Prop :=
  in_band 5 (bearing_OS OS TS) 112.5
  /\ in_band 185 (C_T OS TS) 292.5.

Definition PortsideCrossing (OS TS : CyberShipII) : Prop :=
  in_band 247.5 (bearing_OS OS TS) 355
  /\ in_band 67.5 (C_T OS TS) 175.

(** The angular conditions of overtaking. *)
Definition Overtaking_angles (OS TS : CyberShipII) : Prop :=
  in_band 112.5 (bearing_TS OS TS) 247.5
  /\ in_band (-67.5) (angle_to_pi (C_T OS TS)) 67.5.

Definition Overtaking (OS TS : CyberShipII) : Prop :=
  Overtaking_angles OS TS
  /\ _get_V OS * cos (C_T_side OS TS) > _get_V TS.

(** A decision list: the code of the first rule whose condition holds, the
    default when none does. *)
Fixpoint first_match (rules : list (Prop * Z)) (default : Z) (c : Z) : Prop :=
  match rules with
  | [] => c = default
  | (P, k) :: rest => (P /\ c = k) \/ (~ P /\ first_match rest default c)
  end.

(** The four classes in their priority order. *)
Definition COLREG_rules (OS TS : CyberShipII) : list (Prop * Z) :=
  [ (HeadOn OS TS, 1%Z); (StarboardCrossing OS TS, 2%Z);
    (PortsideCrossing OS TS, 3%Z); (Overtaking OS TS, 4%Z) ].

(** The radius of the ship domain for a hull of length [L] and the chosen
    speed [V]. *)
Definition domain_radius (L V : R) : R := L * float_pow V 1.26 + 30 * V.

(** Speed of the target relative to the own ship: the norm of the
    difference of the two velocities in the world frame. *)
Definition relative_speed (OS TS : CyberShipII) : R :=
  let vE (CS : CyberShipII) := _get_V CS * sin (_get_course CS) in
  let vN (CS : CyberShipII) := _get_V CS * cos (_get_course CS) in
  sqrt ((vN TS - vN OS) * (vN TS - vN OS) + (vE TS - vE OS) * (vE TS - vE OS)).

End Classifier.

(* ------------------------------------------------------------------ *)
(** ** Exceptions and the random generators *)

Inductive PyErr : Type :=
| AssertionError
| UnboundLocalError
| IndexError
| AttributeError
| ValueError.

Inductive Res (A : Type) : Type :=
| Ok (a : A)
| Raise (e : PyErr).
Arguments Ok {A} a.
Arguments Raise {A} e.

(** The state of the two generators: [np.random] hands out the unit draws
    [np_draws 0, np_draws 1, ...] and [random] the indices
    [py_draws 0, py_draws 1, ...]; the positions count what was consumed. *)
Record Rng : Type := mkRng {
  np_draws : nat -> R;
  np_pos : nat;
  py_draws : nat -> nat;
  py_pos : nat
}.

(** A computation that draws random numbers and may raise. *)
Definition M (A : Type) : Type := Rng -> Res (A * Rng).

Definition ret {A : Type} (a : A) : M A := fun g => Ok (a, g).

Definition bind {A B : Type} (c : M A) (k : A -> M B) : M B :=
  fun g => match c g with
           | Ok (a, g') => k a g'
           | Raise e => Raise e
           end.

Definition raise {A : Type} (e : PyErr) : M A := fun _ => Raise e.

Declare Scope py_scope.
Delimit Scope py_scope with py.
Notation "x <- c ;; k" := (bind c (fun x => k))
  (at level 61, c at next level, right associativity) : py_scope.
Notation "' p <- c ;; k" := (bind c (fun x => let 'p := x in k))
  (at level 61, p pattern, c at next level, right associativity) : py_scope.
Open Scope py_scope.

(** [np.random.uniform(low, high)]: a draw from [low, high). *)
Definition uniform (low high : R) : M R :=
  fun g => Ok (low + (high - low) * np_draws g (np_pos g),
               mkRng (np_draws g) (S (np_pos g)) (py_draws g) (py_pos g)).

(** [random.choice(seq)] *)
Definition choice (seq : list Z) : M Z :=
  fun g => match nth_error seq (py_draws g (py_pos g) mod List.length seq) with
           | Some x => Ok (x, mkRng (np_draws g) (np_pos g) (py_draws g) (S (py_pos g)))
           | None => Raise IndexError
           end.

(** A list comprehension whose body draws random numbers: left to right. *)
Fixpoint mapM {A B : Type} (f : A -> M B) (l : list A) : M (list B) :=
  match l with
  | [] => ret []
  | x :: xs => y <- f x ;; ys <- mapM f xs ;; ret (y :: ys)
  end.

(** A local variable that a branch may have left unbound. *)
Definition bound {A : Type} (v : option A) : M A :=
  match v with
  | Some a => ret a
  | None => raise UnboundLocalError
  end.

(** [x in seq] on integers. *)
Definition Z_in (x : Z) (seq : list Z) : bool := existsb (Z.eqb x) seq.

(* ------------------------------------------------------------------ *)
(** ** The environment object *)

(** An entry of the observation vector: a number, or [np.nan] (the default
    padding value). *)
Inductive npfloat : Type :=
| num (x : R)
| nan.

Record FossenEnv : Type := mkFossenEnv {
  (* simulation settings *)
  delta_t : R;
  N_max : R;
  E_max : R;
  N_TSs : Z;
  safety_dist : R;
  TCPA_crit : R;
  cnt_approach : string;
  goal_reach_dist : R;
  (* custom inits *)
  _max_episode_steps : R;
  r : R;
  r_head : R;
  r_dist : R;
  r_coll : R;
  r_COLREG : R;
  r_map : R;
  r_coll_sigma : R;
  (* set by reset and step *)
  step_cnt : Z;
  sim_t : R;
  goal : R * R;                           (* "N", "E" *)
  OS : CyberShipII;
  TSs : list CyberShipII;
  TS_COLREGs : list Z;
  TS_COLREGs_old : list Z;
  respawn_flags : option (list bool);     (* None until the first assignment *)
  state_pad : npfloat;                    (* value to pad the states with *)
  state : list npfloat
}.

Definition goal_N (env : FossenEnv) : R := fst (goal env).
Definition goal_E (env : FossenEnv) : R := snd (goal env).

(** [self.OS = os] *)
Definition set_OS (self : FossenEnv) (os : CyberShipII) : FossenEnv :=
  mkFossenEnv (delta_t self) (N_max self) (E_max self) (N_TSs self)
    (safety_dist self) (TCPA_crit self) (cnt_approach self)
    (goal_reach_dist self) (_max_episode_steps self) (r self) (r_head self)
    (r_dist self) (r_coll self) (r_COLREG self) (r_map self)
    (r_coll_sigma self) (step_cnt self) (sim_t self) (goal self) os (TSs self)
    (TS_COLREGs self) (TS_COLREGs_old self) (respawn_flags self)
    (state_pad self) (state self).

(** [self.TSs = tss] *)
Definition set_TSs (self : FossenEnv) (tss : list CyberShipII) : FossenEnv :=
  mkFossenEnv (delta_t self) (N_max self) (E_max self) (N_TSs self)
    (safety_dist self) (TCPA_crit self) (cnt_approach self)
    (goal_reach_dist self) (_max_episode_steps self) (r self) (r_head self)
    (r_dist self) (r_coll self) (r_COLREG self) (r_map self)
    (r_coll_sigma self) (step_cnt self) (sim_t self) (goal self) (OS self) tss
    (TS_COLREGs self) (TS_COLREGs_old self) (respawn_flags self)
    (state_pad self) (state self).

(** [self.TSs, self.respawn_flags = tss, flags] *)
Definition set_respawn (self : FossenEnv) (tss : list CyberShipII) (flags : list bool) : FossenEnv :=
  mkFossenEnv (delta_t self) (N_max self) (E_max self) (N_TSs self)
    (safety_dist self) (TCPA_crit self) (cnt_approach self)
    (goal_reach_dist self) (_max_episode_steps self) (r self) (r_head self)
    (r_dist self) (r_coll self) (r_COLREG self) (r_map self)
    (r_coll_sigma self) (step_cnt self) (sim_t self) (goal self) (OS self) tss
    (TS_COLREGs self) (TS_COLREGs_old self) (Some flags)
    (state_pad self) (state self).

(** [self.TS_COLREGs_old = old; self.TS_COLREGs = new] *)
Definition set_COLREGs (self : FossenEnv) (old new : list Z) : FossenEnv :=
  mkFossenEnv (delta_t self) (N_max self) (E_max self) (N_TSs self)
    (safety_dist self) (TCPA_crit self) (cnt_approach self)
    (goal_reach_dist self) (_max_episode_steps self) (r self) (r_head self)
    (r_dist self) (r_coll self) (r_COLREG self) (r_map self)
    (r_coll_sigma self) (step_cnt self) (sim_t self) (goal self) (OS self)
    (TSs self) new old (respawn_flags self)
    (state_pad self) (state self).

(** the six assignments that end [_calculate_reward] *)
Definition set_rewards (self : FossenEnv) (rd rh rc rr rm r_all : R) : FossenEnv :=
  mkFossenEnv (delta_t self) (N_max self) (E_max self) (N_TSs self)
    (safety_dist self) (TCPA_crit self) (cnt_approach self)
    (goal_reach_dist self) (_max_episode_steps self) r_all rh rd rc rr rm
    (r_coll_sigma self) (step_cnt self) (sim_t self) (goal self) (OS self)
    (TSs self) (TS_COLREGs self) (TS_COLREGs_old self) (respawn_flags self)
    (state_pad self) (state self).

(** [self.step_cnt = cnt; self.sim_t = t] *)
Definition set_clock (self : FossenEnv) (cnt : Z) (t : R) : FossenEnv :=
  mkFossenEnv (delta_t self) (N_max self) (E_max self) (N_TSs self)
    (safety_dist self) (TCPA_crit self) (cnt_approach self)
    (goal_reach_dist self) (_max_episode_steps self) (r self) (r_head self)
    (r_dist self) (r_coll self) (r_COLREG self) (r_map self)
    (r_coll_sigma self) cnt t (goal self) (OS self) (TSs self)
    (TS_COLREGs self) (TS_COLREGs_old self) (respawn_flags self)
    (state_pad self) (state self).

(** [self.goal = g] *)
Definition set_goal (self : FossenEnv) (g : R * R) : FossenEnv :=
  mkFossenEnv (delta_t self) (N_max self) (E_max self) (N_TSs self)
    (safety_dist self) (TCPA_crit self) (cnt_approach self)
    (goal_reach_dist self) (_max_episode_steps self) (r self) (r_head self)
    (r_dist self) (r_coll self) (r_COLREG self) (r_map self)
    (r_coll_sigma self) (step_cnt self) (sim_t self) g (OS self) (TSs self)
    (TS_COLREGs self) (TS_COLREGs_old self) (respawn_flags self)
    (state_pad self) (state self).

(** [self.state = st] *)
Definition set_state (self : FossenEnv) (st : list npfloat) : FossenEnv :=
  mkFossenEnv (delta_t self) (N_max self) (E_max self) (N_TSs self)
    (safety_dist self) (TCPA_crit self) (cnt_approach self)
    (goal_reach_dist self) (_max_episode_steps self) (r self) (r_head self)
    (r_dist self) (r_coll self) (r_COLREG self) (r_map self)
    (r_coll_sigma self) (step_cnt self) (sim_t self) (goal self) (OS self)
    (TSs self) (TS_COLREGs self) (TS_COLREGs_old self) (respawn_flags self)
    (state_pad self) st.

Section Environment.
Context `{VM : VesselModel}.

(** Modelled from the spec: [tcpa] of [tud_rl.envs.FossenFnc] is missing; it
    is taken as given: the time to the closest point of approach of two
    vessels on straight courses. *)
Variable tcpa : R -> R -> R -> R -> R -> R -> R -> R -> R.

(** The hit point of the line mode of [_get_TS], as [(N_hit, E_hit)], for
    the sampled time [t_hit]. *)
Definition line_hit (self : FossenEnv) (t_hit : R) : R * R :=
  let N0 := eta_N (OS self) in
  let E0 := eta_E (OS self) in
  let chiOS := _get_course (OS self) in
  let VOS := _get_V (OS self) in
  (* determine relative speed of OS towards goal, need absolute bearing first *)
  let bng_abs_goal := bng_abs N0 E0 (goal_N self) (goal_E self) in
  (* x,y components of VOS *)
  let vxOS := VOS * sin chiOS in
  let vyOS := VOS * cos chiOS in
  (* x,y components of relative velocity *)
  let vxR_unit := 1 * sin bng_abs_goal in
  let vyR_unit := 1 * cos bng_abs_goal in
  (* project VOS vector on relative velocity direction *)
  let vR := (vxOS * vxR_unit + vyOS * vyR_unit) / 1 in
  let VR_goal_x := vR * sin bng_abs_goal in
  let VR_goal_y := vR * cos bng_abs_goal in
  (* compute hit point *)
  let E_hit := E0 + Rabs VR_goal_x * t_hit in
  let N_hit := N0 + Rabs VR_goal_y * t_hit in
  (N_hit, E_hit).

(** The part of [_get_TS] after the encounter situation is fixed
    (from "stop in null case" on).  [TS] is the sampled vessel with its
    converged surge speed, [COLREG_s] the situation to realize. *)
Definition _get_TS_place (self : FossenEnv) (spawn_mode : string)
    (TS : CyberShipII) (COLREG_s : Z) : M CyberShipII :=
  (* quick access *)
  let N0 := eta_N (OS self) in
  let E0 := eta_E (OS self) in
  let head0 := eta_psi (OS self) in
  let chiOS := _get_course (OS self) in
  let VOS := _get_V (OS self) in
  (* stop in null case *)
  if (COLREG_s =? 0)%Z then ret TS
  else if (spawn_mode =? "front")%string then
    (* sample DCPA *)
    let DCPA_s := 0 in
    (* forecast position of OS if it keeps course and speed *)
    let E_OS_tcpa0 := E0 + VOS * sin chiOS * TCPA_crit self in
    let N_OS_tcpa0 := N0 + VOS * cos chiOS * TCPA_crit self in
    ' (vars, TS) <-
      (if Z_in COLREG_s [1; 2; 3]%Z then
         (* sample relative bearing and intersection angle *)
         angles <-
           (if (COLREG_s =? 1)%Z then
              b <- uniform (-5) 5 ;; c <- uniform 175 185 ;;
              ret (Some (angle_to_2pi (dtr b), dtr c))
            else if (COLREG_s =? 2)%Z then
              b <- uniform 5 112.5 ;; c <- uniform 185 292.5 ;;
              ret (Some (dtr b, dtr c))
            else if (COLREG_s =? 3)%Z then
              b <- uniform 247.5 355 ;; c <- uniform 67.5 175 ;;
              ret (Some (dtr b, dtr c))
            else ret None) ;;
         ' (bng_rel_s, C_TS_s) <- bound angles ;;
         (* determine absolute bearing and TS heading *)
         let bng_abs_s := angle_to_2pi (bng_rel_s + head0) in
         let head_TS_s := angle_to_2pi (C_TS_s + head0) in
         (* calculate position of TS for TCPA = 0 *)
         let E_TS_tcpa0 := E_OS_tcpa0 + DCPA_s * sin bng_abs_s in
         let N_TS_tcpa0 := N_OS_tcpa0 + DCPA_s * cos bng_abs_s in
         (* no further constraints on velocity *)
         let VTS := fst (fst (nu TS)) in
         ret (Some (E_TS_tcpa0, N_TS_tcpa0, head_TS_s, VTS), TS)
       else if (COLREG_s =? 4)%Z then
         (* sample intersection angle and determine heading of TS *)
         c <- uniform (-67.5) 67.5 ;;
         let C_TS_s := angle_to_2pi (dtr c) in
         let head_TS_s := angle_to_2pi (C_TS_s + head0) in
         (* sample relative bearing from OS perspective *)
         b <- uniform (-67.5) 67.5 ;;
         let bng_rel_s := angle_to_2pi (dtr b - head0 + head_TS_s) in
         (* determine absolute bearing *)
         let bng_abs_s := angle_to_2pi (bng_rel_s + head0) in
         (* calculate position of TS for TCPA = 0 *)
         let E_TS_tcpa0 := E_OS_tcpa0 + DCPA_s * sin bng_abs_s in
         let N_TS_tcpa0 := N_OS_tcpa0 + DCPA_s * cos bng_abs_s in
         (* intersection angle under consideration of sideslip *)
         let C_T_side := head_inter (_get_course (OS self)) (_get_course TS) in
         (* velocity of OS in TS's direction should be larger than the one of TS *)
         let VOS := _get_V (OS self) in
         VTS <- uniform 0 (VOS * cos C_T_side) ;;
         let TS := set_nu0 TS VTS in
         (* set tau_u of TS so that it will keep this velocity *)
         let TS := set_tau_u TS (_tau_u_from_u TS VTS) in
         let TS := _set_tau TS in
         ret (Some (E_TS_tcpa0, N_TS_tcpa0, head_TS_s, VTS), TS)
       else ret (None, TS)) ;;
    ' (E_TS_tcpa0, N_TS_tcpa0, head_TS_s, VTS) <- bound vars ;;
    (* backtrace original position of TS *)
    let E_TS := E_TS_tcpa0 - VTS * sin head_TS_s * TCPA_crit self in
    let N_TS := N_TS_tcpa0 - VTS * cos head_TS_s * TCPA_crit self in
    (* set positional values *)
    ret (set_eta TS (N_TS, E_TS, head_TS_s))
  else if (spawn_mode =? "line")%string then
    let bng_abs_goal := bng_abs N0 E0 (goal_N self) (goal_E self) in
    (* sample time *)
    t_hit <- uniform (TCPA_crit self / 2) (TCPA_crit self) ;;
    (* compute hit point *)
    let '(N_hit, E_hit) := line_hit self t_hit in
    vars <-
      (if Z_in COLREG_s [1; 2; 3]%Z then
         C_TS <-
           (if (COLREG_s =? 1)%Z then c <- uniform 175 185 ;; ret (Some (dtr c))
            else if (COLREG_s =? 2)%Z then c <- uniform 185 292.5 ;; ret (Some (dtr c))
            else if (COLREG_s =? 3)%Z then c <- uniform 67.5 175 ;; ret (Some (dtr c))
            else ret None) ;;
         C_TS_s <- bound C_TS ;;
         (* TS heading, treating absolute bearing towards goal as heading *)
         let head_TS_s := angle_to_2pi (C_TS_s + bng_abs_goal) in
         (* no further constraints on velocity *)
         let VTS := fst (fst (nu TS)) in
         ret (Some (head_TS_s, VTS))
       else ret None) ;;
    ' (head_TS_s, VTS) <- bound vars ;;
    (* backtrace original position of TS *)
    let E_TS := E_hit - VTS * sin head_TS_s * t_hit in
    let N_TS := N_hit - VTS * cos head_TS_s * t_hit in
    (* set positional values *)
    ret (set_eta TS (N_TS, E_TS, head_TS_s))
  else
    (* no other mode gets past the assertion at the head of [_get_TS] *)
    raise AssertionError.

Definition _get_TS (self : FossenEnv) (spawn_mode : string) : M CyberShipII :=
  if negb (existsb (String.eqb spawn_mode) ["line"; "front"]%string)
  then raise AssertionError
  else
    (* init a CSII *)
    N_init <- uniform (N_max self / 5) (N_max self) ;;
    E_init <- uniform (E_max self / 5) (E_max self) ;;
    psi_init <- uniform 0 (2 * PI) ;;
    tau_u0 <- uniform 0 5 ;;
    let TS := CyberShipII_init N_init E_init psi_init 0 0 0 (delta_t self)
                (N_max self) (E_max self) (cnt_approach self) tau_u0 in
    if negb (cnt_approach self =? "tau")%string then ret TS
    else
      (* predict converged speed of sampled TS *)
      let TS := set_nu0 TS (_u_from_tau_u TS (tau_u TS)) in
      (* sample COLREG situation *)
      COLREG_s <- choice [0; 1; 2; 3; 4]%Z ;;
      let COLREG_s := 2%Z in
      _get_TS_place self spawn_mode TS COLREG_s.

Definition _set_COLREGs (self : FossenEnv) : FossenEnv :=
  (* overwrite old situations, compute new ones *)
  set_COLREGs self (TS_COLREGs self)
    (map (fun TS => _get_COLREG_situation (OS self) TS np_inf) (TSs self)).

(** [np.clip(x, lo, hi)] *)
Definition np_clip (x lo hi : R) : R := Rmin (Rmax x lo) hi.

Definition _handle_map_leaving (self : FossenEnv) (CS : CyberShipII)
    (respawn mirrow clip : bool) : M (CyberShipII * bool) :=
  (* check whether vessel left the map *)
  if _is_off_map CS then
    if respawn then TS <- _get_TS self "line" ;; ret (TS, true)
    else if mirrow then
      let psi := eta_psi CS in
      (* right or left bound (E-axis) *)
      if Rleb (eta_E CS) 0 || Rleb (CS_E_max CS) (eta_E CS)
      then ret (set_eta CS (eta_N CS, eta_E CS, 2 * PI - psi), false)
      (* upper and lower bound (N-axis) *)
      else ret (set_eta CS (eta_N CS, eta_E CS, PI - psi), false)
    else if clip then
      let CS := set_eta CS (np_clip (eta_N CS) 0 (CS_N_max CS), eta_E CS, eta_psi CS) in
      let CS := set_eta CS (eta_N CS, np_clip (eta_E CS) 0 (CS_E_max CS), eta_psi CS) in
      ret (CS, false)
    else ret (CS, false)
  else ret (CS, false).

Definition _handle_respawn (self : FossenEnv) (TS : CyberShipII)
    : M (CyberShipII * bool) :=
  let TCPA_TS := tcpa (eta_N (OS self)) (eta_E (OS self)) (eta_N TS) (eta_E TS)
                      (_get_course (OS self)) (_get_course TS)
                      (_get_V (OS self)) (_get_V TS) in
  if Rltb TCPA_TS (-10) then TS' <- _get_TS self "line" ;; ret (TS', true)
  else ret (TS, false).

(** The collision reward loop of [_calculate_reward]. *)
Definition collision_reward (self : FossenEnv) : R :=
  let N0 := eta_N (OS self) in
  let E0 := eta_E (OS self) in
  fold_left
    (fun r_coll TS =>
       let EDsq_TS := ED N0 E0 (eta_N TS) (eta_E TS) false in
       (* Basic Gaussian reward *)
       let r_coll := r_coll - exp (-0.5 * EDsq_TS / (r_coll_sigma self * r_coll_sigma self)) in
       (* Explicit collision penalty *)
       r_coll - (if Rltb EDsq_TS (safety_dist self * safety_dist self) then 10 else 0))
    (TSs self) 0.

(** [seq[i]] for an index that is never negative. *)
Definition index {A : Type} (seq : list A) (i : nat) : Res A :=
  match nth_error seq i with
  | Some x => Ok x
  | None => Raise IndexError
  end.

(** [self.respawn_flags], an attribute that exists only once assigned. *)
Definition get_respawn_flags (self : FossenEnv) : Res (list bool) :=
  match respawn_flags self with
  | Some flags => Ok flags
  | None => Raise AttributeError
  end.

Definition bindR {A B : Type} (c : Res A) (k : A -> Res B) : Res B :=
  match c with
  | Ok a => k a
  | Raise e => Raise e
  end.

Notation "x <-! c ;; k" := (bindR c (fun x => k))
  (at level 61, c at next level, right associativity) : py_scope.

(** One pass of the COLREG reward loop of [_calculate_reward], for the target
    [TS] at position [TS_idx]. *)
Definition COLREG_reward_body (self : FossenEnv) (r_COLREG : R)
    (TS_idx : nat) (TS : CyberShipII) : Res R :=
  let N0 := eta_N (OS self) in
  let E0 := eta_E (OS self) in
  let head0 := eta_psi (OS self) in
  flags <-! get_respawn_flags self ;;
  flag <-! index flags TS_idx ;;
  (* if vessel just spawned, don't assess COLREG reward *)
  if negb flag then
    new <-! index (TS_COLREGs self) TS_idx ;;
    old <-! index (TS_COLREGs_old self) TS_idx ;;
    (* assess when COLREG situation changes *)
    if negb (new =? old)%Z then
      old' <-! index (TS_COLREGs_old self) TS_idx ;;
      if Z_in old' [1; 2; 3]%Z then
        if between 0 (bng_rel N0 E0 (eta_N TS) (eta_E TS) head0) PI
        then Ok (r_COLREG - 10)
        else Ok r_COLREG
      else Ok r_COLREG
    else Ok r_COLREG
  else Ok r_COLREG.

(** [for TS_idx, TS in enumerate(seq)], counting from [TS_idx]. *)
Fixpoint COLREG_reward_loop (self : FossenEnv) (r_COLREG : R) (TS_idx : nat)
    (seq : list CyberShipII) : Res R :=
  match seq with
  | [] => Ok r_COLREG
  | TS :: rest =>
      r_COLREG <-! COLREG_reward_body self r_COLREG TS_idx TS ;;
      COLREG_reward_loop self r_COLREG (S TS_idx) rest
  end.

Definition _calculate_reward (self : FossenEnv)
    (w_dist w_head w_coll w_COLREG w_map : R) : Res FossenEnv :=
  let N0 := eta_N (OS self) in
  let E0 := eta_E (OS self) in
  let head0 := eta_psi (OS self) in
  (* 1. Distance reward *)
  let OS_goal_ED := ED N0 E0 (goal_N self) (goal_E self) true in
  let r_dist := - OS_goal_ED / E_max self in
  (* 2. Heading reward *)
  let r_head :=
    - Rabs (angle_to_pi (bng_rel N0 E0 (goal_N self) (goal_E self) head0)) / PI in
  (* 3. Collision reward *)
  let r_coll := collision_reward self in
  (* 4. COLREG reward *)
  r_COLREG <-! COLREG_reward_loop self 0 0 (TSs self) ;;
  (* 5. Leave-the-map reward *)
  let r_map := if _is_off_map (OS self) then -10 else 0 in
  (* Overall reward *)
  Ok (set_rewards self r_dist r_head r_coll r_COLREG r_map
        (w_dist * r_dist + w_head * r_head + w_coll * r_coll
         + w_COLREG * r_COLREG + w_map * r_map)).

(** [sorted(rows, key=lambda x: x[0], reverse=True)]: by descending first
    entry, rows with equal first entries in their original order. *)
Fixpoint insert_desc (row : list R) (sorted : list (list R)) : list (list R) :=
  match sorted with
  | [] => [row]
  | y :: ys =>
      if Rltb (hd 0 y) (hd 0 row) then row :: y :: ys
      else y :: insert_desc row ys
  end.

Definition sorted_desc (rows : list (list R)) : list (list R) :=
  fold_left (fun acc row => insert_desc row acc) rows [].

(** The loop of [_set_state] over the targets, from position [TS_idx] on:
    a target inside the ship domain adds its row to [state_TSs]. *)
Fixpoint state_TSs_loop (self : FossenEnv) (state_TSs : list (list R))
    (TS_idx : nat) (seq : list CyberShipII) : Res (list (list R)) :=
  match seq with
  | [] => Ok state_TSs
  | TS :: rest =>
      let N0 := eta_N (OS self) in
      let E0 := eta_E (OS self) in
      let head0 := eta_psi (OS self) in
      let chiOS := _get_course (OS self) in
      let VOS := _get_V (OS self) in
      let chiTS := _get_course TS in
      let VTS := _get_V TS in
      (* construct ship domain *)
      let domain := _get_ship_domain (OS self) TS in
      (* consider TS if it is inside the domain *)
      let ED_OS_TS := ED N0 E0 (eta_N TS) (eta_E TS) true in
      if Rleb ED_OS_TS domain then
        let ED_TS := ED_OS_TS / E_max self in
        let bng_rel_TS := bng_rel N0 E0 (eta_N TS) (eta_E TS) head0 / (2 * PI) in
        let C_TS := head_inter head0 (eta_psi TS) / (2 * PI) in
        let u_TS := fst (fst (nu TS)) in
        sigma_TS <-! index (TS_COLREGs self) TS_idx ;;
        let TCPA_TS :=
          tcpa N0 E0 (eta_N TS) (eta_E TS) chiOS chiTS VOS VTS / TCPA_crit self in
        state_TSs_loop self
          (state_TSs ++ [[ED_TS; bng_rel_TS; C_TS; u_TS; IZR sigma_TS; TCPA_TS]])
          (S TS_idx) rest
      else state_TSs_loop self state_TSs (S TS_idx) rest
  end.

Definition _set_state (self : FossenEnv) : Res FossenEnv :=
  let N0 := eta_N (OS self) in
  let E0 := eta_E (OS self) in
  let head0 := eta_psi (OS self) in
  (* OS related *)
  let '(u, v, yaw) := nu (OS self) in
  let state_OS :=
    [u; v; yaw; N0 / N_max self; E0 / E_max self; head0 / (2 * PI)] in
  (* goal related *)
  let OS_goal_ED := ED N0 E0 (goal_N self) (goal_E self) true in
  let state_goal :=
    [bng_rel N0 E0 (goal_N self) (goal_E self) head0 / (2 * PI);
     OS_goal_ED / E_max self] in
  (* dynamic obstacle related *)
  state_TSs <-! state_TSs_loop self [] 0 (TSs self) ;;
  state_TSs <-!
    (match state_TSs with
     (* create dummy state if no TS is close *)
     | [] => Ok (repeat (state_pad self) (Z.to_nat (6 * N_TSs self)%Z))
     (* otherwise sort according to descending ED *)
     | _ =>
         let flat := List.concat (sorted_desc state_TSs) in
         (* pad at the right side to guarantee state size is always identical *)
         let width := (N_TSs self * 6 - Z.of_nat (List.length flat))%Z in
         if (width <? 0)%Z then Raise ValueError
         else Ok (map num flat ++ repeat (state_pad self) (Z.to_nat width))
     end) ;;
  (* combine state *)
  Ok (set_state self (map num state_OS ++ map num state_goal ++ state_TSs)).

Definition _done (self : FossenEnv) : bool :=
  (* goal reached *)
  let OS_goal_ED :=
    ED (eta_N (OS self)) (eta_E (OS self)) (goal_N self) (goal_E self) true in
  if Rleb OS_goal_ED (goal_reach_dist self) then true
  (* artificial done signal *)
  else if Rleb (_max_episode_steps self) (IZR (step_cnt self)) then true
  else false.

(** A list of pairs transposed and unpacked into two sequences; nothing
    to unpack when the list is empty. *)
Definition unzip_pairs {A B : Type} (pairs : list (A * B)) : M (list A * list B) :=
  match pairs with
  | [] => raise ValueError
  | _ => ret (map fst pairs, map snd pairs)
  end.

Definition lift {A : Type} (c : Res A) : M A :=
  fun g => match c with
           | Ok a => Ok (a, g)
           | Raise e => Raise e
           end.

(** [step] returns the observation, the reward and the flag [done], and
    with them the updated environment. *)
Definition step (self : FossenEnv) (a : Z)
    : M (list npfloat * R * bool * FossenEnv) :=
  (* perform control action, update resulting tau, update agent dynamics *)
  let os := _upd_dynamics (_set_tau (_control (OS self) a)) in
  let self := set_OS self os in
  (* handle map-leaving of agent *)
  ' (os, _) <- _handle_map_leaving self (OS self) false false true ;;
  let self := set_OS self os in
  (* update environmental dynamics, e.g., other vessels *)
  let self := set_TSs self (map _upd_dynamics (TSs self)) in
  (* handle map-leaving and respawning of other vessels *)
  self <-
    (if (0 <? N_TSs self)%Z then
       pairs <- mapM (fun TS => _handle_map_leaving self TS true false false)
                     (TSs self) ;;
       ' (tss, flags) <- unzip_pairs pairs ;;
       let self := set_respawn self tss flags in
       pairs <- mapM (fun TS => _handle_respawn self TS) (TSs self) ;;
       ' (tss, flags) <- unzip_pairs pairs ;;
       ret (set_respawn self tss flags)
     else ret self) ;;
  (* update COLREG scenarios *)
  let self := _set_COLREGs self in
  (* compute state, reward, done *)
  self <- lift (_set_state self) ;;
  self <- lift (_calculate_reward self 1 1 1 1 1) ;;
  let d := _done self in
  (* increase step cnt and overall simulation time *)
  let self := set_clock self (step_cnt self + 1)%Z (sim_t self + delta_t self) in
  ret (state self, r self, d, self).

(** [reset] returns the first observation, and with it the environment
    ([self.state_init], a second name of that observation, is not kept). *)
Definition reset (self : FossenEnv) : M (list npfloat * FossenEnv) :=
  let self := set_clock self 0%Z 0 in
  (* init goal *)
  gN <- uniform (N_max self - 25) (N_max self) ;;
  gE <- uniform (E_max self - 25) (E_max self) ;;
  let self := set_goal self (gN, gE) in
  (* init agent *)
  psi_init <- uniform 0 (PI / 2) ;;
  let os := CyberShipII_init (N_max self / 5) (E_max self / 5) psi_init 0 0 0
              (delta_t self) (N_max self) (E_max self) (cnt_approach self) 3 in
  (* set longitudinal speed to near-convergence *)
  let os := set_nu0 os (_u_from_tau_u os (tau_u os)) in
  let self := set_OS self os in
  (* init other vessels *)
  tss <- mapM (fun _ => _get_TS self "line") (seq 0 (Z.to_nat (N_TSs self))) ;;
  let self := set_TSs self tss in
  (* determine current COLREG situations *)
  let self := set_COLREGs self (TS_COLREGs_old self)
                (repeat 0%Z (Z.to_nat (N_TSs self))) in
  let self := _set_COLREGs self in
  (* init state *)
  self <- lift (_set_state self) ;;
  ret (state self, self).

End Environment.

(* ------------------------------------------------------------------ *)
(** ** The rewards as the specification words them *)

(** Squared distance of a target from the own ship. *)
Definition EDsq (self : FossenEnv) (TS : CyberShipII) : R :=
  ED (eta_N (OS self)) (eta_E (OS self)) (eta_N TS) (eta_E TS) false.

(** The Gaussian proximity penalty of one target. *)
Definition proximity_penalty (self : FossenEnv) (TS : CyberShipII) : R :=
  exp (-0.5 * EDsq self TS / (r_coll_sigma self * r_coll_sigma self)).

(** The hard penalty of one target: 10 inside the safety distance. *)
Definition hard_penalty (self : FossenEnv) (TS : CyberShipII) : R :=
  if Rlt_dec (EDsq self TS) (safety_dist self * safety_dist self) then 10 else 0.

(** The sum of [f] over a list. *)
Definition Rsum {A : Type} (f : A -> R) (l : list A) : R :=
  fold_right (fun x acc => f x + acc) 0 l.

(** [r_coll] as the sum over the targets. *)
Definition r_coll_sum (self : FossenEnv) : R :=
  Rsum (fun TS => - proximity_penalty self TS - hard_penalty self TS) (TSs self).

(** The target at position [i] is charged by the rule reward: it is not
    flagged as respawned, its class differs from the class of the previous
    tick, that class was HeadOn, StarboardCrossing or PortsideCrossing, and
    the target now bears between 0 and π. *)
Definition rule_violation (self : FossenEnv) (flags : list bool) (i : nat)
    (TS : CyberShipII) : Prop :=
  nth_error flags i = Some false
  /\ (exists old new : Z,
        nth_error (TS_COLREGs_old self) i = Some old
        /\ nth_error (TS_COLREGs self) i = Some new
        /\ new <> old
        /\ (old = 1 \/ old = 2 \/ old = 3)%Z)
  /\ 0 <= bearing_OS (OS self) TS <= PI.

(** [rule_reward self flags i seq s]: the targets [seq], at the positions
    from [i] on, are charged [s] in total: 10 off for each target with a
    rule violation, nothing for the others. *)
Inductive rule_reward (self : FossenEnv) (flags : list bool)
    : nat -> list CyberShipII -> R -> Prop :=
| rule_reward_done (i : nat) :
    rule_reward self flags i [] 0
| rule_reward_charged (i : nat) (TS : CyberShipII) (rest : list CyberShipII) (s : R) :
    rule_violation self flags i TS ->
    rule_reward self flags (S i) rest s ->
    rule_reward self flags i (TS :: rest) (s - 10)
| rule_reward_free (i : nat) (TS : CyberShipII) (rest : list CyberShipII) (s : R) :
    ~ rule_violation self flags i TS ->
    rule_reward self flags (S i) rest s ->
    rule_reward self flags i (TS :: rest) s.

(** A point on the ray from [(N0, E0)] along the bearing [b]. *)
Definition on_ray (N0 E0 b : R) (p : R * R) : Prop :=
  exists d : R, 0 <= d /\ p = (N0 + d * cos b, E0 + d * sin b).

(** The projection of the own ship's velocity on the bearing [b]. *)
Definition speed_along `{VesselModel} (self : FossenEnv) (b : R) : R :=
  _get_V (OS self) * sin (_get_course (OS self)) * sin b
  + _get_V (OS self) * cos (_get_course (OS self)) * cos b.

(* ------------------------------------------------------------------ *)
(** ** The generators, seen from outside *)

(** The generator [g] after [n] more unit draws and [m] more choices. *)
Definition advance (g : Rng) (n m : nat) : Rng :=
  mkRng (np_draws g) (n + np_pos g) (py_draws g) (m + py_pos g).

(** The generator [g] with another stream behind [random.choice]. *)
Definition with_py (g : Rng) (py : nat -> nat) : Rng :=
  mkRng (np_draws g) (np_pos g) py (py_pos g).

(** The [k]-th unit draw that [g] will hand out. *)
Definition draw (g : Rng) (k : nat) : R := np_draws g (k + np_pos g).

(** The vessel that [_get_TS] constructs first: position, heading and thrust
    from the next four unit draws, at rest. *)
Definition sampled_vessel `{VesselModel} (self : FossenEnv) (g : Rng) : CyberShipII :=
  mkCyberShipII
    (N_max self / 5 + (N_max self - N_max self / 5) * draw g 0,
     E_max self / 5 + (E_max self - E_max self / 5) * draw g 1,
     0 + (2 * PI - 0) * draw g 2)
    (0, 0, 0)
    (0 + (5 - 0) * draw g 3)
    hull_length (delta_t self) (N_max self) (E_max self) (cnt_approach self).

(** The heading that the starboard-crossing branch gives a target: the
    intersection angle [c] degrees added to the own ship's heading (front
    mode) or to the bearing of the goal (line mode). *)
Definition crossing_heading (self : FossenEnv) (spawn_mode : string) (c : R) : R :=
  angle_to_2pi
    (dtr c + (if (spawn_mode =? "front")%string then eta_psi (OS self)
              else bng_abs (eta_N (OS self)) (eta_E (OS self))
                           (goal_N self) (goal_E self))).

(** The own ship at the end of a tick with the action [a]: after control,
    thrust and dynamics update, and clipped to the map if it left it. *)
Definition OS_after_step `{VesselModel} (self : FossenEnv) (a : Z) : CyberShipII :=
  let os := _upd_dynamics (_set_tau (_control (OS self) a)) in
  if _is_off_map os
  then set_eta os (np_clip (eta_N os) 0 (CS_N_max os),
                   np_clip (eta_E os) 0 (CS_E_max os), eta_psi os)
  else os.

(** The goal is reached: the own ship [os] is within [goal_reach_dist] of
    the goal. *)
Definition goal_reached (self : FossenEnv) (os : CyberShipII) : Prop :=
  ED (eta_N os) (eta_E os) (goal_N self) (goal_E self) true
  <= goal_reach_dist self.

(** The step counter has reached the maximal number of steps. *)
Definition out_of_steps (self : FossenEnv) : Prop :=
  _max_episode_steps self <= IZR (step_cnt self).

(** What a tick leaves alone while the targets move and respawn. *)
Definition same_frame (s s' : FossenEnv) : Prop :=
  OS s' = OS s /\ goal s' = goal s /\ step_cnt s' = step_cnt s
  /\ TS_COLREGs s' = TS_COLREGs s
  /\ goal_reach_dist s' = goal_reach_dist s
  /\ _max_episode_steps s' = _max_episode_steps s
  /\ N_TSs s' = N_TSs s.

(* ------------------------------------------------------------------ *)
(** ** A vessel model and vessels for the worked examples *)

(** Modelled from the spec: the methods of [CyberShipII] are missing; for
    the worked examples, a plain kinematic vessel: the speed is the norm of
    the body velocity, the course is the heading plus the sideslip angle,
    the vessel is off the map on or beyond its border, thrust and surge
    speed coincide, and one step moves the vessel along its course. *)
Definition kinematic_model : VesselModel := {|
  hull_length := 1.255;
  _get_V := fun CS =>
    let '(u, v, _) := nu CS in sqrt (u * u + v * v);
  _get_course := fun CS =>
    let '(u, v, _) := nu CS in angle_to_2pi (eta_psi CS + atan2 v u);
  _is_off_map := fun CS =>
    Rleb (eta_N CS) 0 || Rleb (CS_N_max CS) (eta_N CS)
    || Rleb (eta_E CS) 0 || Rleb (CS_E_max CS) (eta_E CS);
  _u_from_tau_u := fun _ t => t;
  _tau_u_from_u := fun _ u => u;
  _set_tau := fun CS => CS;
  _control := fun CS _ => CS;
  _upd_dynamics := fun CS =>
    let '(u, v, _) := nu CS in
    let V := sqrt (u * u + v * v) in
    let chi := angle_to_2pi (eta_psi CS + atan2 v u) in
    set_eta CS (eta_N CS + V * cos chi * CS_delta_t CS,
                eta_E CS + V * sin chi * CS_delta_t CS,
                eta_psi CS)
|}.

(** A vessel at [(N, E)] with heading [psi], surge speed [u] and no sway,
    on the 100 m by 100 m map. *)
Definition vessel_at (N E psi u : R) : CyberShipII :=
  mkCyberShipII (N, E, psi) (u, 0, 0) u 1.255 0.5 100 100 "tau".

(** Own ship heading 355°, target 10 m due north of it heading 180°: the
    target bears 5° and the headings intersect at 185°. *)
Definition OS_corner : CyberShipII := vessel_at 50 50 (71 * PI / 36) 1.
Definition TS_corner : CyberShipII := vessel_at 60 50 PI 1.

(** Own ship heading north, target 80 m ahead of it heading south. *)
Definition OS_far : CyberShipII := vessel_at 10 50 0 1.
Definition TS_far : CyberShipII := vessel_at 90 50 PI 1.

(** An environment with the settings of [__init__] around an own ship, a
    goal and targets, at step [cnt]; the targets are classified [new] now
    and were classified [old] at the previous tick, none is flagged as
    respawned. *)
Definition env_of (os : CyberShipII) (g : R * R) (tss : list CyberShipII)
    (old new : list Z) (cnt : Z) : FossenEnv :=
  mkFossenEnv 0.5 100 100 (Z.of_nat (List.length tss)) 7.5 60 "tau" 25
              1000 0 0 0 0 0 0 5
              cnt (IZR cnt * 0.5) g os tss new old
              (Some (map (fun _ => false) tss)) nan [].

(** The own ship heading north with one target 80 m ahead, heading south. *)
Definition env_far : FossenEnv := env_of OS_far (90, 90) [TS_far] [0%Z] [0%Z] 0.

(** The own ship at the northern border heading south, the goal to its
    south-east, no targets. *)
Definition OS_south : CyberShipII := vessel_at 100 50 PI 1.
Definition env_south : FossenEnv := env_of OS_south (80, 90) [] [] [] 0.

(** A generator whose unit draws are all 1/2 and whose indices are all 0. *)
Definition rng_half : Rng := mkRng (fun _ => 1 / 2) 0 (fun _ => 0%nat) 0.

(** The far pair in an environment whose control approach is not "tau". *)
Definition env_f123 : FossenEnv :=
  mkFossenEnv 0.5 100 100 1 7.5 60 "f123" 25 1000 0 0 0 0 0 0 5
              0 0 (90, 90) OS_far [TS_far] [0%Z] [0%Z] (Some [false]) nan [].

(** A time to the closest point of approach for the worked examples: for
    vessels on straight courses, 0 when they do not move relative to each
    other. *)
Definition tcpa_straight (NOS EOS NTS ETS chiOS chiTS VOS VTS : R) : R :=
  let vE := VTS * sin chiTS - VOS * sin chiOS in
  let vN := VTS * cos chiTS - VOS * cos chiOS in
  let den := vE * vE + vN * vN in
  if Req_dec_T den 0 then 0
  else - ((ETS - EOS) * vE + (NTS - NOS) * vN) / den.

(** Own ship heading 350° with the target 10 m due north of it heading
    180° (it bears 10°, the headings intersect at 190°): StarboardCrossing
    now, HeadOn at the previous tick. *)
Definition OS_turned : CyberShipII := vessel_at 50 50 (35 * PI / 18) 1.
Definition env_turned : FossenEnv :=
  env_of OS_turned (90, 90) [TS_corner] [1%Z] [2%Z] 1.

From Stdlib Require Import Sorted Permutation.

(* ------------------------------------------------------------------ *)
(** ** Rendering helpers *)

(** A matplotlib axis, as far as the environment draws on it: the lines
    plotted so far, each as its list of x and its list of y coordinates. *)
Definition Axis : Type := list (list R * list R).

(** [_plot_jet]: adds to [axis] the line from [(E, N)] of length [l] along
    [angle]; the keyword arguments only style the line. *)
Definition _plot_jet (axis : Axis) (E N l angle : R) : Res Axis :=
  (* transform angle in [0, 2pi) *)
  let angle := angle_to_2pi angle in
  let end_point :=
    (* 1. Quadrant *)
    if Rleb angle (PI / 2) then
      Some (E + sin angle * l, N + cos angle * l)
    (* 2. Quadrant *)
    else if Rltb (3 / 2 * PI) angle && Rleb angle (2 * PI) then
      let angle := 2 * PI - angle in
      Some (E - sin angle * l, N + cos angle * l)
    (* 3. Quadrant *)
    else if Rltb PI angle && Rleb angle (3 / 2 * PI) then
      let angle := angle - PI in
      Some (E - sin angle * l, N - cos angle * l)
    (* 4. Quadrant *)
    else if Rltb (PI / 2) angle && Rleb angle PI then
      let angle := PI - angle in
      Some (E + sin angle * l, N - cos angle * l)
    else None in
  (* draw on axis *)
  match end_point with
  | Some (E1, N1) => Ok (axis ++ [([E; E1], [N; N1])])
  | None => Raise UnboundLocalError
  end.

(* ------------------------------------------------------------------ *)
(** ** More vessels for the worked examples *)

(** Own ship heading north at 2 m/s, the target 20 m ahead of it heading
    north at 1 m/s. *)
Definition OS_behind : CyberShipII := vessel_at 10 50 0 2.
Definition TS_ahead : CyberShipII := vessel_at 30 50 0 1.

(* ------------------------------------------------------------------ *)
(** ** Spawning, seen from outside *)

(** The rendezvous of a spawn: in the front mode the own ship's position
    after [TCPA_crit] on its course at its speed, in the line mode the hit
    point for the time drawn. *)
Definition rendezvous `{VesselModel} (self : FossenEnv) (spawn_mode : string) (g : Rng)
    : R * (R * R) :=
  if (spawn_mode =? "front")%string then
    (TCPA_crit self,
     (eta_N (OS self)
        + _get_V (OS self) * cos (_get_course (OS self)) * TCPA_crit self,
      eta_E (OS self)
        + _get_V (OS self) * sin (_get_course (OS self)) * TCPA_crit self))
  else
    let t := TCPA_crit self / 2
             + (TCPA_crit self - TCPA_crit self / 2) * draw g 4 in
    (t, line_hit self t).

(* ------------------------------------------------------------------ *)
(** ** The observation, seen from outside *)

(** The target [TS] is inside the ship domain of its pair with the own
    ship. *)
Definition in_domain `{VesselModel} (self : FossenEnv) (TS : CyberShipII) : bool :=
  Rleb (ED (eta_N (OS self)) (eta_E (OS self)) (eta_N TS) (eta_E TS) true)
       (_get_ship_domain (OS self) TS).

(** The six entries that [_set_state] stores for a target classified
    [sigma]. *)
Definition TS_row `{VesselModel} (tcpa : R -> R -> R -> R -> R -> R -> R -> R -> R)
    (self : FossenEnv) (TS : CyberShipII) (sigma : Z) : list R :=
  [ED (eta_N (OS self)) (eta_E (OS self)) (eta_N TS) (eta_E TS) true / E_max self;
   bng_rel (eta_N (OS self)) (eta_E (OS self)) (eta_N TS) (eta_E TS)
           (eta_psi (OS self)) / (2 * PI);
   head_inter (eta_psi (OS self)) (eta_psi TS) / (2 * PI);
   fst (fst (nu TS));
   IZR sigma;
   tcpa (eta_N (OS self)) (eta_E (OS self)) (eta_N TS) (eta_E TS)
        (_get_course (OS self)) (_get_course TS) (_get_V (OS self)) (_get_V TS)
   / TCPA_crit self].

(** The rows of the targets inside the ship domain, in the order of
    [self.TSs], each with the class stored for it. *)
Definition visible_rows `{VesselModel} (tcpa : R -> R -> R -> R -> R -> R -> R -> R -> R)
    (self : FossenEnv) : list (list R) :=
  map (fun p => TS_row tcpa self (fst p) (snd p))
      (filter (fun p => in_domain self (fst p))
              (combine (TSs self) (TS_COLREGs self))).

(** Rows by descending first entry. *)
Definition descending (rows : list (list R)) : Prop :=
  StronglySorted (fun a b => hd 0 b <= hd 0 a) rows.

(* ------------------------------------------------------------------ *)
(** ** The passes of [step] over the targets, seen from outside *)

(** The target [TS] has passed the own ship: the test of [_handle_respawn]. *)
Definition passed `{VesselModel} (tcpa : R -> R -> R -> R -> R -> R -> R -> R -> R)
    (self : FossenEnv) (TS : CyberShipII) : bool :=
  Rltb (tcpa (eta_N (OS self)) (eta_E (OS self)) (eta_N TS) (eta_E TS)
             (_get_course (OS self)) (_get_course TS)
             (_get_V (OS self)) (_get_V TS)) (-10).

(** The two passes of [step] over the targets, as a computation of its
    own. *)
Definition targets_pass `{VesselModel} (tcpa : R -> R -> R -> R -> R -> R -> R -> R -> R)
    (self : FossenEnv) : M FossenEnv :=
  if (0 <? N_TSs self)%Z then
    pairs <- mapM (fun TS => _handle_map_leaving self TS true false false)
                  (TSs self) ;;
    ' (tss, flags) <- unzip_pairs pairs ;;
    let self := set_respawn self tss flags in
    pairs <- mapM (fun TS => _handle_respawn tcpa self TS) (TSs self) ;;
    ' (tss, flags) <- unzip_pairs pairs ;;
    ret (set_respawn self tss flags)
  else ret self.

(** A vessel 20 m north of the northern border, heading north. *)
Definition CS_north_out : CyberShipII := vessel_at 120 50 0 1.

(** The settings of [__init__] and the goal: what a tick never writes. *)
Definition same_settings (s s' : FossenEnv) : Prop :=
  delta_t s' = delta_t s /\ N_max s' = N_max s /\ E_max s' = E_max s
  /\ N_TSs s' = N_TSs s /\ safety_dist s' = safety_dist s
  /\ TCPA_crit s' = TCPA_crit s /\ cnt_approach s' = cnt_approach s
  /\ goal_reach_dist s' = goal_reach_dist s
  /\ _max_episode_steps s' = _max_episode_steps s
  /\ r_coll_sigma s' = r_coll_sigma s /\ state_pad s' = state_pad s
  /\ goal s' = goal s.

(** The environment as [__init__] leaves it with the default five targets:
    no respawn flags yet; own ship, goal and targets are placeholders until
    [reset] assigns them. *)
Definition env_fresh : FossenEnv :=
  mkFossenEnv 0.5 100 100 5 7.5 60 "tau" 25 1000 0 0 0 0 0 0 5
              0 0 (0, 0) OS_far [] [] [] None nan [].

(* ------------------------------------------------------------------ *)
(** ** The spawn for the starboard crossing, seen from outside *)

(** The heading that the intersection angle is added to: the own ship's
    heading in the front mode, the bearing of the goal in the line mode. *)
Definition spawn_reference (self : FossenEnv) (spawn_mode : string) : R :=
  if (spawn_mode =? "front")%string then eta_psi (OS self)
  else bng_abs (eta_N (OS self)) (eta_E (OS self)) (goal_N self) (goal_E self).

(** The time the target is traced back by: [TCPA_crit] in the front mode,
    the time drawn from [TCPA_crit/2, TCPA_crit) in the line mode. *)
Definition spawn_time (self : FossenEnv) (spawn_mode : string) (g : Rng) : R :=
  if (spawn_mode =? "front")%string then TCPA_crit self
  else TCPA_crit self / 2 + (TCPA_crit self - TCPA_crit self / 2) * draw g 4.

(** The point the target is traced back from: in the front mode the own
    ship's position after [TCPA_crit] on its course at its speed; in the
    line mode the own ship's position moved north and east by the absolute
    values of the components of its velocity projected on the bearing of
    the goal, times the time drawn. *)
Definition meeting_point `{VesselModel} (self : FossenEnv) (spawn_mode : string)
    (g : Rng) : R * R :=
  if (spawn_mode =? "front")%string then
    (eta_N (OS self) + _get_V (OS self) * cos (_get_course (OS self)) * TCPA_crit self,
     eta_E (OS self) + _get_V (OS self) * sin (_get_course (OS self)) * TCPA_crit self)
  else
    let b := bng_abs (eta_N (OS self)) (eta_E (OS self)) (goal_N self) (goal_E self) in
    (eta_N (OS self) + Rabs (speed_along self b * cos b) * spawn_time self spawn_mode g,
     eta_E (OS self) + Rabs (speed_along self b * sin b) * spawn_time self spawn_mode g).

(** The own ship as [reset] may leave it (heading north, at the converged
    speed of the thrust 3) with the goal to its north-east at (80, 80), and
    a generator whose unit draws are all 3/4. *)
Definition OS_start : CyberShipII := vessel_at 20 20 0 3.
Definition env_start : FossenEnv := env_of OS_start (80, 80) [] [] [] 0.
Definition rng_34 : Rng := mkRng (fun _ => 3 / 4) 0 (fun _ => 0%nat) 0.

(* ------------------------------------------------------------------ *)
(** ** The rule reward, as the specification words it *)

(** The class of the target at position [i] transitioned away from the set
    of HeadOn, StarboardCrossing and PortsideCrossing: it was in the set at
    the previous tick and is outside it now; the target is not flagged as
    respawned and bears between 0 and π. *)
Definition left_the_three_classes (self : FossenEnv) (flags : list bool) (i : nat)
    (TS : CyberShipII) : Prop :=
  nth_error flags i = Some false
  /\ (exists old new : Z,
        nth_error (TS_COLREGs_old self) i = Some old
        /\ nth_error (TS_COLREGs self) i = Some new
        /\ (old = 1 \/ old = 2 \/ old = 3)%Z
        /\ ~ (new = 1 \/ new = 2 \/ new = 3)%Z)
  /\ 0 <= bearing_OS (OS self) TS <= PI.

(* ------------------------------------------------------------------ *)
(** ** Two targets inside the ship domain *)

(** The turned own ship with the target 10 m due north of it and a second
    target 20 m due north of it, both heading south. *)
Definition TS_mid : CyberShipII := vessel_at 70 50 PI 1.
Definition env_pair : FossenEnv :=
  env_of OS_turned (90, 90) [TS_corner; TS_mid] [1%Z; 1%Z] [2%Z; 2%Z] 1.

(* ------------------------------------------------------------------ *)
(** ** The action space *)

(** The size of the discrete action space that [__init__] declares for a
    control approach; none for an approach it does not know. *)
Definition action_space (cnt_approach : string) : option Z :=
  if existsb (String.eqb cnt_approach) ["tau"; "rps_angle"]%string then Some 3%Z
  else if (cnt_approach =? "f123")%string then Some 9%Z
  else None.

(** [a] is an action of the declared action space. *)
Definition valid_action (self : FossenEnv) (a : Z) : Prop :=
  exists n : Z, action_space (cnt_approach self) = Some n /\ (0 <= a < n)%Z.

(** The target that the starboard-crossing branch places: the sampled
    vessel with the converged speed of its thrust, heading along the
    reference plus the intersection angle drawn from [185°, 292.5°), traced
    back from the meeting point along that heading for the spawn time. *)
Definition starboard_spawn `{VesselModel} (self : FossenEnv) (spawn_mode : string)
    (g : Rng) : CyberShipII :=
  let TS0 := sampled_vessel self g in
  let u := _u_from_tau_u TS0 (tau_u TS0) in
  let h := angle_to_2pi (dtr (185 + (292.5 - 185) * draw g 5)
                         + spawn_reference self spawn_mode) in
  let t := spawn_time self spawn_mode g in
  mkCyberShipII
    (fst (meeting_point self spawn_mode g) - u * cos h * t,
     snd (meeting_point self spawn_mode g) - u * sin h * t,
     h)
    (u, 0, 0) (tau_u TS0) hull_length (delta_t self) (N_max self) (E_max self)
    (cnt_approach self).

(* ================================================================== *)
(** * Properties *)

(** ** Comparisons *)

Lemma Rleb_true (x y : R) : Rleb x y = true <-> x <= y.
Proof. unfold Rleb. destruct (Rle_dec x y); split; intros; try easy. Qed.

Lemma Rltb_true (x y : R) : Rltb x y = true <-> x < y.
Proof. unfold Rltb. destruct (Rlt_dec x y); split; intros; try easy. Qed.

Lemma Rleb_false (x y : R) : Rleb x y = false <-> y < x.
Proof.
  unfold Rleb. destruct (Rle_dec x y); split; intros; try easy; lra.
Qed.

Lemma Rltb_false (x y : R) : Rltb x y = false <-> y <= x.
Proof.
  unfold Rltb. destruct (Rlt_dec x y); split; intros; try easy; lra.
Qed.

Lemma between_true (lo x hi : R) : between lo x hi = true <-> lo <= x <= hi.
Proof.
  unfold between. rewrite andb_true_iff, !Rleb_true. tauto.
Qed.

Lemma between_spec (lo x hi : R) : reflect (lo <= x <= hi) (between lo x hi).
Proof. apply iff_reflect. symmetry. apply between_true. Qed.

(** ** Degrees and radians *)

Lemma rtd_dtr (d : R) : rtd (dtr d) = d.
Proof. unfold rtd, dtr. field. apply PI_neq0. Qed.

Lemma dtr_rtd (x : R) : dtr (rtd x) = x.
Proof. unfold rtd, dtr. field. apply PI_neq0. Qed.

Lemma dtr_le (a b : R) : a <= b <-> dtr a <= dtr b.
Proof.
  unfold dtr. pose proof PI_RGT_0 as HPI. split; intros Hab; nra.
Qed.

Lemma rtd_upper (x d : R) : rtd x <= d <-> x <= dtr d.
Proof. rewrite (dtr_le (rtd x) d), dtr_rtd. tauto. Qed.

Lemma rtd_lower (x d : R) : d <= rtd x <-> dtr d <= x.
Proof. rewrite (dtr_le d (rtd x)), dtr_rtd. tauto. Qed.

Lemma between_rtd (lo x hi : R) :
  between lo (rtd x) hi = true <-> in_band lo x hi.
Proof.
  unfold in_band. rewrite between_true, rtd_upper, rtd_lower. tauto.
Qed.

(** ** Encounter classification *)

Section ClassifierFacts.
Context `{VM : VesselModel}.

(** The body of [_get_COLREG_situation] past the distance check, on the
    named angles. *)
Lemma COLREG_situation_unfold (OS TS : CyberShipII) (distance : float_ext) :
  _get_COLREG_situation OS TS distance =
  if gt_ext (ED (eta_N OS) (eta_E OS) (eta_N TS) (eta_E TS) true) distance
  then 0%Z
  else if between (-5) (rtd (angle_to_pi (bearing_OS OS TS))) 5
          && between 175 (rtd (C_T OS TS)) 185 then 1%Z
  else if between 5 (rtd (bearing_OS OS TS)) 112.5
          && between 185 (rtd (C_T OS TS)) 292.5 then 2%Z
  else if between 247.5 (rtd (bearing_OS OS TS)) 355
          && between 67.5 (rtd (C_T OS TS)) 175 then 3%Z
  else if between 112.5 (rtd (bearing_TS OS TS)) 247.5
          && between (-67.5) (rtd (angle_to_pi (C_T OS TS))) 67.5
          && Rltb (_get_V TS) (_get_V OS * cos (C_T_side OS TS)) then 4%Z
  else 0%Z.
Proof.
  unfold _get_COLREG_situation, bearing_OS, bearing_TS, C_T, C_T_side,
    eta_N, eta_E, eta_psi.
  destruct (eta OS) as [[NOS EOS] psi_OS], (eta TS) as [[NTS ETS] psi_TS].
  reflexivity.
Qed.

Lemma HeadOn_code (OS TS : CyberShipII) :
  between (-5) (rtd (angle_to_pi (bearing_OS OS TS))) 5
  && between 175 (rtd (C_T OS TS)) 185 = true <-> HeadOn OS TS.
Proof. unfold HeadOn. rewrite andb_true_iff, !between_rtd. tauto. Qed.

Lemma StarboardCrossing_code (OS TS : CyberShipII) :
  between 5 (rtd (bearing_OS OS TS)) 112.5
  && between 185 (rtd (C_T OS TS)) 292.5 = true <-> StarboardCrossing OS TS.
Proof. unfold StarboardCrossing. rewrite andb_true_iff, !between_rtd. tauto. Qed.

Lemma PortsideCrossing_code (OS TS : CyberShipII) :
  between 247.5 (rtd (bearing_OS OS TS)) 355
  && between 67.5 (rtd (C_T OS TS)) 175 = true <-> PortsideCrossing OS TS.
Proof. unfold PortsideCrossing. rewrite andb_true_iff, !between_rtd. tauto. Qed.

Lemma Overtaking_code (OS TS : CyberShipII) :
  between 112.5 (rtd (bearing_TS OS TS)) 247.5
  && between (-67.5) (rtd (angle_to_pi (C_T OS TS))) 67.5
  && Rltb (_get_V TS) (_get_V OS * cos (C_T_side OS TS)) = true
  <-> Overtaking OS TS.
Proof.
  unfold Overtaking, Overtaking_angles.
  rewrite !andb_true_iff, !between_rtd, Rltb_true. unfold Rgt. tauto.
Qed.

(** Without a cutoff the classifier is the decision list of the four
    classes. *)
Lemma COLREG_situation_decision_list (OS TS : CyberShipII) :
  first_match (COLREG_rules OS TS) 0 (_get_COLREG_situation OS TS np_inf).
Proof.
  rewrite COLREG_situation_unfold. cbn [gt_ext first_match COLREG_rules].
  pose proof (HeadOn_code OS TS) as H1.
  pose proof (StarboardCrossing_code OS TS) as H2.
  pose proof (PortsideCrossing_code OS TS) as H3.
  pose proof (Overtaking_code OS TS) as H4.
  destruct (between (-5) _ 5 && between 175 _ 185).
  { left. split; [apply H1|]; reflexivity. }
  right. split; [intros HP; apply H1 in HP; discriminate|].
  destruct (between 5 _ 112.5 && between 185 _ 292.5).
  { left. split; [apply H2|]; reflexivity. }
  right. split; [intros HP; apply H2 in HP; discriminate|].
  destruct (between 247.5 _ 355 && between 67.5 _ 175).
  { left. split; [apply H3|]; reflexivity. }
  right. split; [intros HP; apply H3 in HP; discriminate|].
  destruct (between 112.5 _ 247.5 && between (-67.5) _ 67.5 && Rltb _ _).
  { left. split; [apply H4|]; reflexivity. }
  right. split; [intros HP; apply H4 in HP; discriminate|].
  reflexivity.
Qed.

(** With a finite cutoff the classifier answers 0 for a target farther away
    than the cutoff and is the classifier without cutoff otherwise. *)
Lemma COLREG_situation_cutoff (OS TS : CyberShipII) (d : R) :
  _get_COLREG_situation OS TS (finite d) =
  if Rltb d (ED (eta_N OS) (eta_E OS) (eta_N TS) (eta_E TS) true)
  then 0%Z else _get_COLREG_situation OS TS np_inf.
Proof.
  rewrite !COLREG_situation_unfold. cbn [gt_ext]. reflexivity.
Qed.

(** C1: [_get_COLREG_situation] evaluates HeadOn, StarboardCrossing,
    PortsideCrossing and Overtaking in this order and answers with the code
    of the first that holds, 0 when none does.  HeadOn: the bearing of the
    target wrapped to (−π, π] within ±5° and the heading-intersection angle
    in [175°, 185°]; StarboardCrossing: the bearing in [5°, 112.5°] and C_T
    in [185°, 292.5°]; PortsideCrossing: the bearing in [247.5°, 355°] and
    C_T in [67.5°, 175°]; Overtaking: the bearing of the own ship seen from
    the target in [112.5°, 247.5°], C_T wrapped to (−π, π] in
    [−67.5°, 67.5°] and the own speed times the cosine of the course
    intersection angle strictly above the target's speed.  This is the call
    without cutoff (the default, as the simulation loop makes it); with a
    finite cutoff a target farther away than the cutoff gets 0 first. *)
Theorem COLREG_situation_priority_order (OS TS : CyberShipII) :
  first_match
    [ (in_band (-5) (angle_to_pi (bearing_OS OS TS)) 5
       /\ in_band 175 (C_T OS TS) 185, 1%Z);
      (in_band 5 (bearing_OS OS TS) 112.5
       /\ in_band 185 (C_T OS TS) 292.5, 2%Z);
      (in_band 247.5 (bearing_OS OS TS) 355
       /\ in_band 67.5 (C_T OS TS) 175, 3%Z);
      ((in_band 112.5 (bearing_TS OS TS) 247.5
        /\ in_band (-67.5) (angle_to_pi (C_T OS TS)) 67.5)
       /\ _get_V OS * cos (C_T_side OS TS) > _get_V TS, 4%Z) ]
    0 (_get_COLREG_situation OS TS np_inf)
  /\ forall d : R,
       _get_COLREG_situation OS TS (finite d) =
       if Rltb d (ED (eta_N OS) (eta_E OS) (eta_N TS) (eta_E TS) true)
       then 0%Z else _get_COLREG_situation OS TS np_inf.
Proof.
  split.
  - exact (COLREG_situation_decision_list OS TS).
  - intros d. apply COLREG_situation_cutoff.
Qed.

End ClassifierFacts.

(** ** Wrapping of angles *)

Lemma two_PI_pos : 0 < 2 * PI.
Proof. pose proof PI_RGT_0. lra. Qed.

Lemma angle_to_2pi_range (x : R) : 0 <= angle_to_2pi x < 2 * PI.
Proof.
  unfold angle_to_2pi.
  pose proof two_PI_pos as Hp.
  pose proof (Zfloor_bound (x / (2 * PI))) as [Hlo Hhi].
  assert (Hx : x = x / (2 * PI) * (2 * PI)) by (field; lra).
  split.
  - apply (Rmult_le_compat_r (2 * PI)) in Hlo; lra.
  - apply (Rmult_lt_compat_r (2 * PI)) in Hhi; lra.
Qed.

(** The wrapped angle is the one representative in [0, 2π). *)
Lemma angle_to_2pi_eq (x y : R) (k : Z) :
  0 <= y < 2 * PI -> x = y + IZR k * (2 * PI) -> angle_to_2pi x = y.
Proof.
  intros [Hlo Hhi] Hx. unfold angle_to_2pi.
  pose proof two_PI_pos as Hp.
  assert (Hq : x / (2 * PI) = y / (2 * PI) + IZR k) by (subst x; field; lra).
  assert (Hy : 0 <= y / (2 * PI) < 1).
  { split.
    - apply Rmult_le_pos; [lra|]. left. apply Rinv_0_lt_compat. lra.
    - apply (Rmult_lt_reg_r (2 * PI)); [lra|].
      replace (y / (2 * PI) * (2 * PI)) with y by (field; lra). lra. }
  rewrite (Zfloor_eq k); [lra|]. lra.
Qed.

Lemma angle_to_2pi_id (x : R) : 0 <= x < 2 * PI -> angle_to_2pi x = x.
Proof. intros Hx. apply (angle_to_2pi_eq x x 0); [exact Hx | lra]. Qed.

(** Wrapping moves an angle by a whole number of turns. *)
Lemma angle_to_2pi_turns (x : R) :
  exists k : Z, angle_to_2pi x = x + IZR k * (2 * PI).
Proof.
  exists (- Zfloor (x / (2 * PI)))%Z. unfold angle_to_2pi.
  rewrite opp_IZR. lra.
Qed.

Lemma angle_to_pi_range (x : R) : - PI < angle_to_pi x <= PI.
Proof.
  unfold angle_to_pi. pose proof (angle_to_2pi_range x) as [Hlo Hhi].
  pose proof PI_RGT_0. destruct (Rle_dec (angle_to_2pi x) PI); lra.
Qed.

Lemma angle_to_pi_low (x : R) : 0 <= x <= PI -> angle_to_pi x = x.
Proof.
  intros Hx. pose proof PI_RGT_0. unfold angle_to_pi.
  rewrite angle_to_2pi_id by lra. destruct (Rle_dec x PI); lra.
Qed.

Lemma angle_to_pi_high (x : R) : PI < x < 2 * PI -> angle_to_pi x = x - 2 * PI.
Proof.
  intros Hx. pose proof PI_RGT_0. unfold angle_to_pi.
  rewrite angle_to_2pi_id by lra. destruct (Rle_dec x PI); lra.
Qed.

(** ** The bearing of a point due north *)

Lemma atan2_ahead (x : R) : 0 < x -> atan2 0 x = 0.
Proof.
  intros Hx. unfold atan2. destruct (Rlt_dec 0 x); [|lra].
  replace (0 / x) with 0 by (field; lra). apply atan_0.
Qed.

Lemma bng_abs_north (N0 E0 N1 : R) : N0 < N1 -> bng_abs N0 E0 N1 E0 = 0.
Proof.
  intros HN. unfold bng_abs. replace (E0 - E0) with 0 by lra.
  rewrite atan2_ahead by lra. apply angle_to_2pi_id.
  pose proof PI_RGT_0. lra.
Qed.

(** ** The corner shared by HeadOn and StarboardCrossing *)

Lemma bearing_OS_corner : bearing_OS OS_corner TS_corner = dtr 5.
Proof.
  unfold bearing_OS, bng_rel, OS_corner, TS_corner, vessel_at, eta_N, eta_E,
    eta_psi; cbn [eta fst snd].
  rewrite bng_abs_north by lra.
  apply (angle_to_2pi_eq _ _ (-1)); unfold dtr; pose proof PI_RGT_0; lra.
Qed.

Lemma C_T_corner : C_T OS_corner TS_corner = dtr 185.
Proof.
  unfold C_T, head_inter, OS_corner, TS_corner, vessel_at, eta_psi;
    cbn [eta fst snd].
  apply (angle_to_2pi_eq _ _ (-1)); unfold dtr; pose proof PI_RGT_0; lra.
Qed.

Lemma in_band_at (lo d hi : R) : lo <= d <= hi -> in_band lo (dtr d) hi.
Proof. intros [Hlo Hhi]. unfold in_band. rewrite <- !dtr_le. lra. Qed.

(** The claim C2 fails at the corner (5°, 185°): own ship heading 355°, the
    target 10 m due north of it heading 180° satisfy the angular conditions
    of HeadOn and of StarboardCrossing at once, so the two classes are not
    mutually exclusive. *)
Lemma HeadOn_StarboardCrossing_not_exclusive :
  HeadOn OS_corner TS_corner /\ StarboardCrossing OS_corner TS_corner.
Proof.
  unfold HeadOn, StarboardCrossing.
  rewrite bearing_OS_corner, C_T_corner.
  rewrite angle_to_pi_low
    by (unfold dtr; pose proof PI_RGT_0; lra).
  split; (split; apply in_band_at; lra).
Qed.

(** ** Bearings seen from either vessel *)

(** The opposite point lies half a turn away. *)
Lemma atan2_opp (y x : R) :
  x <> 0 \/ y <> 0 ->
  exists k : Z, atan2 (- y) (- x) = atan2 y x + PI + IZR k * (2 * PI).
Proof.
  intros Hxy. unfold atan2.
  destruct (Rlt_dec 0 x) as [Hx | Hx].
  - destruct (Rlt_dec 0 (- x)); [lra|]. destruct (Rlt_dec (- x) 0); [|lra].
    replace (- y / - x) with (y / x) by (field; lra).
    destruct (Rle_dec 0 (- y)); [exists 0%Z | exists (-1)%Z]; lra.
  - destruct (Rlt_dec x 0) as [Hx' | Hx'].
    + destruct (Rlt_dec 0 (- x)); [|lra].
      replace (- y / - x) with (y / x) by (field; lra).
      destruct (Rle_dec 0 y); [exists (-1)%Z | exists 0%Z]; lra.
    + destruct (Rlt_dec 0 (- x)); [lra|]. destruct (Rlt_dec (- x) 0); [lra|].
      destruct (Rlt_dec 0 y).
      * destruct (Rlt_dec 0 (- y)); [lra|]. destruct (Rlt_dec (- y) 0); [|lra].
        exists (-1)%Z. lra.
      * destruct (Rlt_dec y 0).
        -- destruct (Rlt_dec 0 (- y)); [|lra]. exists 0%Z. lra.
        -- exfalso. destruct Hxy; lra.
Qed.

Lemma bng_abs_reverse (N0 E0 N1 E1 : R) :
  N0 <> N1 \/ E0 <> E1 ->
  exists k : Z,
    bng_abs N1 E1 N0 E0 = bng_abs N0 E0 N1 E1 + PI + IZR k * (2 * PI).
Proof.
  intros Hd. unfold bng_abs.
  destruct (atan2_opp (E1 - E0) (N1 - N0)) as [k Hk]; [destruct Hd; lra|].
  replace (- (E1 - E0)) with (E0 - E1) in Hk by lra.
  replace (- (N1 - N0)) with (N0 - N1) in Hk by lra.
  destruct (angle_to_2pi_turns (atan2 (E0 - E1) (N0 - N1))) as [k1 H1].
  destruct (angle_to_2pi_turns (atan2 (E1 - E0) (N1 - N0))) as [k2 H2].
  exists (k1 + k - k2)%Z. rewrite H1, H2, Hk, minus_IZR, plus_IZR. ring.
Qed.

(** For vessels at different places the bearing of the own ship seen from
    the target is fixed by the bearing of the target and the
    heading-intersection angle. *)
Lemma bearing_TS_turns (OS TS : CyberShipII) :
  eta_N OS <> eta_N TS \/ eta_E OS <> eta_E TS ->
  exists k : Z,
    bearing_TS OS TS = bearing_OS OS TS - C_T OS TS + PI + IZR k * (2 * PI).
Proof.
  intros Hd. unfold bearing_TS, bearing_OS, C_T, bng_rel, head_inter.
  destruct (bng_abs_reverse _ _ _ _ Hd) as [k Hk].
  set (b := bng_abs (eta_N OS) (eta_E OS) (eta_N TS) (eta_E TS)) in *.
  set (b' := bng_abs (eta_N TS) (eta_E TS) (eta_N OS) (eta_E OS)) in *.
  destruct (angle_to_2pi_turns (b' - eta_psi TS)) as [k1 H1].
  destruct (angle_to_2pi_turns (b - eta_psi OS)) as [k2 H2].
  destruct (angle_to_2pi_turns (eta_psi TS - eta_psi OS)) as [k3 H3].
  exists (k1 + k - k2 + k3)%Z.
  rewrite H1, H2, H3, Hk.
  repeat (rewrite plus_IZR || rewrite minus_IZR). ring.
Qed.

(** ** Overlaps of the encounter classes *)

Ltac band_bounds :=
  unfold in_band, dtr in *; pose proof PI_RGT_0.

Lemma HeadOn_StarboardCrossing_corner (OS TS : CyberShipII) :
  HeadOn OS TS /\ StarboardCrossing OS TS <->
  bearing_OS OS TS = dtr 5 /\ C_T OS TS = dtr 185.
Proof.
  unfold HeadOn, StarboardCrossing. split.
  - intros [[Hb Hc] [Hb' Hc']].
    rewrite angle_to_pi_low in Hb by (band_bounds; lra).
    band_bounds. lra.
  - intros [Hb Hc]. rewrite Hb, Hc.
    rewrite angle_to_pi_low by (band_bounds; lra).
    split; (split; apply in_band_at; lra).
Qed.

Lemma HeadOn_PortsideCrossing_corner (OS TS : CyberShipII) :
  HeadOn OS TS /\ PortsideCrossing OS TS <->
  bearing_OS OS TS = dtr 355 /\ C_T OS TS = dtr 175.
Proof.
  unfold HeadOn, PortsideCrossing. split.
  - intros [[Hb Hc] [Hb' Hc']].
    rewrite angle_to_pi_high in Hb by (band_bounds; lra).
    band_bounds. lra.
  - intros [Hb Hc]. rewrite Hb, Hc.
    rewrite angle_to_pi_high by (band_bounds; lra).
    split; (split; [band_bounds; lra | apply in_band_at; lra]).
Qed.

Lemma HeadOn_Overtaking_exclusive (OS TS : CyberShipII) :
  ~ (HeadOn OS TS /\ Overtaking_angles OS TS).
Proof.
  unfold HeadOn, Overtaking_angles. intros [[_ Hc] [_ Hw]].
  destruct (Rle_dec (C_T OS TS) PI) as [Hle | Hgt].
  - rewrite angle_to_pi_low in Hw by (band_bounds; lra). band_bounds. lra.
  - rewrite angle_to_pi_high in Hw by (band_bounds; lra). band_bounds. lra.
Qed.

Lemma StarboardCrossing_PortsideCrossing_exclusive (OS TS : CyberShipII) :
  ~ (StarboardCrossing OS TS /\ PortsideCrossing OS TS).
Proof.
  unfold StarboardCrossing, PortsideCrossing. intros [[_ Hc] [_ Hc']].
  band_bounds. lra.
Qed.

(** The crossing bands meet the overtaking band of the intersection angle
    only in one value each. *)
Lemma StarboardCrossing_Overtaking_C_T (OS TS : CyberShipII) :
  StarboardCrossing OS TS -> Overtaking_angles OS TS ->
  C_T OS TS = dtr 292.5.
Proof.
  unfold StarboardCrossing, Overtaking_angles. intros [_ Hc] [_ Hw].
  rewrite angle_to_pi_high in Hw by (band_bounds; lra). band_bounds. lra.
Qed.

Lemma PortsideCrossing_Overtaking_C_T (OS TS : CyberShipII) :
  PortsideCrossing OS TS -> Overtaking_angles OS TS ->
  C_T OS TS = dtr 67.5.
Proof.
  unfold PortsideCrossing, Overtaking_angles. intros [_ Hc] [_ Hw].
  rewrite angle_to_pi_low in Hw by (band_bounds; lra). band_bounds. lra.
Qed.

(** No whole number of turns lies strictly between two neighbours. *)
Lemma no_turn_between (k n : Z) : IZR n < IZR k < IZR n + 1 -> False.
Proof.
  intros [Hlo Hhi]. apply lt_IZR in Hlo.
  replace (IZR n + 1) with (IZR (n + 1)) in Hhi by (rewrite plus_IZR; lra).
  apply lt_IZR in Hhi. lia.
Qed.

Lemma StarboardCrossing_Overtaking_exclusive (OS TS : CyberShipII) :
  eta_N OS <> eta_N TS \/ eta_E OS <> eta_E TS ->
  ~ (StarboardCrossing OS TS /\ Overtaking_angles OS TS).
Proof.
  intros Hd [HS HO].
  pose proof (StarboardCrossing_Overtaking_C_T OS TS HS HO) as Hc.
  destruct (bearing_TS_turns OS TS Hd) as [k Hk].
  destruct HS as [Hb _], HO as [Hb' _]. rewrite Hk, Hc in Hb'.
  band_bounds. apply (no_turn_between k 0). split; nra.
Qed.

Lemma PortsideCrossing_Overtaking_exclusive (OS TS : CyberShipII) :
  eta_N OS <> eta_N TS \/ eta_E OS <> eta_E TS ->
  ~ (PortsideCrossing OS TS /\ Overtaking_angles OS TS).
Proof.
  intros Hd [HP HO].
  pose proof (PortsideCrossing_Overtaking_C_T OS TS HP HO) as Hc.
  destruct (bearing_TS_turns OS TS Hd) as [k Hk].
  destruct HP as [Hb _], HO as [Hb' _]. rewrite Hk, Hc in Hb'.
  band_bounds. apply (no_turn_between k (-1)). split; nra.
Qed.

Section OverlapFacts.
Context `{VM : VesselModel}.

Lemma COLREG_situation_HeadOn (OS TS : CyberShipII) :
  HeadOn OS TS -> _get_COLREG_situation OS TS np_inf = 1%Z.
Proof.
  intros HH. pose proof (COLREG_situation_decision_list OS TS) as Hm.
  cbn [first_match COLREG_rules] in Hm. tauto.
Qed.

Lemma COLREG_situation_StarboardCrossing (OS TS : CyberShipII) :
  ~ HeadOn OS TS -> StarboardCrossing OS TS ->
  _get_COLREG_situation OS TS np_inf = 2%Z.
Proof.
  intros HH HS. pose proof (COLREG_situation_decision_list OS TS) as Hm.
  cbn [first_match COLREG_rules] in Hm. tauto.
Qed.

Lemma COLREG_situation_PortsideCrossing (OS TS : CyberShipII) :
  ~ HeadOn OS TS -> PortsideCrossing OS TS ->
  _get_COLREG_situation OS TS np_inf = 3%Z.
Proof.
  intros HH HP. pose proof (COLREG_situation_decision_list OS TS) as Hm.
  pose proof (StarboardCrossing_PortsideCrossing_exclusive OS TS).
  cbn [first_match COLREG_rules] in Hm. tauto.
Qed.

(** C2, amended: for vessels at different places the angular conditions of
    the four classes exclude each other pairwise, except that HeadOn and
    StarboardCrossing both hold exactly where the target bears 5° and the
    headings intersect at 185°, and HeadOn and PortsideCrossing both hold
    exactly where the target bears 355° and the headings intersect at 175°;
    at these two corners, as wherever HeadOn holds, the classifier answers
    HeadOn, the first class in the priority order. *)
Theorem encounter_classes_exclusive_up_to_corners (OS TS : CyberShipII) :
  eta_N OS <> eta_N TS \/ eta_E OS <> eta_E TS ->
  (HeadOn OS TS /\ StarboardCrossing OS TS <->
   bearing_OS OS TS = dtr 5 /\ C_T OS TS = dtr 185)
  /\ (HeadOn OS TS /\ PortsideCrossing OS TS <->
      bearing_OS OS TS = dtr 355 /\ C_T OS TS = dtr 175)
  /\ ~ (HeadOn OS TS /\ Overtaking_angles OS TS)
  /\ ~ (StarboardCrossing OS TS /\ PortsideCrossing OS TS)
  /\ ~ (StarboardCrossing OS TS /\ Overtaking_angles OS TS)
  /\ ~ (PortsideCrossing OS TS /\ Overtaking_angles OS TS)
  /\ (HeadOn OS TS -> _get_COLREG_situation OS TS np_inf = 1%Z).
Proof.
  intros Hd.
  split; [apply HeadOn_StarboardCrossing_corner|].
  split; [apply HeadOn_PortsideCrossing_corner|].
  split; [apply HeadOn_Overtaking_exclusive|].
  split; [apply StarboardCrossing_PortsideCrossing_exclusive|].
  split; [apply StarboardCrossing_Overtaking_exclusive; exact Hd|].
  split; [apply PortsideCrossing_Overtaking_exclusive; exact Hd|].
  apply COLREG_situation_HeadOn.
Qed.

End OverlapFacts.

Lemma corner_vessels_apart :
  eta_N OS_corner <> eta_N TS_corner \/ eta_E OS_corner <> eta_E TS_corner.
Proof. left. unfold OS_corner, TS_corner, vessel_at, eta_N. cbn. lra. Defined.

(** The amended C2 at the corner vessels: they are at different places,
    both HeadOn and StarboardCrossing hold, none of them together with the
    overtaking angles, and the classifier answers HeadOn. *)
Lemma encounter_classes_exclusive_up_to_corners_witness :
  (eta_N OS_corner <> eta_N TS_corner \/ eta_E OS_corner <> eta_E TS_corner)
  /\ (HeadOn OS_corner TS_corner /\ StarboardCrossing OS_corner TS_corner <->
      bearing_OS OS_corner TS_corner = dtr 5 /\ C_T OS_corner TS_corner = dtr 185)
  /\ ~ (StarboardCrossing OS_corner TS_corner /\ Overtaking_angles OS_corner TS_corner)
  /\ (HeadOn OS_corner TS_corner ->
      @_get_COLREG_situation kinematic_model OS_corner TS_corner np_inf = 1%Z).
Proof.
  split; [exact corner_vessels_apart|].
  pose proof (@encounter_classes_exclusive_up_to_corners kinematic_model
                OS_corner TS_corner corner_vessels_apart) as H.
  tauto.
Defined.

(** ** The kinematic vessel of the examples *)

Lemma kinematic_V (N E psi u : R) :
  0 <= u -> @_get_V kinematic_model (vessel_at N E psi u) = u.
Proof.
  intros Hu. cbn. replace (u * u + 0 * 0) with (u * u) by ring.
  apply sqrt_square. exact Hu.
Qed.

Lemma kinematic_course (N E psi u : R) :
  0 < u -> 0 <= psi < 2 * PI ->
  @_get_course kinematic_model (vessel_at N E psi u) = psi.
Proof.
  intros Hu Hpsi. cbn. unfold eta_psi. cbn.
  rewrite atan2_ahead by exact Hu.
  replace (psi + 0) with psi by ring. apply angle_to_2pi_id. exact Hpsi.
Qed.

(** ** The far target *)

Lemma ED_far :
  ED (eta_N OS_far) (eta_E OS_far) (eta_N TS_far) (eta_E TS_far) true = 80.
Proof.
  unfold ED, OS_far, TS_far, vessel_at, eta_N, eta_E. cbn.
  replace ((10 - 90) * (10 - 90) + (50 - 50) * (50 - 50)) with (80 * 80) by ring.
  apply sqrt_square. lra.
Qed.

Lemma Rpower_2_126 : Rpower 2 1.26 <= 4.
Proof.
  replace 4 with (Rpower 2 (INR 2)).
  - apply Rle_Rpower; [lra | cbn; lra].
  - rewrite Rpower_pow by lra. cbn. ring.
Qed.

Lemma ship_domain_far :
  @_get_ship_domain kinematic_model OS_far TS_far <= 65.02.
Proof.
  unfold _get_ship_domain, OS_far, TS_far.
  pose proof PI_RGT_0 as HPI.
  rewrite !kinematic_V by lra.
  rewrite !kinematic_course by lra.
  rewrite sin_0, cos_0, sin_PI, cos_PI.
  replace ((1 * -1 - 1 * 1) * (1 * -1 - 1 * 1) + (1 * 0 - 1 * 0) * (1 * 0 - 1 * 0))
    with (2 * 2) by ring.
  rewrite sqrt_square by lra.
  rewrite Rmax_right by lra.
  unfold float_pow. destruct (Req_dec_T 2 0) as [H20 | _]; [lra|].
  pose proof Rpower_2_126. unfold vessel_at. cbn [CS_length]. lra.
Qed.

Lemma HeadOn_far : HeadOn OS_far TS_far.
Proof.
  pose proof PI_RGT_0 as HPI.
  assert (Hb : bearing_OS OS_far TS_far = 0).
  { unfold bearing_OS, bng_rel, OS_far, TS_far, vessel_at, eta_N, eta_E,
      eta_psi; cbn [eta fst snd].
    rewrite bng_abs_north by lra. apply (angle_to_2pi_eq _ _ 0); lra. }
  assert (Hc : C_T OS_far TS_far = dtr 180).
  { unfold C_T, head_inter, OS_far, TS_far, vessel_at, eta_psi;
      cbn [eta fst snd].
    unfold dtr. apply (angle_to_2pi_eq _ _ 0); lra. }
  unfold HeadOn. rewrite Hb, Hc, angle_to_pi_low by lra.
  split; [band_bounds; lra | apply in_band_at; lra].
Qed.

(** The claim C3 fails for a target 80 m ahead of the own ship, both at
    1 m/s on opposite headings: the target is beyond the ship domain of the
    pair (at most 65.02 m), and the per-tick pass classifies it HeadOn. *)
Lemma far_target_classified_HeadOn :
  @_get_ship_domain kinematic_model (OS env_far) TS_far
  < ED (eta_N (OS env_far)) (eta_E (OS env_far)) (eta_N TS_far) (eta_E TS_far) true
  /\ TSs env_far = [TS_far]
  /\ TS_COLREGs (@_set_COLREGs kinematic_model env_far) = [1%Z].
Proof.
  split; [|split].
  - change (OS env_far) with OS_far. rewrite ED_far.
    pose proof ship_domain_far. lra.
  - reflexivity.
  - unfold _set_COLREGs. cbn [TS_COLREGs set_COLREGs map TSs env_far env_of OS].
    rewrite (@COLREG_situation_HeadOn kinematic_model) by exact HeadOn_far.
    reflexivity.
Qed.

Section PassFacts.
Context `{VM : VesselModel}.

Lemma Forall2_map_r {A B : Type} (P : A -> B -> Prop) (f : A -> B) (l : list A) :
  (forall x, P x (f x)) -> Forall2 P l (map f l).
Proof. intros HP. induction l; cbn; constructor; auto. Qed.

(** C3, amended: the per-tick pass [_set_COLREGs] applies no distance
    cutoff: it keeps the previous classifications as the old ones and
    classifies every target, however far away, by the decision list of the
    four classes alone; only a call with a finite cutoff answers 0 for a
    target farther away than that cutoff. *)
Theorem set_COLREGs_has_no_cutoff (self : FossenEnv) :
  Forall2 (fun TS c => first_match (COLREG_rules (OS self) TS) 0 c)
          (TSs self) (TS_COLREGs (_set_COLREGs self))
  /\ TS_COLREGs_old (_set_COLREGs self) = TS_COLREGs self
  /\ forall (TS : CyberShipII) (d : R),
       d < ED (eta_N (OS self)) (eta_E (OS self)) (eta_N TS) (eta_E TS) true ->
       _get_COLREG_situation (OS self) TS (finite d) = 0%Z.
Proof.
  split; [|split].
  - unfold _set_COLREGs. cbn [TS_COLREGs set_COLREGs].
    apply Forall2_map_r. intros TS. apply COLREG_situation_decision_list.
  - reflexivity.
  - intros TS d Hd. rewrite COLREG_situation_cutoff.
    apply Rltb_true in Hd. rewrite Hd. reflexivity.
Qed.

End PassFacts.

(** ** Ship domain *)

Lemma float_pow_nonneg (x y : R) : 0 <= float_pow x y.
Proof.
  unfold float_pow. destruct (Req_dec_T x 0); [lra|].
  unfold Rpower. left. apply exp_pos.
Qed.

Lemma float_pow_monotone (x1 x2 y : R) :
  0 <= y -> 0 <= x1 <= x2 -> float_pow x1 y <= float_pow x2 y.
Proof.
  intros Hy [H1 H12]. unfold float_pow.
  destruct (Req_dec_T x1 0) as [E1 | N1], (Req_dec_T x2 0) as [E2 | N2].
  - lra.
  - unfold Rpower. left. apply exp_pos.
  - lra.
  - apply Rle_Rpower_l; lra.
Qed.

Lemma domain_radius_monotone (L V1 V2 : R) :
  0 <= L -> 0 <= V1 <= V2 -> domain_radius L V1 <= domain_radius L V2.
Proof.
  intros HL HV. unfold domain_radius.
  pose proof (float_pow_monotone V1 V2 1.26 ltac:(lra) HV) as Hp.
  pose proof (float_pow_nonneg V1 1.26).
  nra.
Qed.

Section DomainFacts.
Context `{VM : VesselModel}.

Lemma ship_domain_formula (OS TS : CyberShipII) :
  _get_ship_domain OS TS =
  domain_radius (CS_length OS) (Rmax (_get_V OS) (relative_speed OS TS)).
Proof. reflexivity. Qed.

Lemma chosen_speed_nonneg (OS TS : CyberShipII) :
  0 <= Rmax (_get_V OS) (relative_speed OS TS).
Proof.
  eapply Rle_trans; [|apply Rmax_r]. unfold relative_speed. apply sqrt_pos.
Qed.

(** C8: [_get_ship_domain] returns [length · V^1.26 + 30 · V] for
    [V = max(V_own, VR)], where [VR] is the norm of the difference of the two
    velocities resolved in the world frame with the course angles; and for a
    hull of non-negative length the radius does not decrease when
    [max(V_own, VR)] does not. *)
Theorem ship_domain_formula_and_monotone (OS TS OS' TS' : CyberShipII) :
  0 <= CS_length OS ->
  CS_length OS' = CS_length OS ->
  Rmax (_get_V OS) (relative_speed OS TS)
    <= Rmax (_get_V OS') (relative_speed OS' TS') ->
  let V := Rmax (_get_V OS) (relative_speed OS TS) in
  let VR :=
    sqrt ((_get_V TS * cos (_get_course TS) - _get_V OS * cos (_get_course OS))
          * (_get_V TS * cos (_get_course TS) - _get_V OS * cos (_get_course OS))
          + (_get_V TS * sin (_get_course TS) - _get_V OS * sin (_get_course OS))
            * (_get_V TS * sin (_get_course TS) - _get_V OS * sin (_get_course OS))) in
  relative_speed OS TS = VR
  /\ _get_ship_domain OS TS = CS_length OS * float_pow V 1.26 + 30 * V
  /\ (0 < V -> float_pow V 1.26 = Rpower V 1.26)
  /\ _get_ship_domain OS TS <= _get_ship_domain OS' TS'.
Proof.
  intros HL HL' HV V VR.
  split; [reflexivity|]. split; [reflexivity|]. split.
  - intros HVpos. unfold float_pow. destruct (Req_dec_T V 0); [lra | reflexivity].
  - rewrite !ship_domain_formula, HL'.
    apply domain_radius_monotone; [exact HL|].
    split; [apply chosen_speed_nonneg | exact HV].
Qed.

End DomainFacts.

Lemma relative_speed_self (OS : CyberShipII) :
  @relative_speed kinematic_model OS OS = 0.
Proof.
  unfold relative_speed.
  match goal with |- sqrt ?e = 0 => replace e with 0 by ring end.
  apply sqrt_0.
Qed.

Lemma chosen_speed_far :
  Rmax (@_get_V kinematic_model OS_far) (@relative_speed kinematic_model OS_far OS_far)
  <= Rmax (@_get_V kinematic_model OS_far) (@relative_speed kinematic_model OS_far TS_far).
Proof.
  apply Rle_max_compat_l. rewrite relative_speed_self.
  unfold relative_speed. apply sqrt_pos.
Defined.

Lemma hull_far : 0 <= CS_length OS_far.
Proof. unfold OS_far, vessel_at. cbn. lra. Defined.

(** C8 at the own ship of the far pair, once next to a vessel moving with it
    and once next to the target coming towards it. *)
Lemma ship_domain_formula_and_monotone_witness :
  0 <= CS_length OS_far
  /\ CS_length OS_far = CS_length OS_far
  /\ Rmax (@_get_V kinematic_model OS_far)
          (@relative_speed kinematic_model OS_far OS_far)
     <= Rmax (@_get_V kinematic_model OS_far)
             (@relative_speed kinematic_model OS_far TS_far)
  /\ @_get_ship_domain kinematic_model OS_far OS_far
     <= @_get_ship_domain kinematic_model OS_far TS_far.
Proof.
  split; [exact hull_far|]. split; [reflexivity|].
  split; [exact chosen_speed_far|].
  apply (@ship_domain_formula_and_monotone kinematic_model
           OS_far OS_far OS_far TS_far hull_far eq_refl chosen_speed_far).
Defined.

(** ** Collision reward *)

Lemma ED_squared (N0 E0 N1 E1 : R) :
  ED N0 E0 N1 E1 false = ED N0 E0 N1 E1 true * ED N0 E0 N1 E1 true.
Proof.
  unfold ED. rewrite sqrt_sqrt; [reflexivity|].
  pose proof (Rle_0_sqr (N0 - N1)). pose proof (Rle_0_sqr (E0 - E1)).
  unfold Rsqr in *. lra.
Qed.

Lemma hard_penalty_code (self : FossenEnv) (TS : CyberShipII) :
  (if Rltb (EDsq self TS) (safety_dist self * safety_dist self) then 10 else 0)
  = hard_penalty self TS.
Proof.
  unfold hard_penalty, Rltb.
  destruct (Rlt_dec (EDsq self TS) (safety_dist self * safety_dist self));
    reflexivity.
Qed.

Lemma collision_loop_sum (self : FossenEnv) (l : list CyberShipII) (acc : R) :
  fold_left
    (fun r_coll TS =>
       let EDsq_TS := ED (eta_N (OS self)) (eta_E (OS self)) (eta_N TS) (eta_E TS) false in
       let r_coll := r_coll - exp (-0.5 * EDsq_TS / (r_coll_sigma self * r_coll_sigma self)) in
       r_coll - (if Rltb EDsq_TS (safety_dist self * safety_dist self) then 10 else 0))
    l acc
  = acc + Rsum (fun TS => - proximity_penalty self TS - hard_penalty self TS) l.
Proof.
  revert acc. induction l as [|TS l IH]; intros acc; cbn [fold_left Rsum fold_right].
  - lra.
  - rewrite IH. fold (EDsq self TS). rewrite hard_penalty_code.
    unfold proximity_penalty, Rsum. ring.
Qed.

Lemma Rsum_nonpos {A : Type} (f : A -> R) (l : list A) :
  (forall x, f x <= 0) -> Rsum f l <= 0.
Proof.
  intros Hf. unfold Rsum. induction l as [|x l IH]; cbn; [lra|].
  specialize (Hf x). lra.
Qed.

Lemma proximity_penalty_pos (self : FossenEnv) (TS : CyberShipII) :
  0 < proximity_penalty self TS.
Proof. apply exp_pos. Qed.

Lemma hard_penalty_nonneg (self : FossenEnv) (TS : CyberShipII) :
  0 <= hard_penalty self TS.
Proof.
  unfold hard_penalty. destruct (Rlt_dec _ _); lra.
Qed.

Section RewardFacts.
Context `{VM : VesselModel}.

Lemma calculate_reward_r_coll (self self' : FossenEnv) (w1 w2 w3 w4 w5 : R) :
  _calculate_reward self w1 w2 w3 w4 w5 = Ok self' ->
  r_coll self' = collision_reward self.
Proof.
  unfold _calculate_reward, bindR.
  destruct (COLREG_reward_loop self 0 0 (TSs self)); [|discriminate].
  intros [= <-]. reflexivity.
Qed.

(** C6: the collision reward is the sum over all targets of
    [−exp(−0.5·ED²/σ²)] minus 10 for the targets whose squared distance is
    strictly below [safety_dist²]; a target at exactly
    [ED² = safety_dist²] gets no hard penalty; the reward is never
    positive; and it is what [_calculate_reward] stores as [r_coll]. *)
Theorem collision_reward_is_sum (self : FossenEnv) :
  collision_reward self
  = Rsum (fun TS =>
            - exp (-0.5 * EDsq self TS / (r_coll_sigma self * r_coll_sigma self))
            - hard_penalty self TS) (TSs self)
  /\ (forall TS,
        EDsq self TS
        = ED (eta_N (OS self)) (eta_E (OS self)) (eta_N TS) (eta_E TS) true
          * ED (eta_N (OS self)) (eta_E (OS self)) (eta_N TS) (eta_E TS) true)
  /\ (forall TS,
        (EDsq self TS < safety_dist self * safety_dist self ->
         hard_penalty self TS = 10)
        /\ (safety_dist self * safety_dist self <= EDsq self TS ->
            hard_penalty self TS = 0)
        /\ (EDsq self TS = safety_dist self * safety_dist self ->
            hard_penalty self TS = 0))
  /\ collision_reward self <= 0
  /\ (forall self' w_dist w_head w_coll w_COLREG w_map,
        _calculate_reward self w_dist w_head w_coll w_COLREG w_map = Ok self' ->
        r_coll self' = collision_reward self).
Proof.
  assert (Hsum : collision_reward self = r_coll_sum self).
  { unfold collision_reward, r_coll_sum. rewrite collision_loop_sum. lra. }
  split; [exact Hsum|]. split; [|split; [|split]].
  - intros TS. apply ED_squared.
  - intros TS. unfold hard_penalty.
    destruct (Rlt_dec (EDsq self TS) (safety_dist self * safety_dist self));
      repeat split; intros; lra.
  - rewrite Hsum. apply Rsum_nonpos. intros TS.
    pose proof (proximity_penalty_pos self TS).
    pose proof (hard_penalty_nonneg self TS). lra.
  - intros self' w1 w2 w3 w4 w5. apply calculate_reward_r_coll.
Qed.

End RewardFacts.

(** ** Rule reward *)

Lemma index_ok {A : Type} (seq : list A) (i : nat) :
  (i < List.length seq)%nat -> exists x, nth_error seq i = Some x /\ index seq i = Ok x.
Proof.
  intros Hi. unfold index.
  destruct (nth_error seq i) as [x|] eqn:E.
  - exists x. split; reflexivity.
  - apply nth_error_None in E. lia.
Qed.

Lemma Z_in_123 (x : Z) : Z_in x [1; 2; 3]%Z = true <-> (x = 1 \/ x = 2 \/ x = 3)%Z.
Proof.
  unfold Z_in. cbn [existsb]. rewrite !orb_true_iff, !Z.eqb_eq.
  intuition discriminate.
Qed.

(** One pass of the loop charges the target exactly on a rule violation. *)
Lemma COLREG_reward_body_spec (self : FossenEnv) (flags : list bool)
    (acc : R) (i : nat) (TS : CyberShipII) :
  respawn_flags self = Some flags ->
  (i < List.length flags)%nat ->
  (i < List.length (TS_COLREGs self))%nat ->
  (i < List.length (TS_COLREGs_old self))%nat ->
  (rule_violation self flags i TS
   /\ COLREG_reward_body self acc i TS = Ok (acc - 10))
  \/ (~ rule_violation self flags i TS
      /\ COLREG_reward_body self acc i TS = Ok acc).
Proof.
  intros Hflags Hf Hn Ho.
  destruct (index_ok flags i Hf) as [flag [Ef Ef']].
  destruct (index_ok _ i Hn) as [new [En En']].
  destruct (index_ok _ i Ho) as [old [Eo Eo']].
  unfold COLREG_reward_body, get_respawn_flags. rewrite Hflags.
  cbn [bindR]. rewrite Ef'. cbn [bindR].
  unfold rule_violation. rewrite Ef, En, Eo.
  destruct flag; cbn [negb].
  { right. split; [|reflexivity]. intros [Hc _]. discriminate. }
  rewrite En', Eo'. cbn [bindR].
  destruct (new =? old)%Z eqn:Eq; cbn [negb].
  { right. split; [|reflexivity]. apply Z.eqb_eq in Eq.
    intros [_ [[o [n [[= <-] [[= <-] [Hne _]]]]] _]]. contradiction. }
  apply Z.eqb_neq in Eq.
  destruct (Z_in old [1; 2; 3]%Z) eqn:Ein.
  2:{ right. split; [|reflexivity].
      intros [_ [[o [n [[= <-] [_ [_ H123]]]]] _]].
      apply Z_in_123 in H123. congruence. }
  apply Z_in_123 in Ein.
  fold (bearing_OS (OS self) TS).
  destruct (between_spec 0 (bearing_OS (OS self) TS) PI) as [Hb | Hb].
  - left. split; [|reflexivity].
    split; [reflexivity|]. split; [|exact Hb].
    exists old, new. auto.
  - right. split; [|reflexivity]. intros [_ [_ Hb']]. contradiction.
Qed.

Lemma COLREG_reward_loop_spec (self : FossenEnv) (flags : list bool)
    (seq : list CyberShipII) :
  respawn_flags self = Some flags ->
  forall (i : nat) (acc : R),
    (i + List.length seq <= List.length flags)%nat ->
    (i + List.length seq <= List.length (TS_COLREGs self))%nat ->
    (i + List.length seq <= List.length (TS_COLREGs_old self))%nat ->
    exists s : R,
      COLREG_reward_loop self acc i seq = Ok (acc + s)
      /\ rule_reward self flags i seq s.
Proof.
  intros Hflags. induction seq as [|TS rest IH]; intros i acc Hf Hn Ho.
  - exists 0. split; [cbn; f_equal; lra | constructor].
  - cbn [List.length] in Hf, Hn, Ho. cbn [COLREG_reward_loop].
    destruct (COLREG_reward_body_spec self flags acc i TS Hflags)
      as [[Hv Hbody] | [Hv Hbody]]; try lia.
    + rewrite Hbody. cbn [bindR].
      destruct (IH (S i) (acc - 10)) as [s [Hloop Hs]]; try lia.
      exists (s - 10). split.
      * rewrite Hloop. f_equal. lra.
      * apply rule_reward_charged; assumption.
    + rewrite Hbody. cbn [bindR].
      destruct (IH (S i) acc) as [s [Hloop Hs]]; try lia.
      exists s. split; [exact Hloop|].
      apply rule_reward_free; assumption.
Qed.

Section RuleRewardFacts.
Context `{VM : VesselModel}.

(** C7, amended: the rule reward takes 10 off, cumulatively, for exactly
    those targets that are not flagged as just respawned, whose class of the
    previous tick was HeadOn, StarboardCrossing or PortsideCrossing and
    whose class now differs from it (also when the class now is another of
    the three), and that now bear between 0° and 180° from the own ship; no
    other target contributes, and the total is what [_calculate_reward]
    stores as [r_COLREG]. *)
Theorem rule_reward_charges_exactly (self : FossenEnv) (flags : list bool) :
  respawn_flags self = Some flags ->
  List.length flags = List.length (TSs self) ->
  List.length (TS_COLREGs self) = List.length (TSs self) ->
  List.length (TS_COLREGs_old self) = List.length (TSs self) ->
  exists s : R,
    rule_reward self flags 0 (TSs self) s
    /\ COLREG_reward_loop self 0 0 (TSs self) = Ok s
    /\ forall w_dist w_head w_coll w_COLREG w_map,
         exists self',
           _calculate_reward self w_dist w_head w_coll w_COLREG w_map = Ok self'
           /\ r_COLREG self' = s.
Proof.
  intros Hflags Hf Hn Ho.
  destruct (COLREG_reward_loop_spec self flags (TSs self) Hflags 0%nat 0)
    as [s [Hloop Hs]]; try lia.
  replace (0 + s) with s in Hloop by lra.
  exists s. split; [exact Hs|]. split; [exact Hloop|].
  intros w1 w2 w3 w4 w5. unfold _calculate_reward. rewrite Hloop.
  cbn [bindR]. eexists. split; reflexivity.
Qed.

End RuleRewardFacts.

Lemma bearing_OS_turned : bearing_OS OS_turned TS_corner = dtr 10.
Proof.
  unfold bearing_OS, bng_rel, OS_turned, TS_corner, vessel_at, eta_N, eta_E,
    eta_psi; cbn [eta fst snd].
  rewrite bng_abs_north by lra.
  apply (angle_to_2pi_eq _ _ (-1)); unfold dtr; pose proof PI_RGT_0; lra.
Qed.

(** A target whose class changes from HeadOn to StarboardCrossing, one of
    the three classes to another, is charged: it bears 10°. *)
Lemma change_within_the_three_classes_is_charged :
  rule_violation env_turned [false] 0 TS_corner
  /\ COLREG_reward_loop env_turned 0 0 (TSs env_turned) = Ok (-10).
Proof.
  assert (Hv : rule_violation env_turned [false] 0 TS_corner).
  { split; [reflexivity|]. split.
    - exists 1%Z, 2%Z. cbn. repeat split; auto. discriminate.
    - change (OS env_turned) with OS_turned. rewrite bearing_OS_turned.
      unfold dtr. pose proof PI_RGT_0. lra. }
  split; [exact Hv|].
  cbn [COLREG_reward_loop TSs env_turned env_of].
  assert (H1 : (0 < 1)%nat) by lia.
  destruct (COLREG_reward_body_spec env_turned [false] 0 0 TS_corner
              eq_refl H1 H1 H1) as [[_ Hbody] | [Hnv _]].
  - rewrite Hbody. cbn [bindR]. f_equal. lra.
  - contradiction.
Qed.

(** The claim C7 fails at the turned own ship: the class of its target went
    from HeadOn to StarboardCrossing, from one of the three classes to
    another, so that it has not transitioned away from the set; the target
    is charged all the same, and [_calculate_reward] stores -10. *)
Lemma within_set_change_is_charged :
  TSs env_turned = [TS_corner]
  /\ nth_error (TS_COLREGs_old env_turned) 0 = Some 1%Z
  /\ nth_error (TS_COLREGs env_turned) 0 = Some 2%Z
  /\ ~ left_the_three_classes env_turned [false] 0 TS_corner
  /\ COLREG_reward_loop env_turned 0 0 (TSs env_turned) = Ok (-10)
  /\ exists self' : FossenEnv,
       @_calculate_reward kinematic_model env_turned 1 1 1 1 1 = Ok self'
       /\ r_COLREG self' = -10.
Proof.
  destruct change_within_the_three_classes_is_charged as [_ Hloop].
  split; [reflexivity|]. split; [reflexivity|]. split; [reflexivity|].
  split; [|split; [exact Hloop|]].
  - intros [_ [[old [new [Hold [Hnew [_ Hout]]]]] _]].
    cbn in Hnew. injection Hnew as <-. apply Hout. right. left. reflexivity.
  - unfold _calculate_reward. rewrite Hloop. cbn [bindR].
    eexists. split; reflexivity.
Qed.

(** C7 at the environment of the turned own ship: one target, not
    respawned, HeadOn at the previous tick and StarboardCrossing now. *)
Lemma rule_reward_charges_exactly_witness :
  respawn_flags env_turned = Some [false]
  /\ List.length [false] = List.length (TSs env_turned)
  /\ List.length (TS_COLREGs env_turned) = List.length (TSs env_turned)
  /\ List.length (TS_COLREGs_old env_turned) = List.length (TSs env_turned)
  /\ exists s : R,
       rule_reward env_turned [false] 0 (TSs env_turned) s
       /\ COLREG_reward_loop env_turned 0 0 (TSs env_turned) = Ok s
       /\ forall w_dist w_head w_coll w_COLREG w_map,
            exists self',
              @_calculate_reward kinematic_model env_turned
                w_dist w_head w_coll w_COLREG w_map = Ok self'
              /\ r_COLREG self' = s.
Proof.
  split; [reflexivity|]. split; [reflexivity|].
  split; [reflexivity|]. split; [reflexivity|].
  exact (@rule_reward_charges_exactly kinematic_model env_turned [false]
           eq_refl eq_refl eq_refl eq_refl).
Defined.

(** ** The hit point of the line mode *)

Section HitPointFacts.
Context `{VM : VesselModel}.

Lemma line_hit_components (self : FossenEnv) (t_hit : R) :
  let b := bng_abs (eta_N (OS self)) (eta_E (OS self)) (goal_N self) (goal_E self) in
  line_hit self t_hit =
  (eta_N (OS self) + Rabs (speed_along self b * cos b) * t_hit,
   eta_E (OS self) + Rabs (speed_along self b * sin b) * t_hit).
Proof.
  intros b. unfold line_hit, speed_along. fold b.
  f_equal; f_equal; f_equal; f_equal; field.
Qed.

Lemma line_hit_north_east (self : FossenEnv) (t_hit : R) :
  let b := bng_abs (eta_N (OS self)) (eta_E (OS self)) (goal_N self) (goal_E self) in
  0 <= sin b -> 0 <= cos b ->
  line_hit self t_hit =
  (eta_N (OS self) + Rabs (speed_along self b) * t_hit * cos b,
   eta_E (OS self) + Rabs (speed_along self b) * t_hit * sin b).
Proof.
  intros b Hs Hc. rewrite line_hit_components. fold b.
  rewrite !Rabs_mult, (Rabs_pos_eq (cos b)), (Rabs_pos_eq (sin b)) by assumption.
  f_equal; ring.
Qed.

(** Where the line mode does what its docstring says: when the goal bears
    between north and east of the own ship (sine and cosine of the absolute
    bearing are not negative), the hit point
    of the line mode lies on the ray from the own ship along the bearing to
    the goal, at the distance [|vR| · t_hit], where [vR] is the own ship's
    velocity projected on that bearing and [t_hit], the time drawn, lies in
    [TCPA_crit/2, TCPA_crit]; the target returned is traced back from this
    hit point. *)
Theorem line_mode_hit_point_on_ray (self : FossenEnv) (TS : CyberShipII) (g : Rng) :
  let N0 := eta_N (OS self) in
  let E0 := eta_E (OS self) in
  let b := bng_abs N0 E0 (goal_N self) (goal_E self) in
  0 <= TCPA_crit self ->
  0 <= np_draws g (np_pos g) < 1 ->
  0 <= sin b -> 0 <= cos b ->
  exists (t_hit head_TS_s : R) (g' : Rng),
    TCPA_crit self / 2 <= t_hit <= TCPA_crit self
    /\ line_hit self t_hit
       = (N0 + Rabs (speed_along self b) * t_hit * cos b,
          E0 + Rabs (speed_along self b) * t_hit * sin b)
    /\ on_ray N0 E0 b (line_hit self t_hit)
    /\ _get_TS_place self "line" TS 2 g
       = Ok (set_eta TS
               (fst (line_hit self t_hit)
                  - fst (fst (nu TS)) * cos head_TS_s * t_hit,
                snd (line_hit self t_hit)
                  - fst (fst (nu TS)) * sin head_TS_s * t_hit,
                head_TS_s), g').
Proof.
  intros N0 E0 b HT Hu Hs Hc.
  set (t_hit := TCPA_crit self / 2
                + (TCPA_crit self - TCPA_crit self / 2) * np_draws g (np_pos g)).
  exists t_hit. eexists. eexists.
  split; [|split; [|split]].
  - unfold t_hit. split; nra.
  - apply line_hit_north_east; assumption.
  - exists (Rabs (speed_along self b) * t_hit). split.
    + apply Rmult_le_pos; [apply Rabs_pos|]. unfold t_hit. nra.
    + apply line_hit_north_east; assumption.
  - unfold _get_TS_place. cbn -[line_hit].
    unfold bind, uniform. cbn -[line_hit]. fold t_hit.
    destruct (line_hit self t_hit) as [N_hit E_hit]. cbn.
    reflexivity.
Qed.

End HitPointFacts.

(** A goal to the north-east of the own ship bears between north and east. *)
Lemma bng_abs_north_east (N0 E0 N1 E1 : R) :
  N0 < N1 -> E0 <= E1 ->
  0 <= sin (bng_abs N0 E0 N1 E1) /\ 0 <= cos (bng_abs N0 E0 N1 E1).
Proof.
  intros HN HE. unfold bng_abs, atan2.
  destruct (Rlt_dec 0 (N1 - N0)); [|lra].
  pose proof PI_RGT_0 as HPI.
  pose proof (atan_bound ((E1 - E0) / (N1 - N0))) as [_ Hhi].
  assert (Hlo : 0 <= atan ((E1 - E0) / (N1 - N0))).
  { rewrite <- atan_0.
    destruct (Req_dec (E1 - E0) 0) as [E | E].
    - rewrite E. replace (0 / (N1 - N0)) with 0 by (field; lra). lra.
    - left. apply atan_increasing. apply Rdiv_lt_0_compat; lra. }
  rewrite angle_to_2pi_id by lra.
  split; [apply sin_ge_0 | apply cos_ge_0]; lra.
Qed.

Lemma rng_half_draw : 0 <= np_draws rng_half (np_pos rng_half) < 1.
Proof. cbn. lra. Defined.

Lemma TCPA_crit_far : 0 <= TCPA_crit env_far.
Proof. cbn. lra. Defined.

Lemma goal_bearing_far :
  0 <= sin (bng_abs (eta_N (OS env_far)) (eta_E (OS env_far))
                    (goal_N env_far) (goal_E env_far))
  /\ 0 <= cos (bng_abs (eta_N (OS env_far)) (eta_E (OS env_far))
                       (goal_N env_far) (goal_E env_far)).
Proof. apply bng_abs_north_east; cbn; lra. Defined.

(** The north-east case for the own ship at (10, 50) and the goal at (90, 90),
    with the draw 1/2. *)
Lemma line_mode_hit_point_on_ray_witness :
  0 <= TCPA_crit env_far
  /\ 0 <= np_draws rng_half (np_pos rng_half) < 1
  /\ (0 <= sin (bng_abs (eta_N (OS env_far)) (eta_E (OS env_far))
                        (goal_N env_far) (goal_E env_far))
      /\ 0 <= cos (bng_abs (eta_N (OS env_far)) (eta_E (OS env_far))
                           (goal_N env_far) (goal_E env_far)))
  /\ exists (t_hit head_TS_s : R) (g' : Rng),
       TCPA_crit env_far / 2 <= t_hit <= TCPA_crit env_far
       /\ on_ray (eta_N (OS env_far)) (eta_E (OS env_far))
                 (bng_abs (eta_N (OS env_far)) (eta_E (OS env_far))
                          (goal_N env_far) (goal_E env_far))
                 (@line_hit kinematic_model env_far t_hit)
       /\ @_get_TS_place kinematic_model env_far "line" TS_far 2 rng_half
          = Ok (set_eta TS_far
                  (fst (@line_hit kinematic_model env_far t_hit)
                     - fst (fst (nu TS_far)) * cos head_TS_s * t_hit,
                   snd (@line_hit kinematic_model env_far t_hit)
                     - fst (fst (nu TS_far)) * sin head_TS_s * t_hit,
                   head_TS_s), g').
Proof.
  split; [exact TCPA_crit_far|]. split; [exact rng_half_draw|].
  split; [exact goal_bearing_far|].
  destruct (@line_mode_hit_point_on_ray kinematic_model env_far TS_far rng_half
              TCPA_crit_far rng_half_draw
              (proj1 goal_bearing_far) (proj2 goal_bearing_far))
    as [t_hit [head [g' [Ht [_ [Hray Hres]]]]]].
  exists t_hit, head, g'. split; [exact Ht|]. split; [exact Hray|exact Hres].
Defined.

(** ** The hit point when the goal lies to the south-east *)

Lemma bng_abs_south : 
  bng_abs 100 50 80 90 = atan (-2) + PI.
Proof.
  unfold bng_abs, atan2.
  destruct (Rlt_dec 0 (80 - 100)); [lra|].
  destruct (Rlt_dec (80 - 100) 0); [|lra].
  destruct (Rle_dec 0 (90 - 50)); [|lra].
  replace ((90 - 50) / (80 - 100)) with (-2) by field.
  pose proof (atan_bound (-2)) as [Hlo Hhi]. pose proof PI_RGT_0.
  apply angle_to_2pi_id. lra.
Qed.

Lemma cos_bng_abs_south : cos (bng_abs 100 50 80 90) < 0.
Proof.
  rewrite bng_abs_south, neg_cos.
  pose proof (atan_bound (-2)) as [Hlo Hhi].
  assert (Hlo' : - (PI / 2) < atan (-2)) by lra.
  pose proof (cos_gt_0 (atan (-2)) Hlo' Hhi). lra.
Qed.

(** C9: the line mode misses the path to the goal.  For the own ship at
    (100, 50) sailing south at 1 m/s with the goal at (80, 90), the goal
    bears to the south (the cosine of the bearing is negative), but the hit
    point for the time 30 s lies to the north of the own ship: the absolute
    values taken of the two components of the projected velocity drop the
    sign of the northward one, and the hit point is not on the ray towards
    the goal, on which the docstring of [_get_TS] places the spawn. *)
Lemma line_hit_not_towards_goal :
  cos (bng_abs (eta_N (OS env_south)) (eta_E (OS env_south))
               (goal_N env_south) (goal_E env_south)) < 0
  /\ TCPA_crit env_south / 2 <= 30 <= TCPA_crit env_south
  /\ eta_N (OS env_south) < fst (@line_hit kinematic_model env_south 30)
  /\ ~ on_ray (eta_N (OS env_south)) (eta_E (OS env_south))
              (bng_abs (eta_N (OS env_south)) (eta_E (OS env_south))
                       (goal_N env_south) (goal_E env_south))
              (@line_hit kinematic_model env_south 30).
Proof.
  change (eta_N (OS env_south)) with 100.
  change (eta_E (OS env_south)) with 50.
  change (goal_N env_south) with 80.
  change (goal_E env_south) with 90.
  pose proof cos_bng_abs_south as Hcos.
  assert (HN : 100 < fst (@line_hit kinematic_model env_south 30)).
  { rewrite (@line_hit_components kinematic_model). cbn [fst].
    change (eta_N (OS env_south)) with 100.
    change (eta_E (OS env_south)) with 50.
    change (goal_N env_south) with 80.
    change (goal_E env_south) with 90.
    unfold speed_along. change (OS env_south) with OS_south. unfold OS_south.
    pose proof PI_RGT_0 as HPI.
    rewrite kinematic_V, kinematic_course by lra.
    rewrite sin_PI, cos_PI.
    set (c := cos (bng_abs 100 50 80 90)) in *.
    assert (Hp : 0 < Rabs ((1 * 0 * sin (bng_abs 100 50 80 90) + 1 * -1 * c) * c)).
    { apply Rabs_pos_lt. nra. }
    lra. }
  split; [exact Hcos|]. split; [cbn; lra|]. split; [exact HN|].
  intros [d [Hd Heq]].
  rewrite Heq in HN. cbn [fst] in HN. nra.
Qed.

(** ** Spawning of targets *)

Lemma choice_ok (seq : list Z) (g : Rng) :
  seq <> [] -> exists x, choice seq g = Ok (x, advance g 0 1).
Proof.
  intros Hne. unfold choice.
  destruct (nth_error seq (py_draws g (py_pos g) mod List.length seq)) as [x|] eqn:E.
  - exists x. reflexivity.
  - apply nth_error_None in E.
    assert (List.length seq <> 0)%nat by (destruct seq; cbn; congruence).
    pose proof (Nat.mod_upper_bound (py_draws g (py_pos g)) (List.length seq)).
    lia.
Qed.

Lemma spawn_mode_ok (spawn_mode : string) :
  spawn_mode = "line"%string \/ spawn_mode = "front"%string ->
  existsb (String.eqb spawn_mode) ["line"; "front"]%string = true.
Proof. intros [-> | ->]; reflexivity. Qed.

Section SpawnFacts.
Context `{VM : VesselModel}.

Lemma get_TS_unfold (self : FossenEnv) (spawn_mode : string) (g : Rng) :
  spawn_mode = "line"%string \/ spawn_mode = "front"%string ->
  _get_TS self spawn_mode g =
  if negb (cnt_approach self =? "tau")%string
  then Ok (sampled_vessel self g, advance g 4 0)
  else _get_TS_place self spawn_mode
         (set_nu0 (sampled_vessel self g)
                  (_u_from_tau_u (sampled_vessel self g) (tau_u (sampled_vessel self g))))
         2 (advance g 4 1).
Proof.
  intros Hmode. unfold _get_TS. rewrite (spawn_mode_ok _ Hmode). cbn [negb].
  unfold bind at 1 2 3 4. unfold uniform at 1 2 3 4.
  cbn [np_draws np_pos py_draws py_pos].
  change (CyberShipII_init _ _ _ 0 0 0 _ _ _ _ _) with (sampled_vessel self g).
  destruct (negb (cnt_approach self =? "tau")%string); [reflexivity|].
  unfold bind.
  destruct (choice_ok [0; 1; 2; 3; 4]%Z
              (mkRng (np_draws g) (S (S (S (S (np_pos g))))) (py_draws g) (py_pos g)))
    as [x Hx]; [discriminate|].
  rewrite Hx. reflexivity.
Qed.

(** C10: with a control approach other than "tau", [_get_TS] returns the
    vessel it has just constructed: position, heading and thrust come from
    four uniform draws (within the map from a fifth of its extent on, in
    [0, 2π) and in [0, 5)), the vessel is at rest (no converged speed is
    set), no encounter situation is drawn from [random.choice] and no
    further uniform draw (time, angles) is made. *)
Theorem get_TS_without_tau_is_plain_sample
    (self : FossenEnv) (spawn_mode : string) (g : Rng) :
  spawn_mode = "line"%string \/ spawn_mode = "front"%string ->
  cnt_approach self <> "tau"%string ->
  _get_TS self spawn_mode g = Ok (sampled_vessel self g, advance g 4 0)
  /\ nu (sampled_vessel self g) = (0, 0, 0)
  /\ py_pos (advance g 4 0) = py_pos g
  /\ np_pos (advance g 4 0) = (4 + np_pos g)%nat
  /\ ((forall k, 0 <= draw g k < 1) -> 0 <= N_max self -> 0 <= E_max self ->
      N_max self / 5 <= eta_N (sampled_vessel self g) <= N_max self
      /\ E_max self / 5 <= eta_E (sampled_vessel self g) <= E_max self
      /\ 0 <= eta_psi (sampled_vessel self g) < 2 * PI
      /\ 0 <= tau_u (sampled_vessel self g) < 5).
Proof.
  intros Hmode Hcnt.
  split; [|split; [reflexivity|split; [reflexivity|split; [reflexivity|]]]].
  - rewrite get_TS_unfold by exact Hmode.
    apply String.eqb_neq in Hcnt. rewrite Hcnt. reflexivity.
  - intros Hdraw HN HE. unfold sampled_vessel, eta_N, eta_E, eta_psi.
    cbn [eta tau_u fst snd].
    pose proof (Hdraw 0%nat). pose proof (Hdraw 1%nat).
    pose proof (Hdraw 2%nat). pose proof (Hdraw 3%nat).
    pose proof PI_RGT_0. repeat split; nra.
Qed.

End SpawnFacts.

(** The intersection angle of a reference heading with that heading turned
    by [x]. *)
Lemma head_inter_of_crossing (h x : R) :
  0 <= x < 2 * PI -> head_inter h (angle_to_2pi (x + h)) = x.
Proof.
  intros Hx. unfold head_inter.
  destruct (angle_to_2pi_turns (x + h)) as [k Hk]. rewrite Hk.
  apply (angle_to_2pi_eq _ _ k); [exact Hx | ring].
Qed.

Section SpawnTauFacts.
Context `{VM : VesselModel}.

(** The placement for the situation 2 succeeds in both modes, makes two
    unit draws, takes the heading from the second one, and does not look at
    the stream behind [random.choice]. *)
Lemma get_TS_place_starboard (self : FossenEnv) (spawn_mode : string)
    (TS : CyberShipII) (np : nat -> R) (n : nat) :
  spawn_mode = "line"%string \/ spawn_mode = "front"%string ->
  exists N_TS E_TS : R,
    forall (py : nat -> nat) (pp : nat),
      _get_TS_place self spawn_mode TS 2 (mkRng np n py pp)
      = Ok (set_eta TS (N_TS, E_TS,
                        crossing_heading self spawn_mode
                          (185 + (292.5 - 185) * np (S n))),
            mkRng np (S (S n)) py pp).
Proof.
  intros [-> | ->]; unfold _get_TS_place, crossing_heading, line_hit;
    cbn [Z.eqb String.eqb Ascii.eqb Bool.eqb Z_in existsb orb Pos.eqb];
    unfold bind, uniform, ret, bound;
    cbn [np_draws np_pos py_draws py_pos fst snd];
    do 2 eexists; intros py pp; reflexivity.
Qed.

Lemma get_TS_place_front_starboard (self : FossenEnv) (TS : CyberShipII)
    (np : nat -> R) (n : nat) (py : nat -> nat) (pp : nat) :
  let h := crossing_heading self "front" (185 + (292.5 - 185) * np (S n)) in
  let u := fst (fst (nu TS)) in
  let b := angle_to_2pi (dtr (5 + (112.5 - 5) * np n) + eta_psi (OS self)) in
  _get_TS_place self "front" TS 2 (mkRng np n py pp)
  = Ok (set_eta TS
          (eta_N (OS self)
             + _get_V (OS self) * cos (_get_course (OS self)) * TCPA_crit self
             + 0 * cos b - u * cos h * TCPA_crit self,
           eta_E (OS self)
             + _get_V (OS self) * sin (_get_course (OS self)) * TCPA_crit self
             + 0 * sin b - u * sin h * TCPA_crit self,
           h),
        mkRng np (S (S n)) py pp).
Proof. reflexivity. Qed.

Lemma get_TS_place_line_starboard (self : FossenEnv) (TS : CyberShipII)
    (np : nat -> R) (n : nat) (py : nat -> nat) (pp : nat) :
  let h := crossing_heading self "line" (185 + (292.5 - 185) * np (S n)) in
  let u := fst (fst (nu TS)) in
  let t := TCPA_crit self / 2 + (TCPA_crit self - TCPA_crit self / 2) * np n in
  _get_TS_place self "line" TS 2 (mkRng np n py pp)
  = Ok (set_eta TS
          (fst (line_hit self t) - u * cos h * t,
           snd (line_hit self t) - u * sin h * t,
           h),
        mkRng np (S (S n)) py pp).
Proof. reflexivity. Qed.

(** With the control approach "tau", [_get_TS] returns the target of the
    starboard-crossing branch after six unit draws and one choice, whatever
    the stream behind [random.choice] holds. *)
Lemma get_TS_tau_spawn (self : FossenEnv) (spawn_mode : string)
    (np : nat -> R) (n : nat) (py : nat -> nat) (pp : nat) :
  spawn_mode = "line"%string \/ spawn_mode = "front"%string ->
  cnt_approach self = "tau"%string ->
  _get_TS self spawn_mode (mkRng np n py pp)
  = Ok (starboard_spawn self spawn_mode (mkRng np n (fun _ => 0%nat) 0),
        mkRng np (6 + n) py (S pp)).
Proof.
  intros Hmode Hcnt.
  rewrite get_TS_unfold by exact Hmode. rewrite Hcnt.
  change (negb ("tau" =? "tau")%string) with false. cbv iota.
  unfold advance. cbn [np_draws np_pos py_draws py_pos].
  destruct Hmode as [-> | ->].
  - rewrite get_TS_place_line_starboard. cbv zeta.
    rewrite (line_hit_components self). cbv zeta.
    unfold starboard_spawn, meeting_point, spawn_time, spawn_reference,
      crossing_heading, set_eta, set_nu0, sampled_vessel, draw.
    cbn [String.eqb Ascii.eqb Bool.eqb np_draws np_pos fst snd
         eta nu tau_u CS_length CS_delta_t CS_N_max CS_E_max CS_cnt_approach
         Nat.add].
    reflexivity.
  - rewrite get_TS_place_front_starboard. cbv zeta.
    unfold starboard_spawn, meeting_point, spawn_time, spawn_reference,
      crossing_heading, set_eta, set_nu0, sampled_vessel, draw.
    cbn [String.eqb Ascii.eqb Bool.eqb np_draws np_pos fst snd
         eta nu tau_u CS_length CS_delta_t CS_N_max CS_E_max CS_cnt_approach
         Nat.add].
    do 3 f_equal. f_equal; f_equal; ring.
Qed.

(** C4, amended: with the control approach "tau", whatever [random.choice]
    draws, [_get_TS] continues with the encounter situation 2: the call
    succeeds after six unit draws and one choice, it is the placement for
    the starboard crossing of the sampled vessel with its converged speed,
    and the target returned is the same for every stream behind
    [random.choice], so that the branches of the other situations are never
    taken.  The target's heading is an intersection angle [c] from
    [185°, 292.5°) added to the reference heading (the own ship's heading in
    the front mode, the bearing of the goal in the line mode), so that it
    intersects the reference at [c]; the target has the converged surge
    speed of its thrust and no sway or yaw, and its position is traced back
    along its heading, for the spawn time, from the meeting point.  In the
    front mode the heading-intersection angle with the own ship is in the
    band of StarboardCrossing; the line mode promises this for the bearing
    of the goal only. *)
Theorem get_TS_tau_always_starboard
    (self : FossenEnv) (spawn_mode : string) (g : Rng) :
  spawn_mode = "line"%string \/ spawn_mode = "front"%string ->
  cnt_approach self = "tau"%string ->
  (forall k, 0 <= draw g k < 1) ->
  exists (TS : CyberShipII) (c : R),
    _get_TS self spawn_mode g = Ok (TS, advance g 6 1)
    /\ _get_TS self spawn_mode g
       = _get_TS_place self spawn_mode
           (set_nu0 (sampled_vessel self g)
              (_u_from_tau_u (sampled_vessel self g) (tau_u (sampled_vessel self g))))
           2 (advance g 4 1)
    /\ 185 <= c < 292.5
    /\ eta_psi TS = crossing_heading self spawn_mode c
    /\ (forall py : nat -> nat,
          _get_TS self spawn_mode (with_py g py)
          = Ok (TS, with_py (advance g 6 1) py))
    /\ c = 185 + (292.5 - 185) * draw g 5
    /\ head_inter (spawn_reference self spawn_mode) (eta_psi TS) = dtr c
    /\ nu TS = (_u_from_tau_u (sampled_vessel self g) (tau_u (sampled_vessel self g)),
                0, 0)
    /\ tau_u TS = tau_u (sampled_vessel self g)
    /\ eta_N TS = fst (meeting_point self spawn_mode g)
                  - fst (fst (nu TS)) * cos (eta_psi TS) * spawn_time self spawn_mode g
    /\ eta_E TS = snd (meeting_point self spawn_mode g)
                  - fst (fst (nu TS)) * sin (eta_psi TS) * spawn_time self spawn_mode g
    /\ (spawn_mode = "front"%string -> in_band 185 (C_T (OS self) TS) 292.5).
Proof.
  intros Hmode Hcnt Hdraw.
  pose proof (Hdraw 5%nat) as H5.
  assert (Hc : 0 <= dtr (185 + (292.5 - 185) * draw g 5) < 2 * PI).
  { set (c := 185 + (292.5 - 185) * draw g 5).
    assert (Hcb : 185 <= c < 292.5) by (unfold c; lra).
    pose proof PI_RGT_0. unfold dtr. split; nra. }
  assert (Hplace : _get_TS self spawn_mode g
                   = _get_TS_place self spawn_mode
                       (set_nu0 (sampled_vessel self g)
                          (_u_from_tau_u (sampled_vessel self g)
                             (tau_u (sampled_vessel self g))))
                       2 (advance g 4 1)).
  { rewrite get_TS_unfold by exact Hmode. rewrite Hcnt. reflexivity. }
  destruct g as [np n py pp].
  exists (starboard_spawn self spawn_mode (mkRng np n (fun _ => 0%nat) 0)),
         (185 + (292.5 - 185) * draw (mkRng np n py pp) 5).
  split; [exact (get_TS_tau_spawn self spawn_mode np n py pp Hmode Hcnt)|].
  split; [exact Hplace|]. split; [lra|]. split; [reflexivity|].
  split; [intros py'; exact (get_TS_tau_spawn self spawn_mode np n py' pp Hmode Hcnt)|].
  split; [reflexivity|].
  assert (Hinter : head_inter (spawn_reference self spawn_mode)
                     (eta_psi (starboard_spawn self spawn_mode
                                 (mkRng np n (fun _ => 0%nat) 0)))
                   = dtr (185 + (292.5 - 185) * draw (mkRng np n py pp) 5)).
  { unfold starboard_spawn, eta_psi. cbn [eta snd].
    apply head_inter_of_crossing. exact Hc. }
  split; [exact Hinter|].
  split; [reflexivity|]. split; [reflexivity|].
  split; [reflexivity|]. split; [reflexivity|].
  intros ->. unfold C_T.
  change (eta_psi (OS self)) with (spawn_reference self "front").
  rewrite Hinter. apply in_band_at. lra.
Qed.

End SpawnTauFacts.

Lemma mode_line : "line"%string = "line"%string \/ "line"%string = "front"%string.
Proof. left. reflexivity. Defined.

Lemma rng_half_draws : forall k, 0 <= draw rng_half k < 1.
Proof. intros k. unfold draw. cbn. lra. Defined.

(** C4 for the own ship at (10, 50), the goal at (90, 90), the line mode and
    the generator whose unit draws are all 1/2. *)
Lemma get_TS_tau_always_starboard_witness :
  ("line"%string = "line"%string \/ "line"%string = "front"%string)
  /\ cnt_approach env_far = "tau"%string
  /\ (forall k, 0 <= draw rng_half k < 1)
  /\ exists (TS : CyberShipII) (c : R),
       @_get_TS kinematic_model env_far "line" rng_half = Ok (TS, advance rng_half 6 1)
       /\ 185 <= c < 292.5
       /\ eta_psi TS = crossing_heading env_far "line" c
       /\ (forall py : nat -> nat,
             @_get_TS kinematic_model env_far "line" (with_py rng_half py)
             = Ok (TS, with_py (advance rng_half 6 1) py))
       /\ c = 238.75
       /\ nu TS = (2.5, 0, 0)
       /\ eta_N TS = fst (@meeting_point kinematic_model env_far "line" rng_half)
                     - 2.5 * cos (eta_psi TS) * 45
       /\ eta_E TS = snd (@meeting_point kinematic_model env_far "line" rng_half)
                     - 2.5 * sin (eta_psi TS) * 45.
Proof.
  split; [exact mode_line|]. split; [reflexivity|]. split; [exact rng_half_draws|].
  destruct (@get_TS_tau_always_starboard kinematic_model env_far "line" rng_half
              mode_line eq_refl rng_half_draws)
    as (TS & c & Hok & _ & Hc & Hpsi & Hpy & Hceq & _ & Hnu & _ & HN & HE & _).
  exists TS, c.
  split; [exact Hok|]. split; [exact Hc|]. split; [exact Hpsi|].
  split; [exact Hpy|].
  split; [rewrite Hceq; unfold draw; cbn; lra|].
  assert (Hnu' : nu TS = (2.5, 0, 0)).
  { rewrite Hnu. cbn. unfold draw. cbn. f_equal. f_equal. lra. }
  split; [exact Hnu'|].
  rewrite Hnu' in HN, HE. cbn [fst] in HN, HE.
  assert (Ht : spawn_time env_far "line" rng_half = 45)
    by (unfold spawn_time, draw; cbn; lra).
  rewrite Ht in HN, HE. split; [exact HN | exact HE].
Defined.

Lemma bng_abs_diagonal (N0 E0 d : R) : 0 < d -> bng_abs N0 E0 (N0 + d) (E0 + d) = PI / 4.
Proof.
  intros Hd. unfold bng_abs, atan2.
  destruct (Rlt_dec 0 (N0 + d - N0)); [|lra].
  replace ((E0 + d - E0) / (N0 + d - N0)) with 1 by (field; lra).
  rewrite atan_1. apply angle_to_2pi_id. pose proof PI_RGT_0. lra.
Qed.

Lemma rng_34_draws : forall k, 0 <= draw rng_34 k < 1.
Proof. intros k. unfold draw. cbn. lra. Qed.

(** The claim C4 fails for a spawn that [reset] can make: own ship at
    (20, 20) heading north, goal at (80, 80), line mode, all unit draws 3/4.
    The intersection angle drawn is 265.625°, it is added to the bearing of
    the goal, 45°, so that the target heads 310.625°: the
    heading-intersection angle with the own ship is outside the band of
    StarboardCrossing, and the pair is not classified as such. *)
Lemma line_spawn_not_starboard_crossing :
  cnt_approach env_start = "tau"%string
  /\ (forall k, 0 <= draw rng_34 k < 1)
  /\ exists TS : CyberShipII,
       @_get_TS kinematic_model env_start "line" rng_34 = Ok (TS, advance rng_34 6 1)
       /\ C_T (OS env_start) TS = dtr 310.625
       /\ ~ StarboardCrossing (OS env_start) TS
       /\ @_get_COLREG_situation kinematic_model (OS env_start) TS np_inf <> 2%Z.
Proof.
  split; [reflexivity|]. split; [exact rng_34_draws|].
  exists (@starboard_spawn kinematic_model env_start "line" rng_34).
  assert (HCT : C_T (OS env_start)
                  (@starboard_spawn kinematic_model env_start "line" rng_34)
                = dtr 310.625).
  { unfold C_T, head_inter, starboard_spawn, spawn_reference, eta_psi, draw.
    cbn [eta snd String.eqb Ascii.eqb Bool.eqb OS env_start env_of OS_start vessel_at
         goal goal_N goal_E eta_N eta_E fst rng_34 np_draws np_pos Nat.add].
    unfold goal_N, goal_E, eta_N, eta_E. cbn [goal env_start env_of fst snd eta].
    replace 80 with (20 + 60) by lra.
    rewrite bng_abs_diagonal by lra.
    pose proof PI_RGT_0 as HPI.
    assert (Hh : dtr (185 + (292.5 - 185) * (3 / 4)) + PI / 4 = dtr 310.625)
      by (unfold dtr; lra).
    rewrite Hh.
    assert (Hr : 0 <= dtr 310.625 < 2 * PI) by (unfold dtr; lra).
    rewrite (angle_to_2pi_id _ Hr).
    replace (dtr 310.625 - 0) with (dtr 310.625) by lra.
    apply angle_to_2pi_id. exact Hr. }
  assert (Hnot : ~ StarboardCrossing (OS env_start)
                     (@starboard_spawn kinematic_model env_start "line" rng_34)).
  { intros [_ [_ Hhi]]. rewrite HCT in Hhi. apply dtr_le in Hhi. lra. }
  split; [exact (@get_TS_tau_spawn kinematic_model env_start "line" _ _ _ _
                   mode_line eq_refl)|].
  split; [exact HCT|]. split; [exact Hnot|].
  intros H2. apply Hnot.
  pose proof (@COLREG_situation_decision_list kinematic_model (OS env_start)
                (@starboard_spawn kinematic_model env_start "line" rng_34)) as Hm.
  cbn [first_match COLREG_rules] in Hm. rewrite H2 in Hm.
  intuition discriminate.
Qed.

Lemma cnt_f123 : cnt_approach env_f123 <> "tau"%string.
Proof. cbn. discriminate. Defined.

(** C10 for the far pair with the control approach "f123". *)
Lemma get_TS_without_tau_is_plain_sample_witness :
  ("line"%string = "line"%string \/ "line"%string = "front"%string)
  /\ cnt_approach env_f123 <> "tau"%string
  /\ @_get_TS kinematic_model env_f123 "line" rng_half
     = Ok (@sampled_vessel kinematic_model env_f123 rng_half, advance rng_half 4 0)
  /\ nu (@sampled_vessel kinematic_model env_f123 rng_half) = (0, 0, 0).
Proof.
  split; [exact mode_line|]. split; [exact cnt_f123|].
  destruct (@get_TS_without_tau_is_plain_sample kinematic_model env_f123 "line"
              rng_half mode_line cnt_f123) as [Hok [Hnu _]].
  split; [exact Hok | exact Hnu].
Defined.

(** ** One tick *)

Lemma bind_ok {A B : Type} (c : M A) (k : A -> M B) (g g' : Rng) (a : A) :
  c g = Ok (a, g') -> bind c k g = k a g'.
Proof. intros H. unfold bind. rewrite H. reflexivity. Qed.

Lemma mapM_total {A B : Type} (f : A -> M B) (l : list A) :
  (forall x g, exists y g', f x g = Ok (y, g')) ->
  forall g, exists ys g',
    mapM f l g = Ok (ys, g') /\ List.length ys = List.length l.
Proof.
  intros Hf. induction l as [|x l IH]; intros g; cbn [mapM].
  - exists [], g. split; reflexivity.
  - destruct (Hf x g) as [y [g1 Hy]].
    destruct (IH g1) as [ys [g2 [Hys Hlen]]].
    exists (y :: ys), g2. split.
    + rewrite (bind_ok _ _ _ _ _ Hy), (bind_ok _ _ _ _ _ Hys). reflexivity.
    + cbn. congruence.
Qed.

Lemma unzip_pairs_ok {A B : Type} (pairs : list (A * B)) (g : Rng) :
  pairs <> [] ->
  unzip_pairs pairs g = Ok ((map fst pairs, map snd pairs), g).
Proof. destruct pairs; [congruence | reflexivity]. Qed.

(** ** The observation vector *)

Lemma insert_desc_length (row : list R) (sorted : list (list R)) :
  List.length (insert_desc row sorted) = S (List.length sorted).
Proof.
  induction sorted as [|y ys IH]; cbn [insert_desc]; [reflexivity|].
  destruct (Rltb (hd 0 y) (hd 0 row)); cbn; congruence.
Qed.

Lemma insert_desc_rows (n : nat) (row : list R) (sorted : list (list R)) :
  List.length row = n ->
  Forall (fun x => List.length x = n) sorted ->
  Forall (fun x => List.length x = n) (insert_desc row sorted).
Proof.
  intros Hrow Hs. induction Hs as [|y ys Hy Hys IH]; cbn [insert_desc].
  - constructor; [exact Hrow | constructor].
  - destruct (Rltb (hd 0 y) (hd 0 row)); repeat constructor; assumption.
Qed.

Lemma sorted_desc_rows (n : nat) (rows : list (list R)) :
  Forall (fun x => List.length x = n) rows ->
  List.length (sorted_desc rows) = List.length rows
  /\ Forall (fun x => List.length x = n) (sorted_desc rows).
Proof.
  unfold sorted_desc. intros Hrows.
  assert (Hgen : forall acc,
             Forall (fun x => List.length x = n) acc ->
             List.length (fold_left (fun acc row => insert_desc row acc) rows acc)
             = (List.length acc + List.length rows)%nat
             /\ Forall (fun x => List.length x = n)
                       (fold_left (fun acc row => insert_desc row acc) rows acc)).
  { induction Hrows as [|row rows Hrow Hrows IH]; intros acc Hacc; cbn [fold_left].
    - split; [cbn; lia | exact Hacc].
    - destruct (IH (insert_desc row acc)) as [Hlen Hall].
      + apply insert_desc_rows; assumption.
      + split; [|exact Hall]. rewrite Hlen, insert_desc_length. cbn. lia. }
  destruct (Hgen [] (Forall_nil _)) as [Hlen Hall]. split; assumption.
Qed.

Lemma concat_rows_length (n : nat) (rows : list (list R)) :
  Forall (fun x => List.length x = n) rows ->
  List.length (List.concat rows) = (n * List.length rows)%nat.
Proof.
  intros H. induction H as [|row rows Hrow Hrows IH]; cbn [List.concat List.length].
  - lia.
  - rewrite length_app, IH, Hrow. lia.
Qed.

Section StepFacts.
Context `{VM : VesselModel}.
Variable tcpa : R -> R -> R -> R -> R -> R -> R -> R -> R.

(** A target is always placed in the line mode. *)
Lemma get_TS_line_total (self : FossenEnv) (g : Rng) :
  exists TS g', _get_TS self "line" g = Ok (TS, g').
Proof.
  rewrite get_TS_unfold by (left; reflexivity).
  destruct (negb (cnt_approach self =? "tau")%string).
  - eexists. eexists. reflexivity.
  - destruct (get_TS_place_starboard self "line"
                (set_nu0 (sampled_vessel self g)
                   (_u_from_tau_u (sampled_vessel self g) (tau_u (sampled_vessel self g))))
                (np_draws g) (4 + np_pos g)) as [N_TS [E_TS H]];
      [left; reflexivity|].
    eexists. eexists. apply H.
Qed.

Lemma handle_map_leaving_respawn_total (self : FossenEnv) (CS : CyberShipII) (g : Rng) :
  exists p g', _handle_map_leaving self CS true false false g = Ok (p, g').
Proof.
  unfold _handle_map_leaving. destruct (_is_off_map CS).
  - destruct (get_TS_line_total self g) as [TS [g' H]].
    exists (TS, true), g'. rewrite (bind_ok _ _ _ _ _ H). reflexivity.
  - exists (CS, false), g. reflexivity.
Qed.

Lemma handle_respawn_total (self : FossenEnv) (TS : CyberShipII) (g : Rng) :
  exists p g', _handle_respawn tcpa self TS g = Ok (p, g').
Proof.
  unfold _handle_respawn. destruct (Rltb _ (-10)).
  - destruct (get_TS_line_total self g) as [TS' [g' H]].
    exists (TS', true), g'. rewrite (bind_ok _ _ _ _ _ H). reflexivity.
  - exists (TS, false), g. reflexivity.
Qed.

(** The own ship is clipped to the map and never respawned. *)
Lemma handle_map_leaving_clip (self : FossenEnv) (a : Z) (g : Rng) :
  _handle_map_leaving
    (set_OS self (_upd_dynamics (_set_tau (_control (OS self) a))))
    (_upd_dynamics (_set_tau (_control (OS self) a))) false false true g
  = Ok ((OS_after_step self a, false), g).
Proof.
  unfold _handle_map_leaving, OS_after_step.
  destruct (_is_off_map _); reflexivity.
Qed.

Lemma done_iff (self : FossenEnv) :
  _done self = true <-> goal_reached self (OS self) \/ out_of_steps self.
Proof.
  unfold _done, goal_reached, out_of_steps.
  destruct (Rleb _ (goal_reach_dist self)) eqn:E1.
  - apply Rleb_true in E1. tauto.
  - apply Rleb_false in E1.
    destruct (Rleb (_max_episode_steps self) _) eqn:E2.
    + apply Rleb_true in E2. tauto.
    + apply Rleb_false in E2. split; [discriminate|]. intros [H | H]; lra.
Qed.

Lemma state_TSs_loop_total (self : FossenEnv) (seq : list CyberShipII) :
  forall (acc : list (list R)) (i : nat),
    (i + List.length seq <= List.length (TS_COLREGs self))%nat ->
    Forall (fun x => List.length x = 6%nat) acc ->
    exists rows,
      state_TSs_loop tcpa self acc i seq = Ok rows
      /\ (List.length rows <= List.length acc + List.length seq)%nat
      /\ Forall (fun x => List.length x = 6%nat) rows.
Proof.
  induction seq as [|TS rest IH]; intros acc i Hi Hacc; cbn [state_TSs_loop].
  - exists acc. split; [reflexivity|]. split; [lia | exact Hacc].
  - cbn [List.length] in Hi. cbv zeta.
    destruct (Rleb _ (_get_ship_domain (OS self) TS)).
    + destruct (index_ok (TS_COLREGs self) i) as [sigma [_ Hs]]; [lia|].
      rewrite Hs. cbn [bindR].
      match goal with
      | |- context [state_TSs_loop tcpa self (acc ++ [?row]) _ _] =>
          destruct (IH (acc ++ [row]) (S i)) as [rows [Hrows [Hlen Hall]]]
      end.
      * lia.
      * apply Forall_app. split; [exact Hacc|]. repeat constructor.
      * exists rows. split; [exact Hrows|]. split; [|exact Hall].
        rewrite length_app in Hlen. cbn in Hlen |- *. lia.
    + destruct (IH acc (S i)) as [rows [Hrows [Hlen Hall]]]; [lia | exact Hacc|].
      exists rows. split; [exact Hrows|]. split; [cbn; lia | exact Hall].
Qed.

(** The ship domain filters the observation, not the classification: targets
    beyond the ship domain of their pair add no row, so that with all
    targets beyond it the observation ends in padding only. *)
Lemma state_TSs_loop_far (self : FossenEnv) (seq : list CyberShipII) :
  (forall TS, In TS seq ->
     _get_ship_domain (OS self) TS
     < ED (eta_N (OS self)) (eta_E (OS self)) (eta_N TS) (eta_E TS) true) ->
  forall (acc : list (list R)) (i : nat),
    state_TSs_loop tcpa self acc i seq = Ok acc.
Proof.
  induction seq as [|TS rest IH]; intros Hfar acc i; cbn [state_TSs_loop].
  - reflexivity.
  - cbv zeta.
    assert (Hgate : Rleb (ED (eta_N (OS self)) (eta_E (OS self)) (eta_N TS) (eta_E TS) true)
                         (_get_ship_domain (OS self) TS) = false).
    { apply Rleb_false. apply Hfar. left. reflexivity. }
    rewrite Hgate. apply IH. intros TS' HIn. apply Hfar. right. exact HIn.
Qed.

Lemma set_state_far (self : FossenEnv) :
  (forall TS, In TS (TSs self) ->
     _get_ship_domain (OS self) TS
     < ED (eta_N (OS self)) (eta_E (OS self)) (eta_N TS) (eta_E TS) true) ->
  exists own : list npfloat,
    List.length own = 8%nat
    /\ _set_state tcpa self
       = Ok (set_state self
               (own ++ repeat (state_pad self) (Z.to_nat (6 * N_TSs self)))).
Proof.
  intros Hfar. unfold _set_state. cbv zeta.
  destruct (nu (OS self)) as [[u v] yaw].
  rewrite (state_TSs_loop_far self (TSs self) Hfar). cbn [bindR].
  eexists (_ :: _ :: _ :: _ :: _ :: _ :: _ :: _ :: []).
  split; [reflexivity|]. cbn [map app]. reflexivity.
Qed.
(** Under the invariant the observation is assembled without error, and
    only [self.state] changes. *)
Lemma set_state_total (self : FossenEnv) :
  Z.of_nat (List.length (TSs self)) = N_TSs self ->
  List.length (TS_COLREGs self) = List.length (TSs self) ->
  exists st, _set_state tcpa self = Ok (set_state self st).
Proof.
  intros HN Hc. unfold _set_state. cbv zeta.
  destruct (nu (OS self)) as [[u v] yaw].
  destruct (state_TSs_loop_total self (TSs self) [] 0%nat) as [rows [Hrows [Hlen Hall]]];
    [lia | constructor |].
  rewrite Hrows. cbn [bindR].
  destruct rows as [|row rows'] eqn:Erows.
  - cbn [bindR]. eexists. reflexivity.
  - rewrite <- Erows in *. clear Erows row rows'.
    destruct (sorted_desc_rows 6 rows Hall) as [Hslen Hsall].
    pose proof (concat_rows_length 6 _ Hsall) as Hflat.
    destruct (_ <? 0)%Z eqn:Ew.
    + apply Z.ltb_lt in Ew. cbn [List.length] in Hlen. lia.
    + cbn [bindR]. eexists. reflexivity.
Qed.

Lemma respawn_pass_total (s : FossenEnv) (g : Rng) :
  Z.of_nat (List.length (TSs s)) = N_TSs s ->
  exists s' g',
    (if (0 <? N_TSs s)%Z then
       pairs <- mapM (fun TS => _handle_map_leaving s TS true false false) (TSs s) ;;
       ' (tss, flags) <- unzip_pairs pairs ;;
       pairs0 <- mapM (fun TS => _handle_respawn tcpa (set_respawn s tss flags) TS)
                      (TSs (set_respawn s tss flags)) ;;
       ' (tss0, flags0) <- unzip_pairs pairs0 ;;
       ret (set_respawn (set_respawn s tss flags) tss0 flags0)
     else ret s) g = Ok (s', g')
    /\ same_frame s s'
    /\ List.length (TSs s') = List.length (TSs s)
    /\ (TSs s' = [] \/
        exists flags, respawn_flags s' = Some flags
                      /\ List.length flags = List.length (TSs s')).
Proof.
  intros Hn. destruct (0 <? N_TSs s)%Z eqn:Epos.
  - apply Z.ltb_lt in Epos.
    destruct (mapM_total (fun TS => _handle_map_leaving s TS true false false)
                (TSs s) (handle_map_leaving_respawn_total s) g)
      as [pairs [g1 [H1 Hlen1]]].
    assert (Hne1 : pairs <> []).
    { intros ->. cbn in Hlen1. rewrite <- Hlen1 in Hn. cbn in Hn. lia. }
    rewrite (bind_ok _ _ _ _ _ H1).
    rewrite (bind_ok _ _ _ _ _ (unzip_pairs_ok pairs g1 Hne1)).
    cbv beta iota.
    set (s1 := set_respawn s (map fst pairs) (map snd pairs)).
    destruct (mapM_total (fun TS => _handle_respawn tcpa s1 TS)
                (TSs s1) (handle_respawn_total s1) g1)
      as [pairs0 [g2 [H2 Hlen2]]].
    assert (Hlen : List.length pairs0 = List.length (TSs s)).
    { rewrite Hlen2. unfold s1. cbn [TSs set_respawn].
      rewrite length_map. exact Hlen1. }
    assert (Hne2 : pairs0 <> []).
    { intros ->. cbn in Hlen. rewrite <- Hlen in Hn. cbn in Hn. lia. }
    rewrite (bind_ok _ _ _ _ _ H2).
    rewrite (bind_ok _ _ _ _ _ (unzip_pairs_ok pairs0 g2 Hne2)).
    cbv beta iota.
    eexists. eexists. split; [reflexivity|].
    split; [repeat split|]. cbn [TSs set_respawn respawn_flags].
    split; [rewrite length_map; exact Hlen|].
    right. eexists. split; [reflexivity|]. rewrite !length_map. reflexivity.
  - apply Z.ltb_ge in Epos.
    exists s, g. split; [reflexivity|]. split; [repeat split|].
    split; [reflexivity|]. left.
    destruct (TSs s); [reflexivity|]. cbn in Hn. lia.
Qed.

Lemma calculate_reward_total (s : FossenEnv) (w1 w2 w3 w4 w5 : R) :
  List.length (TS_COLREGs s) = List.length (TSs s) ->
  List.length (TS_COLREGs_old s) = List.length (TSs s) ->
  (TSs s = [] \/
   exists flags, respawn_flags s = Some flags
                 /\ List.length flags = List.length (TSs s)) ->
  exists s', _calculate_reward s w1 w2 w3 w4 w5 = Ok s'
             /\ same_frame s s' /\ TSs s' = TSs s.
Proof.
  intros Hnew Hold [Hnil | [flags [Hflags Hlen]]].
  - assert (Hloop : COLREG_reward_loop s 0 0 (TSs s) = Ok 0)
      by (rewrite Hnil; reflexivity).
    unfold _calculate_reward. rewrite Hloop. cbn [bindR].
    eexists. split; [reflexivity|]. split; [repeat split | reflexivity].
  - destruct (COLREG_reward_loop_spec s flags (TSs s) Hflags 0%nat 0)
      as [x [Hloop _]]; try lia.
    unfold _calculate_reward. rewrite Hloop. cbn [bindR].
    eexists. split; [reflexivity|]. split; [repeat split | reflexivity].
Qed.

(** C5: under the invariant of the environment (as many targets as
    [N_TSs], one classification per target) [step] returns, and it returns
    [done = True] if and only if the own ship, after this tick's control,
    dynamics update and clipping to the map, is within [goal_reach_dist] of
    the goal, or the step counter, as it stands when the tick begins, has
    reached the maximal number of steps. The goal does not move, the
    counter goes up by one and the invariant holds again, so the flag is
    raised at the first tick at which the own ship is that close. *)
Theorem step_done_iff (self : FossenEnv) (a : Z) (g : Rng) :
  Z.of_nat (List.length (TSs self)) = N_TSs self ->
  List.length (TS_COLREGs self) = List.length (TSs self) ->
  exists obs r d self' g',
    step tcpa self a g = Ok ((obs, r, d, self'), g')
    /\ OS self' = OS_after_step self a
    /\ goal self' = goal self
    /\ step_cnt self' = (step_cnt self + 1)%Z
    /\ (d = true <-> goal_reached self (OS_after_step self a) \/ out_of_steps self)
    /\ Z.of_nat (List.length (TSs self')) = N_TSs self'
    /\ List.length (TS_COLREGs self') = List.length (TSs self').
Proof.
  intros Hn Hc. unfold step.
  cbv zeta. change (OS (set_OS self ?x)) with x.
  rewrite (bind_ok _ _ _ _ _ (handle_map_leaving_clip self a g)).
  cbv beta iota.
  set (s3 := set_TSs _ _).
  assert (Hn3 : Z.of_nat (List.length (TSs s3)) = N_TSs s3).
  { unfold s3. cbn [TSs set_TSs set_OS N_TSs]. rewrite length_map. exact Hn. }
  destruct (respawn_pass_total s3 g Hn3) as [s4 [g4 [H4 [Hfr4 [Hlen4 Hflags4]]]]].
  rewrite (bind_ok _ _ _ _ _ H4).
  destruct Hfr4 as [HOS4 [Hgoal4 [Hcnt4 [HCOL4 [Hgrd4 [Hmax4 HN4]]]]]].
  assert (Hlen3 : List.length (TSs s3) = List.length (TSs self)).
  { unfold s3. cbn [TSs set_TSs set_OS]. apply length_map. }
  assert (Hlen5 : List.length (TS_COLREGs (_set_COLREGs s4))
                  = List.length (TSs (_set_COLREGs s4))).
  { unfold _set_COLREGs. cbn [TS_COLREGs TSs set_COLREGs]. apply length_map. }
  destruct (set_state_total (_set_COLREGs s4)) as [st Hst];
    [rewrite <- HN4 in Hn3; rewrite <- Hlen4 in Hn3; exact Hn3 | exact Hlen5 |].
  unfold lift at 1. unfold bind at 1. rewrite Hst.
  destruct (calculate_reward_total (set_state (_set_COLREGs s4) st) 1 1 1 1 1)
    as [s5 [H5 [Hfr5 HTS5]]].
  { exact Hlen5. }
  { unfold _set_COLREGs. cbn [TS_COLREGs_old TSs set_COLREGs set_state].
    rewrite HCOL4. unfold s3. cbn [TS_COLREGs set_TSs set_OS]. congruence. }
  { unfold _set_COLREGs. cbn [respawn_flags TSs set_COLREGs set_state].
    exact Hflags4. }
  unfold lift, bind. rewrite H5. unfold ret.
  destruct Hfr5 as [HOS5 [Hgoal5 [Hcnt5 [HCOL5 [Hgrd5 [Hmax5 HN5]]]]]].
  unfold _set_COLREGs in HOS5, Hgoal5, Hcnt5, HCOL5, Hgrd5, Hmax5, HN5, HTS5.
  cbn [OS goal step_cnt TS_COLREGs goal_reach_dist _max_episode_steps N_TSs TSs
       set_COLREGs set_state] in HOS5, Hgoal5, Hcnt5, HCOL5, Hgrd5, Hmax5, HN5, HTS5.
  assert (HOS : OS s5 = OS_after_step self a) by (rewrite HOS5, HOS4; reflexivity).
  assert (Hgoal : goal s5 = goal self) by (rewrite Hgoal5, Hgoal4; reflexivity).
  assert (Hcnt : step_cnt s5 = step_cnt self) by (rewrite Hcnt5, Hcnt4; reflexivity).
  do 5 eexists. split; [reflexivity|].
  cbn [OS goal step_cnt TSs TS_COLREGs N_TSs set_clock].
  split; [exact HOS|]. split; [exact Hgoal|]. split; [congruence|].
  split; [|split].
  - rewrite done_iff. unfold goal_reached, out_of_steps, goal_N, goal_E.
    rewrite HOS, Hgoal, Hcnt, Hgrd5, Hgrd4, Hmax5, Hmax4. reflexivity.
  - rewrite HTS5, HN5, HN4, Hlen4. exact Hn3.
  - rewrite HTS5, HCOL5. apply length_map.
Qed.

(** [reset] returns, and the environment it leaves satisfies the invariant
    that [step] relies on: as many targets as [N_TSs], one classification
    per target, the step counter at 0. *)
Lemma reset_invariant (self : FossenEnv) (g : Rng) :
  (0 <= N_TSs self)%Z ->
  exists obs self' g',
    reset tcpa self g = Ok ((obs, self'), g')
    /\ Z.of_nat (List.length (TSs self')) = N_TSs self'
    /\ List.length (TS_COLREGs self') = List.length (TSs self')
    /\ step_cnt self' = 0%Z.
Proof.
  intros HN. unfold reset. cbv zeta.
  unfold bind at 1 2 3. unfold uniform at 1 2 3.
  cbn [np_draws np_pos py_draws py_pos N_TSs set_clock set_goal set_OS].
  match goal with
  | |- context [bind (mapM ?f ?l) _ ?g0] =>
      destruct (mapM_total f l (fun _ g1 => get_TS_line_total _ g1) g0)
        as [tss [g1 [Htss Hlen]]]
  end.
  rewrite (bind_ok _ _ _ _ _ Htss).
  rewrite length_seq in Hlen.
  match goal with
  | |- context [_set_state tcpa ?s] =>
      destruct (set_state_total s) as [st Hst]
  end.
  { unfold _set_COLREGs.
    cbn [TSs N_TSs set_COLREGs set_TSs set_OS set_goal set_clock].
    rewrite Hlen. lia. }
  { unfold _set_COLREGs.
    cbn [TSs TS_COLREGs set_COLREGs set_TSs set_OS set_goal set_clock].
    apply length_map. }
  unfold lift, bind. rewrite Hst. unfold ret.
  do 3 eexists. split; [reflexivity|].
  unfold _set_COLREGs.
  cbn [TSs TS_COLREGs N_TSs step_cnt set_state set_COLREGs set_TSs set_OS
       set_goal set_clock].
  rewrite length_map, Hlen. split; [lia|]. split; reflexivity.
Qed.

End StepFacts.

Lemma env_far_targets : Z.of_nat (List.length (TSs env_far)) = N_TSs env_far.
Proof. reflexivity. Defined.

Lemma env_far_classes :
  List.length (TS_COLREGs env_far) = List.length (TSs env_far).
Proof. reflexivity. Defined.

(** C5 for one tick of the own ship at (10, 50) with the target 80 m ahead,
    the goal at (90, 90), at step 0. *)
Lemma step_done_iff_witness :
  Z.of_nat (List.length (TSs env_far)) = N_TSs env_far
  /\ List.length (TS_COLREGs env_far) = List.length (TSs env_far)
  /\ exists obs r d self' g',
       @step kinematic_model tcpa_straight env_far 0 rng_half
       = Ok ((obs, r, d, self'), g')
       /\ OS self' = @OS_after_step kinematic_model env_far 0
       /\ step_cnt self' = (step_cnt env_far + 1)%Z
       /\ (d = true <->
           goal_reached env_far (@OS_after_step kinematic_model env_far 0)
           \/ out_of_steps env_far).
Proof.
  split; [exact env_far_targets|]. split; [exact env_far_classes|].
  destruct (@step_done_iff kinematic_model tcpa_straight env_far 0 rng_half
              env_far_targets env_far_classes)
    as [obs [r [d [self' [g' [Hstep [HOS [_ [Hcnt [Hd _]]]]]]]]]].
  exists obs, r, d, self', g'. auto.
Defined.

(* ================================================================== *)
(** * Further properties of the environment *)

(** ** Lines drawn by the rendering *)

Lemma sin_cos_turns (x : R) (k : Z) :
  sin (x + IZR k * (2 * PI)) = sin x /\ cos (x + IZR k * (2 * PI)) = cos x.
Proof.
  destruct (Z_le_gt_dec 0 k) as [Hk | Hk].
  - rewrite <- (Z2Nat.id k Hk), <- INR_IZR_INZ.
    replace (x + INR (Z.to_nat k) * (2 * PI))
      with (x + 2 * INR (Z.to_nat k) * PI) by ring.
    split; [apply sin_period | apply cos_period].
  - assert (Hn : (0 <= - k)%Z) by lia.
    set (y := x + IZR k * (2 * PI)).
    assert (Hx : x = y + 2 * INR (Z.to_nat (- k)) * PI).
    { unfold y. rewrite INR_IZR_INZ, (Z2Nat.id _ Hn), opp_IZR. ring. }
    clearbody y. subst x. rewrite sin_period, cos_period. split; reflexivity.
Qed.

Lemma sin_angle_to_2pi (x : R) : sin (angle_to_2pi x) = sin x.
Proof.
  destruct (angle_to_2pi_turns x) as [k ->]. apply sin_cos_turns.
Qed.

Lemma cos_angle_to_2pi (x : R) : cos (angle_to_2pi x) = cos x.
Proof.
  destruct (angle_to_2pi_turns x) as [k ->]. apply sin_cos_turns.
Qed.

(** X1: [_plot_jet] never fails, and whatever the quadrant of the angle,
    the line it adds ends at [(E + sin(angle)·l, N + cos(angle)·l)]: the four
    branches compute the same end point. *)
Theorem plot_jet_end_point (axis : Axis) (E N l angle : R) :
  _plot_jet axis E N l angle
  = Ok (axis ++ [([E; E + sin angle * l], [N; N + cos angle * l])]).
Proof.
  unfold _plot_jet. cbv zeta.
  rewrite <- (sin_angle_to_2pi angle), <- (cos_angle_to_2pi angle).
  pose proof (angle_to_2pi_range angle) as [Hlo Hhi].
  set (a := angle_to_2pi angle) in *. pose proof PI_RGT_0 as HPI.
  destruct (Rleb a (PI / 2)) eqn:E1; [reflexivity|].
  apply Rleb_false in E1.
  destruct (Rltb (3 / 2 * PI) a && Rleb a (2 * PI)) eqn:E2.
  { replace (sin (2 * PI - a)) with (- sin a)
      by (rewrite <- (sin_neg a), <- (sin_period (- a) 1); f_equal; simpl; ring).
    replace (cos (2 * PI - a)) with (cos a)
      by (rewrite <- (cos_neg a), <- (cos_period (- a) 1); f_equal; simpl; ring).
    replace (E - - sin a * l) with (E + sin a * l) by ring. reflexivity. }
  destruct (Rltb PI a && Rleb a (3 / 2 * PI)) eqn:E3.
  { replace (a - PI) with (- (PI - a)) by ring.
    rewrite sin_neg, cos_neg, sin_PI_x, Rtrigo_facts.cos_pi_minus.
    replace (E - - sin a * l) with (E + sin a * l) by ring.
    replace (N - - cos a * l) with (N + cos a * l) by ring. reflexivity. }
  destruct (Rltb (PI / 2) a && Rleb a PI) eqn:E4.
  { rewrite sin_PI_x, Rtrigo_facts.cos_pi_minus.
    replace (N - - cos a * l) with (N + cos a * l) by ring. reflexivity. }
  exfalso.
  apply andb_false_iff in E2, E3, E4.
  rewrite Rltb_false, Rleb_false in E2, E3, E4. lra.
Qed.

(** ** More on the encounter classes *)

Section ClassifierMore.
Context `{VM : VesselModel}.

(** X2: [_get_COLREG_situation] only answers with one of the codes 0 to 4
    (the rendering indexes its five colours and names with the answer), and
    a cutoff can only turn the answer into 0: it never turns one class into
    another. *)
Theorem COLREG_situation_codes (OS TS : CyberShipII) (distance : float_ext) :
  (0 <= _get_COLREG_situation OS TS distance <= 4)%Z
  /\ (_get_COLREG_situation OS TS distance = 0%Z
      \/ _get_COLREG_situation OS TS distance
         = _get_COLREG_situation OS TS np_inf).
Proof.
  assert (Hinf : (0 <= _get_COLREG_situation OS TS np_inf <= 4)%Z).
  { rewrite COLREG_situation_unfold. cbn [gt_ext].
    repeat match goal with |- context [if ?b then _ else _] => destruct b end;
      lia. }
  destruct distance as [d|]; [|split; [exact Hinf | right; reflexivity]].
  rewrite COLREG_situation_cutoff.
  destruct (Rltb d _); [split; [lia | left; reflexivity] |].
  split; [exact Hinf | right; reflexivity].
Qed.

Lemma COLREG_situation_4_inv (OS TS : CyberShipII) (distance : float_ext) :
  _get_COLREG_situation OS TS distance = 4%Z ->
  ~ HeadOn OS TS /\ ~ StarboardCrossing OS TS /\ ~ PortsideCrossing OS TS
  /\ Overtaking OS TS.
Proof.
  intros H4.
  assert (Heq : _get_COLREG_situation OS TS distance
                = _get_COLREG_situation OS TS np_inf).
  { destruct distance as [d|]; [|reflexivity].
    rewrite COLREG_situation_cutoff in H4 |- *.
    destruct (Rltb d _); [discriminate | reflexivity]. }
  rewrite Heq in H4.
  pose proof (COLREG_situation_decision_list OS TS) as Hm.
  cbn [first_match COLREG_rules] in Hm. rewrite H4 in Hm.
  intuition discriminate.
Qed.

(** X3: the answer 4 (overtaking) is only given when none of the three
    other classes holds, and then an own ship with a speed that is not
    negative is strictly faster than the target; if the target's speed is
    not negative either, the courses differ by less than a quarter turn (the
    cosine of their intersection angle is positive). *)
Theorem overtaking_own_ship_is_faster (OS TS : CyberShipII) (distance : float_ext) :
  _get_COLREG_situation OS TS distance = 4%Z ->
  0 <= _get_V OS ->
  _get_V TS < _get_V OS
  /\ (0 <= _get_V TS -> 0 < cos (C_T_side OS TS))
  /\ ~ HeadOn OS TS /\ ~ StarboardCrossing OS TS /\ ~ PortsideCrossing OS TS.
Proof.
  intros H4 HV.
  destruct (COLREG_situation_4_inv OS TS distance H4)
    as [HH [HS [HP [_ Hfast]]]].
  pose proof (COS_bound (C_T_side OS TS)) as [_ Hcos].
  split; [nra|]. split; [|tauto].
  intros HT. destruct (Rle_or_lt (cos (C_T_side OS TS)) 0); [nra | assumption].
Qed.

Lemma relative_speed_nonneg (OS TS : CyberShipII) : 0 <= relative_speed OS TS.
Proof. unfold relative_speed. apply sqrt_pos. Qed.

(** X4: for a hull of non-negative length the ship domain is never
    negative and at least 30 s times the own speed and 30 s times the
    relative speed; it is 0 when both the own speed and the relative speed
    are 0. *)
Theorem ship_domain_lower_bounds (OS TS : CyberShipII) :
  0 <= CS_length OS ->
  0 <= _get_ship_domain OS TS
  /\ 30 * _get_V OS <= _get_ship_domain OS TS
  /\ 30 * relative_speed OS TS <= _get_ship_domain OS TS
  /\ (_get_V OS = 0 -> relative_speed OS TS = 0 -> _get_ship_domain OS TS = 0).
Proof.
  intros HL. rewrite ship_domain_formula. unfold domain_radius.
  set (V := Rmax (_get_V OS) (relative_speed OS TS)).
  pose proof (float_pow_nonneg V 1.26) as Hp.
  pose proof (Rmax_l (_get_V OS) (relative_speed OS TS)) as Hl.
  pose proof (Rmax_r (_get_V OS) (relative_speed OS TS)) as Hr.
  pose proof (relative_speed_nonneg OS TS) as Hrel.
  fold V in Hl, Hr.
  assert (HLp : 0 <= CS_length OS * float_pow V 1.26) by (apply Rmult_le_pos; assumption).
  repeat split; try lra.
  intros H0 H1. unfold V. rewrite H0, H1, Rmax_left by lra.
  unfold float_pow. destruct (Req_dec_T 0 0); [lra | contradiction].
Qed.

End ClassifierMore.

Lemma bng_abs_south_of (N0 E0 N1 : R) : N1 < N0 -> bng_abs N0 E0 N1 E0 = PI.
Proof.
  intros HN. unfold bng_abs, atan2. replace (E0 - E0) with 0 by lra.
  destruct (Rlt_dec 0 (N1 - N0)); [lra|].
  destruct (Rlt_dec (N1 - N0) 0); [|lra].
  destruct (Rle_dec 0 0); [|lra].
  replace (0 / (N1 - N0)) with 0 by (field; lra).
  rewrite atan_0. pose proof PI_RGT_0.
  replace (0 + PI) with PI by ring. apply angle_to_2pi_id. lra.
Qed.

Lemma overtaking_pair :
  @_get_COLREG_situation kinematic_model OS_behind TS_ahead np_inf = 4%Z.
Proof.
  pose proof PI_RGT_0 as HPI.
  assert (Hc : C_T OS_behind TS_ahead = 0).
  { unfold C_T, head_inter, OS_behind, TS_ahead, vessel_at, eta_psi;
      cbn [eta fst snd]. apply (angle_to_2pi_eq _ _ 0); lra. }
  assert (Hb : bearing_TS OS_behind TS_ahead = PI).
  { unfold bearing_TS, bng_rel, OS_behind, TS_ahead, vessel_at, eta_N, eta_E,
      eta_psi; cbn [eta fst snd].
    rewrite bng_abs_south_of by lra. apply (angle_to_2pi_eq _ _ 0); lra. }
  assert (Hs : @C_T_side kinematic_model OS_behind TS_ahead = 0).
  { unfold C_T_side, head_inter, OS_behind, TS_ahead.
    rewrite !kinematic_course by lra. apply (angle_to_2pi_eq _ _ 0); lra. }
  pose proof (@COLREG_situation_decision_list kinematic_model OS_behind TS_ahead) as Hm.
  cbn [first_match COLREG_rules] in Hm.
  assert (HH : ~ HeadOn OS_behind TS_ahead).
  { intros [_ H]. rewrite Hc in H. band_bounds. lra. }
  assert (HS : ~ StarboardCrossing OS_behind TS_ahead).
  { intros [_ H]. rewrite Hc in H. band_bounds. lra. }
  assert (HP : ~ PortsideCrossing OS_behind TS_ahead).
  { intros [_ H]. rewrite Hc in H. band_bounds. lra. }
  assert (HO : @Overtaking kinematic_model OS_behind TS_ahead).
  { split; [split|].
    - rewrite Hb. band_bounds. lra.
    - rewrite Hc, angle_to_pi_low by lra. band_bounds. lra.
    - rewrite Hs, cos_0. unfold OS_behind, TS_ahead.
      rewrite !kinematic_V by lra. lra. }
  tauto.
Defined.

Lemma speed_behind : 0 <= @_get_V kinematic_model OS_behind.
Proof. unfold OS_behind. rewrite kinematic_V; lra. Defined.

(** X3 for the own ship coming up at 2 m/s behind a target at 1 m/s on the
    same heading. *)
Lemma overtaking_own_ship_is_faster_witness :
  @_get_COLREG_situation kinematic_model OS_behind TS_ahead np_inf = 4%Z
  /\ 0 <= @_get_V kinematic_model OS_behind
  /\ @_get_V kinematic_model TS_ahead < @_get_V kinematic_model OS_behind.
Proof.
  split; [exact overtaking_pair|]. split; [exact speed_behind|].
  exact (proj1 (@overtaking_own_ship_is_faster kinematic_model
                  OS_behind TS_ahead np_inf overtaking_pair speed_behind)).
Defined.

(** X4 for the far pair. *)
Lemma ship_domain_lower_bounds_witness :
  0 <= CS_length OS_far
  /\ 30 * @_get_V kinematic_model OS_far
     <= @_get_ship_domain kinematic_model OS_far TS_far
  /\ 30 * @relative_speed kinematic_model OS_far TS_far
     <= @_get_ship_domain kinematic_model OS_far TS_far.
Proof.
  split; [exact hull_far|].
  destruct (@ship_domain_lower_bounds kinematic_model OS_far TS_far hull_far)
    as [_ [HV [HR _]]].
  split; assumption.
Defined.

(** ** More on the reward *)

Lemma ED_nonneg (N0 E0 N1 E1 : R) : 0 <= ED N0 E0 N1 E1 true.
Proof. unfold ED. apply sqrt_pos. Qed.

Lemma COLREG_reward_body_cases (self : FossenEnv) (acc x : R) (i : nat)
    (TS : CyberShipII) :
  COLREG_reward_body self acc i TS = Ok x -> x = acc \/ x = acc - 10.
Proof.
  unfold COLREG_reward_body, bindR.
  destruct (get_respawn_flags self); [|discriminate].
  destruct (index _ i) as [flag|]; [|discriminate].
  destruct (negb flag); [|intros [= <-]; auto].
  destruct (index (TS_COLREGs self) i) as [new|]; [|discriminate].
  destruct (index (TS_COLREGs_old self) i) as [old|]; [|discriminate].
  destruct (negb (new =? old)%Z); [|intros [= <-]; auto].
  destruct (Z_in old _); [|intros [= <-]; auto].
  destruct (between 0 _ PI); intros [= <-]; auto.
Qed.

Lemma COLREG_reward_loop_bounds (self : FossenEnv) (seq : list CyberShipII) :
  forall (acc x : R) (i : nat),
    COLREG_reward_loop self acc i seq = Ok x ->
    acc - 10 * INR (List.length seq) <= x <= acc.
Proof.
  induction seq as [|TS rest IH]; intros acc x i; cbn [COLREG_reward_loop].
  - intros [= <-]. cbn. lra.
  - unfold bindR.
    destruct (COLREG_reward_body self acc i TS) as [y|] eqn:Ey; [|discriminate].
    intros Hloop. apply IH in Hloop.
    apply COLREG_reward_body_cases in Ey.
    change (List.length (TS :: rest)) with (S (List.length rest)).
    rewrite S_INR. destruct Ey; subst y; lra.
Qed.

Section RewardMore.
Context `{VM : VesselModel}.

(** What [_calculate_reward] returns is its argument with the six reward
    attributes set. *)
Lemma calculate_reward_result (self self' : FossenEnv) (w1 w2 w3 w4 w5 : R) :
  _calculate_reward self w1 w2 w3 w4 w5 = Ok self' ->
  exists rr : R,
    COLREG_reward_loop self 0 0 (TSs self) = Ok rr
    /\ self' =
       set_rewards self
         (- ED (eta_N (OS self)) (eta_E (OS self)) (goal_N self) (goal_E self) true
            / E_max self)
         (- Rabs (angle_to_pi (bng_rel (eta_N (OS self)) (eta_E (OS self))
                                 (goal_N self) (goal_E self) (eta_psi (OS self))))
            / PI)
         (collision_reward self) rr
         (if _is_off_map (OS self) then -10 else 0)
         (w1 * (- ED (eta_N (OS self)) (eta_E (OS self)) (goal_N self) (goal_E self) true
                  / E_max self)
          + w2 * (- Rabs (angle_to_pi (bng_rel (eta_N (OS self)) (eta_E (OS self))
                                         (goal_N self) (goal_E self) (eta_psi (OS self))))
                    / PI)
          + w3 * collision_reward self + w4 * rr
          + w5 * (if _is_off_map (OS self) then -10 else 0)).
Proof.
  unfold _calculate_reward, bindR.
  destruct (COLREG_reward_loop self 0 0 (TSs self)) as [rr|]; [|discriminate].
  intros [= <-]. exists rr. split; reflexivity.
Qed.

(** X5: when [_calculate_reward] returns, none of the five components it
    stores is positive: the distance reward (for a positive map extent
    [E_max]), the heading reward, which lies in [−1, 0], the collision
    reward, the rule reward, which lies between −10 times the number of
    targets and 0, and the map reward, which is 0 or −10; the total is their
    weighted sum and is not positive for weights that are not negative. *)
Theorem reward_components_never_positive
    (self self' : FossenEnv) (w_dist w_head w_coll w_COLREG w_map : R) :
  0 < E_max self ->
  _calculate_reward self w_dist w_head w_coll w_COLREG w_map = Ok self' ->
  r_dist self' <= 0
  /\ -1 <= r_head self' <= 0
  /\ r_coll self' <= 0
  /\ - 10 * INR (List.length (TSs self)) <= r_COLREG self' <= 0
  /\ (r_map self' = 0 \/ r_map self' = -10)
  /\ r self' = w_dist * r_dist self' + w_head * r_head self'
               + w_coll * r_coll self' + w_COLREG * r_COLREG self'
               + w_map * r_map self'
  /\ (0 <= w_dist -> 0 <= w_head -> 0 <= w_coll -> 0 <= w_COLREG -> 0 <= w_map ->
      r self' <= 0).
Proof.
  intros HE Hcalc.
  destruct (calculate_reward_result _ _ _ _ _ _ _ Hcalc) as [rr [Hloop ->]].
  cbn [r_dist r_head r_coll r_COLREG r_map r set_rewards].
  pose proof (ED_nonneg (eta_N (OS self)) (eta_E (OS self)) (goal_N self) (goal_E self)) as HED.
  set (d := ED _ _ _ _ true) in *.
  pose proof (angle_to_pi_range
                (bng_rel (eta_N (OS self)) (eta_E (OS self))
                   (goal_N self) (goal_E self) (eta_psi (OS self)))) as [Hlo Hhi].
  set (b := angle_to_pi _) in *.
  pose proof PI_RGT_0 as HPI.
  assert (Hd : - d / E_max self <= 0).
  { unfold Rdiv. rewrite <- Ropp_mult_distr_l.
    assert (0 <= d * / E_max self); [|lra].
    apply Rmult_le_pos; [exact HED|]. left. apply Rinv_0_lt_compat. exact HE. }
  assert (Hh : -1 <= - Rabs b / PI <= 0).
  { assert (Hb : 0 <= Rabs b <= PI).
    { split; [apply Rabs_pos|]. unfold Rabs. destruct (Rcase_abs b); lra. }
    unfold Rdiv. rewrite <- Ropp_mult_distr_l.
    assert (0 <= Rabs b * / PI <= 1); [|lra].
    split.
    - apply Rmult_le_pos; [lra|]. left. apply Rinv_0_lt_compat. exact HPI.
    - apply (Rmult_le_reg_r PI); [exact HPI|].
      rewrite Rmult_assoc, Rinv_l by lra. lra. }
  assert (Hc : collision_reward self <= 0).
  { replace (collision_reward self) with (0 + r_coll_sum self)
      by (unfold collision_reward, r_coll_sum; rewrite collision_loop_sum; reflexivity).
    unfold r_coll_sum.
    assert (Rsum (fun TS => - proximity_penalty self TS - hard_penalty self TS)
                 (TSs self) <= 0); [|lra].
    apply Rsum_nonpos. intros TS.
    pose proof (proximity_penalty_pos self TS).
    pose proof (hard_penalty_nonneg self TS). lra. }
  pose proof (COLREG_reward_loop_bounds self _ _ _ _ Hloop) as Hr.
  assert (Hm : (if _is_off_map (OS self) then -10 else 0) <= 0
               /\ ((if _is_off_map (OS self) then -10 else 0) = 0
                   \/ (if _is_off_map (OS self) then -10 else 0) = -10)).
  { destruct (_is_off_map (OS self)); split; auto; lra. }
  destruct Hm as [Hm Hm'].
  split; [exact Hd|]. split; [exact Hh|]. split; [exact Hc|].
  split; [lra|]. split; [exact Hm'|]. split; [reflexivity|].
  intros H1 H2 H3 H4 H5.
  set (m := if _is_off_map (OS self) then -10 else 0) in *.
  assert (w_dist * (- d / E_max self) <= 0) by nra.
  assert (w_head * (- Rabs b / PI) <= 0) by nra.
  assert (w_coll * collision_reward self <= 0) by nra.
  assert (w_COLREG * rr <= 0) by nra.
  assert (w_map * m <= 0) by nra.
  lra.
Qed.

End RewardMore.

Lemma env_turned_reward :
  exists self',
    @_calculate_reward kinematic_model env_turned 1 1 1 1 1 = Ok self'.
Proof.
  destruct (@calculate_reward_total kinematic_model env_turned 1 1 1 1 1)
    as [s' [H _]]; try reflexivity.
  - right. exists [false]. split; reflexivity.
  - exists s'. exact H.
Defined.

Lemma E_max_turned : 0 < E_max env_turned.
Proof. cbn. lra. Defined.

(** X5 for the environment of the turned own ship, with unit weights. *)
Lemma reward_components_never_positive_witness :
  0 < E_max env_turned
  /\ exists self',
       @_calculate_reward kinematic_model env_turned 1 1 1 1 1 = Ok self'
       /\ r_dist self' <= 0 /\ -1 <= r_head self' <= 0 /\ r_coll self' <= 0.
Proof.
  split; [exact E_max_turned|].
  destruct env_turned_reward as [s' H]. exists s'. split; [exact H|].
  destruct (@reward_components_never_positive kinematic_model env_turned s'
              1 1 1 1 1 E_max_turned H) as [Hd [Hh [Hc _]]].
  split; [exact Hd|]. split; [exact Hh | exact Hc].
Defined.

Lemma rule_reward_no_violation (self : FossenEnv) (flags : list bool)
    (i : nat) (seq : list CyberShipII) (s : R) :
  (forall j TS, ~ rule_violation self flags j TS) ->
  rule_reward self flags i seq s -> s = 0.
Proof.
  intros Hno Hr. induction Hr as [i | i TS rest s Hv _ _ | i TS rest s _ _ IH].
  - reflexivity.
  - exfalso. exact (Hno i TS Hv).
  - exact IH.
Qed.

(** X6: the rule reward is 0 when no class differs from the class of the
    previous tick, and also when every target is flagged as just
    respawned. *)
Theorem rule_reward_nothing_to_charge (self : FossenEnv) (flags : list bool) :
  respawn_flags self = Some flags ->
  List.length flags = List.length (TSs self) ->
  List.length (TS_COLREGs self) = List.length (TSs self) ->
  List.length (TS_COLREGs_old self) = List.length (TSs self) ->
  TS_COLREGs self = TS_COLREGs_old self \/ Forall (fun flag => flag = true) flags ->
  COLREG_reward_loop self 0 0 (TSs self) = Ok 0.
Proof.
  intros Hflags Hf Hn Ho Hcase.
  destruct (COLREG_reward_loop_spec self flags (TSs self) Hflags 0%nat 0)
    as [s [Hloop Hs]]; try lia.
  rewrite Hloop. f_equal.
  rewrite (rule_reward_no_violation self flags 0 (TSs self) s); [lra | | exact Hs].
  intros j TS [Hflag [[old [new [Hold [Hnew [Hne _]]]]] _]].
  destruct Hcase as [Heq | Hall].
  - rewrite Heq in Hnew. congruence.
  - apply nth_error_In in Hflag. rewrite Forall_forall in Hall.
    specialize (Hall false Hflag). discriminate.
Qed.

(** X6 for the far pair: the target was classified 0 and is classified 0. *)
Lemma rule_reward_nothing_to_charge_witness :
  respawn_flags env_far = Some [false]
  /\ List.length [false] = List.length (TSs env_far)
  /\ List.length (TS_COLREGs env_far) = List.length (TSs env_far)
  /\ List.length (TS_COLREGs_old env_far) = List.length (TSs env_far)
  /\ (TS_COLREGs env_far = TS_COLREGs_old env_far
      \/ Forall (fun flag => flag = true) [false])
  /\ COLREG_reward_loop env_far 0 0 (TSs env_far) = Ok 0.
Proof.
  split; [reflexivity|]. split; [reflexivity|]. split; [reflexivity|].
  split; [reflexivity|]. split; [left; reflexivity|].
  exact (rule_reward_nothing_to_charge env_far [false]
           eq_refl eq_refl eq_refl eq_refl (or_introl eq_refl)).
Defined.

Section RuleByClass.
Context `{VM : VesselModel}.

Lemma COLREG_situation_3_inv (OS TS : CyberShipII) :
  _get_COLREG_situation OS TS np_inf = 3%Z -> PortsideCrossing OS TS.
Proof.
  intros H3. pose proof (COLREG_situation_decision_list OS TS) as Hm.
  cbn [first_match COLREG_rules] in Hm. rewrite H3 in Hm.
  intuition discriminate.
Qed.

Lemma COLREG_situation_2_inv (OS TS : CyberShipII) :
  _get_COLREG_situation OS TS np_inf = 2%Z -> StarboardCrossing OS TS.
Proof.
  intros H2. pose proof (COLREG_situation_decision_list OS TS) as Hm.
  cbn [first_match COLREG_rules] in Hm. rewrite H2 in Hm.
  intuition discriminate.
Qed.

(** X7: how the classification and the rule reward fit together, for a
    target whose current class is the one [_set_COLREGs] computes: a target
    that is now PortsideCrossing is never charged (it bears beyond 180°),
    and a target that is now StarboardCrossing, is not flagged as respawned
    and was HeadOn or PortsideCrossing at the previous tick is always
    charged (it bears within 180°). *)
Theorem rule_reward_by_new_class (self : FossenEnv) (flags : list bool)
    (i : nat) (TS : CyberShipII) :
  nth_error (TS_COLREGs self) i
  = Some (_get_COLREG_situation (OS self) TS np_inf) ->
  (_get_COLREG_situation (OS self) TS np_inf = 3%Z ->
   ~ rule_violation self flags i TS)
  /\ (_get_COLREG_situation (OS self) TS np_inf = 2%Z ->
      nth_error flags i = Some false ->
      nth_error (TS_COLREGs_old self) i = Some 1%Z
      \/ nth_error (TS_COLREGs_old self) i = Some 3%Z ->
      rule_violation self flags i TS).
Proof.
  intros Hnew. split.
  - intros H3 [_ [_ Hb]]. apply COLREG_situation_3_inv in H3.
    destruct H3 as [Hband _]. band_bounds. lra.
  - intros H2 Hflag Hold. rewrite H2 in Hnew.
    apply COLREG_situation_2_inv in H2. destruct H2 as [Hband _].
    split; [exact Hflag|]. split.
    + destruct Hold as [Hold | Hold]; [exists 1%Z, 2%Z | exists 3%Z, 2%Z];
        repeat split; auto; discriminate.
    + band_bounds. lra.
Qed.

End RuleByClass.

Lemma C_T_turned : C_T OS_turned TS_corner = dtr 190.
Proof.
  unfold C_T, head_inter, OS_turned, TS_corner, vessel_at, eta_psi;
    cbn [eta fst snd].
  apply (angle_to_2pi_eq _ _ (-1)); unfold dtr; pose proof PI_RGT_0; lra.
Qed.

Lemma turned_pair_class :
  nth_error (TS_COLREGs env_turned) 0
  = Some (@_get_COLREG_situation kinematic_model (OS env_turned) TS_corner np_inf).
Proof.
  change (OS env_turned) with OS_turned. cbn [nth_error TS_COLREGs env_turned env_of].
  f_equal. symmetry. apply COLREG_situation_StarboardCrossing.
  - intros [Hb _]. rewrite bearing_OS_turned in Hb.
    rewrite angle_to_pi_low in Hb by (unfold dtr; pose proof PI_RGT_0; lra).
    band_bounds. lra.
  - split; [rewrite bearing_OS_turned | rewrite C_T_turned];
      apply in_band_at; lra.
Defined.

(** X7 for the turned own ship: the target is StarboardCrossing now, was
    HeadOn and is charged. *)
Lemma rule_reward_by_new_class_witness :
  nth_error (TS_COLREGs env_turned) 0
  = Some (@_get_COLREG_situation kinematic_model (OS env_turned) TS_corner np_inf)
  /\ rule_violation env_turned [false] 0 TS_corner.
Proof.
  split; [exact turned_pair_class|].
  apply (proj2 (@rule_reward_by_new_class kinematic_model env_turned [false]
                  0%nat TS_corner turned_pair_class)).
  - pose proof turned_pair_class as H.
    cbn [nth_error TS_COLREGs env_turned env_of] in H. congruence.
  - reflexivity.
  - left. reflexivity.
Defined.

(** ** More on the spawning of targets *)

Section SpawnMore.
Context `{VM : VesselModel}.

(** X8: with the control approach "tau" the target that [_get_TS] returns
    is placed so that, carried on along its heading at its surge speed, it
    arrives exactly at the rendezvous: in the front mode, after [TCPA_crit],
    where the own ship will be on its present course and speed; in the line
    mode, after the time drawn, at the hit point. Its surge speed is the
    converged speed of its thrust. *)
Theorem spawn_meets_rendezvous (self : FossenEnv) (spawn_mode : string) (g : Rng) :
  spawn_mode = "line"%string \/ spawn_mode = "front"%string ->
  cnt_approach self = "tau"%string ->
  exists TS : CyberShipII,
    _get_TS self spawn_mode g = Ok (TS, advance g 6 1)
    /\ (eta_N TS + fst (fst (nu TS)) * cos (eta_psi TS)
                   * fst (rendezvous self spawn_mode g),
        eta_E TS + fst (fst (nu TS)) * sin (eta_psi TS)
                   * fst (rendezvous self spawn_mode g))
       = snd (rendezvous self spawn_mode g)
    /\ fst (fst (nu TS))
       = _u_from_tau_u (sampled_vessel self g) (tau_u (sampled_vessel self g)).
Proof.
  intros Hmode Hcnt.
  rewrite get_TS_unfold by exact Hmode. rewrite Hcnt.
  change (negb ("tau" =? "tau")%string) with false. cbv iota.
  unfold advance at 1.
  destruct Hmode as [-> | ->].
  - rewrite get_TS_place_line_starboard. cbv zeta.
    eexists. split; [reflexivity|].
    unfold eta_N, eta_E, eta_psi, rendezvous, draw.
    cbn [eta nu set_eta set_nu0 fst snd String.eqb Ascii.eqb Bool.eqb].
    destruct (line_hit self _) as [N_hit E_hit]. cbn [fst snd].
    split; [apply f_equal2; ring | reflexivity].
  - rewrite get_TS_place_front_starboard. cbv zeta.
    eexists. split; [reflexivity|].
    unfold rendezvous. unfold eta_N, eta_E, eta_psi.
    cbn [eta nu set_eta set_nu0 fst snd String.eqb Ascii.eqb Bool.eqb].
    split; [apply f_equal2; ring | reflexivity].
Qed.

(** X9: with the control approach "tau" and unit draws in [0, 1), the
    heading of the target that [_get_TS] returns intersects the reference
    heading at an angle in the starboard band [185°, 292.5°): in the front
    mode the reference is the own ship's heading, so that the condition of
    StarboardCrossing on the heading-intersection angle holds for the pair;
    in the line mode it is the bearing of the goal. *)
Theorem spawn_heading_in_starboard_band
    (self : FossenEnv) (spawn_mode : string) (g : Rng) :
  spawn_mode = "line"%string \/ spawn_mode = "front"%string ->
  cnt_approach self = "tau"%string ->
  (forall k, 0 <= draw g k < 1) ->
  exists TS : CyberShipII,
    _get_TS self spawn_mode g = Ok (TS, advance g 6 1)
    /\ (spawn_mode = "front"%string ->
        in_band 185 (C_T (OS self) TS) 292.5
        /\ C_T (OS self) TS < dtr 292.5)
    /\ (spawn_mode = "line"%string ->
        let b := bng_abs (eta_N (OS self)) (eta_E (OS self))
                         (goal_N self) (goal_E self) in
        dtr 185 <= head_inter b (eta_psi TS) < dtr 292.5).
Proof.
  intros Hmode Hcnt Hdraw.
  rewrite get_TS_unfold by exact Hmode. rewrite Hcnt.
  change (negb ("tau" =? "tau")%string) with false. cbv iota.
  unfold advance at 1.
  pose proof (Hdraw 5%nat) as H5. unfold draw in H5. cbn [Nat.add] in H5.
  pose proof PI_RGT_0 as HPI.
  set (c := 185 + (292.5 - 185) * np_draws g (S (S (S (S (S (np_pos g))))))).
  assert (Hcb : 185 <= c < 292.5) by (unfold c; lra).
  assert (Hc : 0 <= dtr c < 2 * PI) by (unfold dtr; split; nra).
  assert (Hband : dtr 185 <= dtr c < dtr 292.5) by (unfold dtr; split; nra).
  destruct Hmode as [-> | ->].
  - rewrite get_TS_place_line_starboard. cbv zeta.
    eexists. split; [reflexivity|]. split; [discriminate|].
    intros _. cbv zeta.
    change (eta_psi (set_eta ?a (?x, ?y, ?h))) with h.
    unfold crossing_heading. cbn [String.eqb Ascii.eqb Bool.eqb Nat.add].
    fold c. rewrite head_inter_of_crossing by exact Hc. exact Hband.
  - rewrite get_TS_place_front_starboard. cbv zeta.
    eexists. split; [reflexivity|]. split; [|discriminate].
    intros _. unfold C_T, in_band.
    change (eta_psi (set_eta ?a (?x, ?y, ?h))) with h.
    unfold crossing_heading. cbn [String.eqb Ascii.eqb Bool.eqb Nat.add].
    fold c. rewrite head_inter_of_crossing by exact Hc.
    destruct Hband. repeat split; lra.
Qed.

(** X10: the placement part of [_get_TS] for the situations that the
    function never reaches: for the situation 0 (none) it returns the
    sampled vessel as it is, without a draw, in every mode; for the
    situation 4 (overtaking) in the line mode it raises UnboundLocalError
    after drawing the time, since that mode assigns the heading and the
    speed of the target only for the situations 1, 2 and 3. *)
Theorem get_TS_place_null_and_overtaking
    (self : FossenEnv) (spawn_mode : string) (TS : CyberShipII) (g : Rng) :
  _get_TS_place self spawn_mode TS 0 g = Ok (TS, g)
  /\ _get_TS_place self "line" TS 4 g = Raise UnboundLocalError
  /\ exists TS' g', _get_TS_place self "front" TS 4 g = Ok (TS', g')
                    /\ np_pos g' = (3 + np_pos g)%nat.
Proof.
  split; [reflexivity|]. split.
  - unfold _get_TS_place.
    cbn [Z.eqb String.eqb Ascii.eqb Bool.eqb Z_in existsb orb Pos.eqb].
    unfold bind, uniform. cbn [np_draws np_pos py_draws py_pos].
    destruct (line_hit self _). reflexivity.
  - unfold _get_TS_place.
    cbn [Z.eqb String.eqb Ascii.eqb Bool.eqb Z_in existsb orb Pos.eqb].
    unfold bind, uniform, ret, bound.
    cbn [np_draws np_pos py_draws py_pos fst snd].
    do 2 eexists. split; reflexivity.
Qed.

End SpawnMore.

Lemma mode_front : "front"%string = "line"%string \/ "front"%string = "front"%string.
Proof. right. reflexivity. Defined.

(** X8 for the own ship at (10, 50) heading north, the front mode and the
    generator whose unit draws are all 1/2. *)
Lemma spawn_meets_rendezvous_witness :
  ("front"%string = "line"%string \/ "front"%string = "front"%string)
  /\ cnt_approach env_far = "tau"%string
  /\ exists TS : CyberShipII,
       @_get_TS kinematic_model env_far "front" rng_half
       = Ok (TS, advance rng_half 6 1)
       /\ (eta_N TS + fst (fst (nu TS)) * cos (eta_psi TS)
                      * fst (@rendezvous kinematic_model env_far "front" rng_half),
           eta_E TS + fst (fst (nu TS)) * sin (eta_psi TS)
                      * fst (@rendezvous kinematic_model env_far "front" rng_half))
          = snd (@rendezvous kinematic_model env_far "front" rng_half).
Proof.
  split; [exact mode_front|]. split; [reflexivity|].
  destruct (@spawn_meets_rendezvous kinematic_model env_far "front" rng_half
              mode_front eq_refl) as [TS [Hok [Hmeet _]]].
  exists TS. split; [exact Hok | exact Hmeet].
Defined.

(** X9 for the same spawn. *)
Lemma spawn_heading_in_starboard_band_witness :
  ("front"%string = "line"%string \/ "front"%string = "front"%string)
  /\ cnt_approach env_far = "tau"%string
  /\ (forall k, 0 <= draw rng_half k < 1)
  /\ exists TS : CyberShipII,
       @_get_TS kinematic_model env_far "front" rng_half
       = Ok (TS, advance rng_half 6 1)
       /\ in_band 185 (C_T (OS env_far) TS) 292.5.
Proof.
  split; [exact mode_front|]. split; [reflexivity|].
  split; [exact rng_half_draws|].
  destruct (@spawn_heading_in_starboard_band kinematic_model env_far "front"
              rng_half mode_front eq_refl rng_half_draws)
    as [TS [Hok [Hfront _]]].
  exists TS. split; [exact Hok | exact (proj1 (Hfront eq_refl))].
Defined.

(* ------------------------------------------------------------------ *)
(** ** Leaving the map *)

Lemma np_clip_range (x hi : R) : 0 <= hi -> 0 <= np_clip x 0 hi <= hi.
Proof.
  intros Hhi. unfold np_clip, Rmin, Rmax.
  destruct (Rle_dec x 0); destruct (Rle_dec _ hi); lra.
Qed.

Lemma np_clip_inside (x hi : R) : 0 <= x <= hi -> np_clip x 0 hi = x.
Proof.
  intros Hx. unfold np_clip, Rmin, Rmax.
  destruct (Rle_dec x 0); destruct (Rle_dec _ hi); lra.
Qed.

Section MapLeaving.
Context `{VM : VesselModel}.

(** X11: with [respawn=False, mirrow=False, clip=True], as [step] calls it
    for the own ship, [_handle_map_leaving] draws no random number, answers
    with the flag False and leaves heading, velocity and thrust alone.  A
    vessel on the map is returned as it is; a vessel off the map (of a map
    with non-negative extents) is put back inside [0, N_max] x [0, E_max],
    and a coordinate that was inside its range is not moved. *)
Theorem map_leaving_clip_keeps_on_map (self : FossenEnv) (CS : CyberShipII) (g : Rng) :
  0 <= CS_N_max CS -> 0 <= CS_E_max CS ->
  exists CS' : CyberShipII,
    _handle_map_leaving self CS false false true g = Ok ((CS', false), g)
    /\ nu CS' = nu CS /\ eta_psi CS' = eta_psi CS /\ tau_u CS' = tau_u CS
    /\ (_is_off_map CS = false -> CS' = CS)
    /\ (_is_off_map CS = true ->
        0 <= eta_N CS' <= CS_N_max CS /\ 0 <= eta_E CS' <= CS_E_max CS
        /\ (0 <= eta_N CS <= CS_N_max CS -> eta_N CS' = eta_N CS)
        /\ (0 <= eta_E CS <= CS_E_max CS -> eta_E CS' = eta_E CS)).
Proof.
  intros HN HE. unfold _handle_map_leaving.
  destruct (_is_off_map CS) eqn:Eoff; cbv zeta.
  - eexists. split; [reflexivity|].
    unfold eta_N, eta_E, eta_psi. cbn [set_eta eta nu tau_u fst snd CS_N_max CS_E_max].
    repeat split; try discriminate;
      try (apply np_clip_range; assumption);
      try (intros Hin; apply np_clip_inside; exact Hin).
  - exists CS. split; [reflexivity|]. repeat split; try discriminate.
Qed.

(** X12: with [respawn=False, mirrow=True] a vessel off the map keeps its
    position and is turned on the spot, whatever [clip] says: when its E
    coordinate is on or beyond the E borders the new heading [2 pi - psi]
    reverses the eastward part of its direction and keeps the northward
    part, also in a corner of the map; otherwise the new heading
    [pi - psi] reverses the northward part and keeps the eastward part.
    The flag is False and no random number is drawn. *)
Theorem map_leaving_mirror_reflects
    (self : FossenEnv) (CS : CyberShipII) (clip : bool) (g : Rng) :
  _is_off_map CS = true ->
  exists psi' : R,
    _handle_map_leaving self CS false true clip g
    = Ok ((set_eta CS (eta_N CS, eta_E CS, psi'), false), g)
    /\ (eta_E CS <= 0 \/ CS_E_max CS <= eta_E CS ->
        psi' = 2 * PI - eta_psi CS
        /\ sin psi' = - sin (eta_psi CS) /\ cos psi' = cos (eta_psi CS))
    /\ (0 < eta_E CS < CS_E_max CS ->
        psi' = PI - eta_psi CS
        /\ sin psi' = sin (eta_psi CS) /\ cos psi' = - cos (eta_psi CS)).
Proof.
  intros Hoff. unfold _handle_map_leaving. rewrite Hoff. cbv zeta.
  destruct (Rleb (eta_E CS) 0) eqn:E1; cbn [orb].
  - apply Rleb_true in E1. eexists. split; [reflexivity|]. split.
    + intros _. split; [reflexivity|].
      unfold Rminus. rewrite sin_plus, cos_plus, sin_2PI, cos_2PI, sin_neg, cos_neg.
      split; ring.
    + intros H. lra.
  - apply Rleb_false in E1.
    destruct (Rleb (CS_E_max CS) (eta_E CS)) eqn:E2.
    + apply Rleb_true in E2. eexists. split; [reflexivity|]. split.
      * intros _. split; [reflexivity|].
        unfold Rminus. rewrite sin_plus, cos_plus, sin_2PI, cos_2PI, sin_neg, cos_neg.
        split; ring.
      * intros H. lra.
    + apply Rleb_false in E2. eexists. split; [reflexivity|]. split.
      * intros H. lra.
      * intros _. split; [reflexivity|].
        rewrite sin_PI_x. unfold Rminus. rewrite cos_plus, cos_PI, sin_PI, sin_neg, cos_neg.
        split; [reflexivity | ring].
Qed.

End MapLeaving.

Lemma CS_north_out_off : @_is_off_map kinematic_model CS_north_out = true.
Proof.
  cbn. unfold eta_N, eta_E. cbn.
  replace (Rleb 100 120) with true by (symmetry; apply Rleb_true; lra).
  rewrite orb_true_r. reflexivity.
Defined.

Lemma CS_north_out_map : 0 <= CS_N_max CS_north_out /\ 0 <= CS_E_max CS_north_out.
Proof. cbn. split; lra. Defined.

(** X11 for a vessel 20 m north of the northern border. *)
Lemma map_leaving_clip_keeps_on_map_witness :
  0 <= CS_N_max CS_north_out /\ 0 <= CS_E_max CS_north_out
  /\ exists CS' : CyberShipII,
       @_handle_map_leaving kinematic_model env_far CS_north_out false false true rng_half
       = Ok ((CS', false), rng_half)
       /\ eta_psi CS' = eta_psi CS_north_out
       /\ 0 <= eta_N CS' <= CS_N_max CS_north_out
       /\ eta_E CS' = eta_E CS_north_out.
Proof.
  split; [exact (proj1 CS_north_out_map)|]. split; [exact (proj2 CS_north_out_map)|].
  destruct (@map_leaving_clip_keeps_on_map kinematic_model env_far CS_north_out rng_half
              (proj1 CS_north_out_map) (proj2 CS_north_out_map))
    as [CS' [Hok [_ [Hpsi [_ [_ Hoff]]]]]].
  destruct (Hoff CS_north_out_off) as [HN [_ [_ HE]]].
  exists CS'. split; [exact Hok|]. split; [exact Hpsi|]. split; [exact HN|].
  apply HE. cbn. lra.
Defined.

(** X12 for the same vessel: it left through the northern border only, so
    its heading 0 becomes [pi]. *)
Lemma map_leaving_mirror_reflects_witness :
  @_is_off_map kinematic_model CS_north_out = true
  /\ exists psi' : R,
       @_handle_map_leaving kinematic_model env_far CS_north_out false true false rng_half
       = Ok ((set_eta CS_north_out (eta_N CS_north_out, eta_E CS_north_out, psi'), false),
             rng_half)
       /\ psi' = PI - eta_psi CS_north_out.
Proof.
  split; [exact CS_north_out_off|].
  destruct (@map_leaving_mirror_reflects kinematic_model env_far CS_north_out false rng_half
              CS_north_out_off) as [psi' [Hok [_ HN]]].
  exists psi'. split; [exact Hok|]. apply HN. cbn. lra.
Defined.

(* ------------------------------------------------------------------ *)
(** ** What the observation holds *)

Lemma skipn_cons_inv {A : Type} (i : nat) :
  forall (l : list A) (c : A) (rest : list A),
    skipn i l = c :: rest -> nth_error l i = Some c /\ skipn (S i) l = rest.
Proof.
  induction i as [|i IH]; intros l c rest H.
  - cbn in H. subst l. split; reflexivity.
  - destruct l as [|x l]; [discriminate|]. cbn [skipn] in H.
    destruct (IH l c rest H) as [H1 H2]. split; [exact H1 | exact H2].
Qed.

Lemma insert_desc_perm (row : list R) (sorted : list (list R)) :
  Permutation (insert_desc row sorted) (row :: sorted).
Proof.
  induction sorted as [|y ys IH]; cbn [insert_desc].
  - apply Permutation_refl.
  - destruct (Rltb (hd 0 y) (hd 0 row)).
    + apply Permutation_refl.
    + apply (perm_trans (perm_skip y IH)). apply perm_swap.
Qed.

Lemma insert_desc_descending (row : list R) (sorted : list (list R)) :
  descending sorted -> descending (insert_desc row sorted).
Proof.
  unfold descending. intros Hs.
  induction Hs as [|y ys Hys IH Hy]; cbn [insert_desc].
  - constructor; constructor.
  - destruct (Rltb (hd 0 y) (hd 0 row)) eqn:E.
    + apply Rltb_true in E. constructor.
      * constructor; assumption.
      * constructor; [lra|].
        eapply Forall_impl; [|exact Hy]. cbv beta. intros z Hz. lra.
    + apply Rltb_false in E. constructor; [exact IH|].
      apply (Permutation_Forall (Permutation_sym (insert_desc_perm row ys))).
      constructor; [lra | exact Hy].
Qed.

Lemma sorted_desc_spec (rows : list (list R)) :
  Permutation (sorted_desc rows) rows /\ descending (sorted_desc rows).
Proof.
  unfold sorted_desc.
  assert (Hgen : forall acc,
             descending acc ->
             Permutation (fold_left (fun acc row => insert_desc row acc) rows acc)
                         (acc ++ rows)
             /\ descending (fold_left (fun acc row => insert_desc row acc) rows acc)).
  { induction rows as [|row rows IH]; intros acc Hacc; cbn [fold_left].
    - rewrite app_nil_r. split; [apply Permutation_refl | exact Hacc].
    - destruct (IH (insert_desc row acc) (insert_desc_descending row acc Hacc))
        as [Hp Hd].
      split; [|exact Hd].
      apply (perm_trans Hp).
      apply (perm_trans (Permutation_app_tail rows (insert_desc_perm row acc))).
      cbn [app]. apply Permutation_middle. }
  destruct (Hgen [] (SSorted_nil _)) as [Hp Hd]. split; [exact Hp | exact Hd].
Qed.

Section Observation.
Context `{VM : VesselModel}.
Variable tcpa : R -> R -> R -> R -> R -> R -> R -> R -> R.

(** The loop of [_set_state] adds the row of every target inside the ship
    domain, in the order of the targets. *)
Lemma state_TSs_loop_rows (self : FossenEnv) (seq : list CyberShipII) :
  forall (acc : list (list R)) (i : nat),
    (List.length seq <= List.length (skipn i (TS_COLREGs self)))%nat ->
    state_TSs_loop tcpa self acc i seq
    = Ok (acc ++ map (fun p => TS_row tcpa self (fst p) (snd p))
                     (filter (fun p => in_domain self (fst p))
                             (combine seq (skipn i (TS_COLREGs self))))).
Proof.
  induction seq as [|TS rest IH]; intros acc i Hlen; cbn [state_TSs_loop].
  - cbn [combine filter map]. rewrite app_nil_r. reflexivity.
  - cbv zeta. destruct (skipn i (TS_COLREGs self)) as [|c cs] eqn:Esk;
      [cbn in Hlen; lia|].
    destruct (skipn_cons_inv i _ _ _ Esk) as [Hnth Hsk].
    cbn [combine filter fst]. unfold in_domain at 1.
    cbn [List.length] in Hlen.
    destruct (Rleb _ (_get_ship_domain (OS self) TS)).
    + unfold index. rewrite Hnth. cbn [bindR].
      rewrite IH by (rewrite Hsk; lia). rewrite Hsk.
      cbn [map fst snd]. rewrite <- app_assoc. reflexivity.
    + rewrite IH by (rewrite Hsk; lia). rewrite Hsk. reflexivity.
Qed.

Lemma visible_rows_shape (self : FossenEnv) :
  (List.length (visible_rows tcpa self) <= List.length (TSs self))%nat
  /\ Forall (fun x => List.length x = 6%nat) (visible_rows tcpa self).
Proof.
  unfold visible_rows. split.
  - rewrite length_map.
    eapply Nat.le_trans; [apply filter_length_le|].
    rewrite length_combine. lia.
  - apply Forall_map. apply Forall_forall. intros p _. reflexivity.
Qed.

(** Under the invariant, the observation is the eight entries of own ship
    and goal, then the rows of the targets inside the ship domain by
    descending distance, then padding. *)
Lemma set_state_content (self : FossenEnv) :
  Z.of_nat (List.length (TSs self)) = N_TSs self ->
  List.length (TS_COLREGs self) = List.length (TSs self) ->
  exists (own : list npfloat) (rows : list (list R)),
    _set_state tcpa self
    = Ok (set_state self
            (own ++ map num (List.concat rows)
                 ++ repeat (state_pad self)
                      (6 * (List.length (TSs self) - List.length rows))))
    /\ List.length own = 8%nat
    /\ Permutation rows (visible_rows tcpa self)
    /\ descending rows
    /\ (List.length rows <= List.length (TSs self))%nat
    /\ Forall (fun x => List.length x = 6%nat) rows.
Proof.
  intros HN Hc. unfold _set_state. cbv zeta.
  destruct (nu (OS self)) as [[u v] yaw].
  rewrite (state_TSs_loop_rows self (TSs self) [] 0%nat)
    by (cbn [skipn]; lia).
  cbn [skipn app bindR]. fold (visible_rows tcpa self).
  destruct (visible_rows_shape self) as [Hlen Hall].
  destruct (visible_rows tcpa self) as [|row rows'] eqn:Erows.
  - cbn [bindR].
    eexists (_ :: _ :: _ :: _ :: _ :: _ :: _ :: _ :: []), [].
    split; [|split; [reflexivity|split; [constructor|split; [constructor|split; [cbn; lia|constructor]]]]].
    cbn [map app List.concat List.length].
    replace (Z.to_nat (6 * N_TSs self)) with (6 * (List.length (TSs self) - 0))%nat by lia.
    reflexivity.
  - rewrite <- Erows in *. clear Erows row rows'.
    destruct (sorted_desc_rows 6 _ Hall) as [Hslen Hsall].
    destruct (sorted_desc_spec (visible_rows tcpa self)) as [Hperm Hdesc].
    pose proof (concat_rows_length 6 _ Hsall) as Hflat.
    destruct (_ <? 0)%Z eqn:Ew.
    + apply Z.ltb_lt in Ew. lia.
    + cbn [bindR].
      eexists (_ :: _ :: _ :: _ :: _ :: _ :: _ :: _ :: []), (sorted_desc (visible_rows tcpa self)).
      split; [|split; [reflexivity|split; [exact Hperm|split; [exact Hdesc|split; [lia|exact Hsall]]]]].
      cbn [map app].
      replace (Z.to_nat (N_TSs self * 6
                         - Z.of_nat (List.length (List.concat (sorted_desc (visible_rows tcpa self))))))
        with (6 * (List.length (TSs self)
                   - List.length (sorted_desc (visible_rows tcpa self))))%nat by lia.
      reflexivity.
Qed.

(** X13: under the invariant of the environment (as many targets as
    [N_TSs], one class per target) [_set_state] returns, and the
    observation it stores has [8 + 6 * N_TSs] entries, the [obs_size] that
    [__init__] declares for the observation space, however many targets are
    inside their ship domain; nothing but [self.state] changes. *)
Theorem observation_size (self : FossenEnv) :
  Z.of_nat (List.length (TSs self)) = N_TSs self ->
  List.length (TS_COLREGs self) = List.length (TSs self) ->
  exists st : list npfloat,
    _set_state tcpa self = Ok (set_state self st)
    /\ Z.of_nat (List.length st) = (8 + N_TSs self * 6)%Z.
Proof.
  intros HN Hc.
  destruct (set_state_content self HN Hc)
    as [own [rows [Hst [Hown [_ [_ [Hlen Hall]]]]]]].
  eexists. split; [exact Hst|].
  rewrite !length_app, length_map, repeat_length, Hown,
    (concat_rows_length 6 rows Hall).
  lia.
Qed.

(** X14: under the same invariant the observation is, after the eight
    entries of own ship and goal, the six-entry rows of exactly the targets
    that are inside the ship domain of their pair (each with the class
    stored at its position), ordered by descending normalised distance, and
    then six padding entries for every target left out. *)
Theorem observation_lists_targets_in_domain (self : FossenEnv) :
  Z.of_nat (List.length (TSs self)) = N_TSs self ->
  List.length (TS_COLREGs self) = List.length (TSs self) ->
  exists (own : list npfloat) (rows : list (list R)),
    _set_state tcpa self
    = Ok (set_state self
            (own ++ map num (List.concat rows)
                 ++ repeat (state_pad self)
                      (6 * (List.length (TSs self) - List.length rows))))
    /\ List.length own = 8%nat
    /\ Permutation rows (visible_rows tcpa self)
    /\ descending rows.
Proof.
  intros HN Hc.
  destruct (set_state_content self HN Hc)
    as [own [rows [Hst [Hown [Hperm [Hdesc _]]]]]].
  exists own, rows. split; [exact Hst|]. split; [exact Hown|].
  split; [exact Hperm | exact Hdesc].
Qed.

End Observation.

(** X13 for the far pair. *)
Lemma observation_size_witness :
  Z.of_nat (List.length (TSs env_far)) = N_TSs env_far
  /\ List.length (TS_COLREGs env_far) = List.length (TSs env_far)
  /\ exists st : list npfloat,
       @_set_state kinematic_model tcpa_straight env_far = Ok (set_state env_far st)
       /\ Z.of_nat (List.length st) = 14%Z.
Proof.
  split; [exact env_far_targets|]. split; [exact env_far_classes|].
  exact (@observation_size kinematic_model tcpa_straight env_far
           env_far_targets env_far_classes).
Defined.

Lemma ship_domain_covers_own_speed `{VM : VesselModel} (OS TS : CyberShipII) :
  0 <= CS_length OS -> 30 * _get_V OS <= _get_ship_domain OS TS.
Proof.
  intros HL. rewrite ship_domain_formula. unfold domain_radius.
  set (V := Rmax (_get_V OS) (relative_speed OS TS)).
  pose proof (float_pow_nonneg V 1.26) as Hp.
  pose proof (Rmax_l (_get_V OS) (relative_speed OS TS)) as Hl. fold V in Hl.
  assert (HLp : 0 <= CS_length OS * float_pow V 1.26) by (apply Rmult_le_pos; assumption).
  lra.
Qed.

Lemma ED_north (N0 E0 d : R) : 0 <= d -> ED N0 E0 (N0 + d) E0 true = d.
Proof.
  intros Hd. unfold ED.
  replace ((N0 - (N0 + d)) * (N0 - (N0 + d)) + (E0 - E0) * (E0 - E0)) with (d * d) by ring.
  apply sqrt_square. exact Hd.
Qed.

Lemma in_domain_pair (TS : CyberShipII) (d : R) :
  eta_N TS = 50 + d -> eta_E TS = 50 -> 0 <= d <= 30 ->
  @in_domain kinematic_model env_pair TS = true.
Proof.
  intros HN HE Hd. unfold in_domain. apply Rleb_true.
  change (OS env_pair) with OS_turned.
  change (eta_N OS_turned) with 50. change (eta_E OS_turned) with 50.
  rewrite HN, HE, ED_north by lra.
  pose proof (@ship_domain_covers_own_speed kinematic_model OS_turned TS) as Hdom.
  unfold OS_turned in Hdom at 2. rewrite kinematic_V in Hdom by lra.
  assert (HL : 0 <= CS_length OS_turned) by (cbn; lra).
  specialize (Hdom HL). lra.
Qed.

(** Both targets of the pair are inside the ship domain: their rows, in the
    order of the targets. *)
Lemma visible_rows_pair :
  @visible_rows kinematic_model tcpa_straight env_pair
  = [@TS_row kinematic_model tcpa_straight env_pair TS_corner 2;
     @TS_row kinematic_model tcpa_straight env_pair TS_mid 2].
Proof.
  unfold visible_rows.
  cbn [TSs TS_COLREGs env_pair env_of combine filter fst].
  rewrite (in_domain_pair TS_corner 10), (in_domain_pair TS_mid 20);
    try reflexivity; try lra; cbn; lra.
Qed.

(** The observation lists the farther target first. *)
Lemma pair_rows_order (rows : list (list R)) :
  Permutation rows (@visible_rows kinematic_model tcpa_straight env_pair) ->
  descending rows ->
  rows = [@TS_row kinematic_model tcpa_straight env_pair TS_mid 2;
          @TS_row kinematic_model tcpa_straight env_pair TS_corner 2].
Proof.
  rewrite visible_rows_pair. intros Hperm Hdesc.
  apply Permutation_sym, Permutation_length_2_inv in Hperm.
  destruct Hperm as [-> | ->]; [|reflexivity].
  exfalso. unfold descending in Hdesc.
  apply StronglySorted_inv in Hdesc. destruct Hdesc as [_ Hall].
  apply Forall_inv in Hall. unfold TS_row in Hall. cbn [hd] in Hall.
  change (OS env_pair) with OS_turned in Hall.
  change (eta_N OS_turned) with 50 in Hall. change (eta_E OS_turned) with 50 in Hall.
  change (eta_N TS_mid) with 70 in Hall. change (eta_E TS_mid) with 50 in Hall.
  change (eta_N TS_corner) with 60 in Hall. change (eta_E TS_corner) with 50 in Hall.
  change (E_max env_pair) with 100 in Hall.
  replace 70 with (50 + 20) in Hall by lra.
  replace 60 with (50 + 10) in Hall by lra.
  rewrite !ED_north in Hall by lra. lra.
Qed.

Lemma env_pair_targets : Z.of_nat (List.length (TSs env_pair)) = N_TSs env_pair.
Proof. reflexivity. Defined.

Lemma env_pair_classes :
  List.length (TS_COLREGs env_pair) = List.length (TSs env_pair).
Proof. reflexivity. Defined.

(** X14 for the turned own ship with two targets inside the ship domain, the
    nearer one first in [self.TSs]: the observation holds the row of the
    farther target (20 m), then the row of the nearer one (10 m), and no
    padding. *)
Lemma observation_lists_targets_in_domain_witness :
  Z.of_nat (List.length (TSs env_pair)) = N_TSs env_pair
  /\ List.length (TS_COLREGs env_pair) = List.length (TSs env_pair)
  /\ exists (own : list npfloat) (rows : list (list R)),
       @_set_state kinematic_model tcpa_straight env_pair
       = Ok (set_state env_pair
               (own ++ map num (List.concat rows)
                    ++ repeat (state_pad env_pair)
                         (6 * (List.length (TSs env_pair) - List.length rows))))
       /\ List.length own = 8%nat
       /\ rows = [@TS_row kinematic_model tcpa_straight env_pair TS_mid 2;
                  @TS_row kinematic_model tcpa_straight env_pair TS_corner 2]
       /\ (6 * (List.length (TSs env_pair) - List.length rows) = 0)%nat.
Proof.
  split; [exact env_pair_targets|]. split; [exact env_pair_classes|].
  destruct (@observation_lists_targets_in_domain kinematic_model tcpa_straight env_pair
              env_pair_targets env_pair_classes)
    as (own & rows & Hst & Hown & Hperm & Hdesc).
  exists own, rows.
  split; [exact Hst|]. split; [exact Hown|].
  pose proof (pair_rows_order rows Hperm Hdesc) as Hrows.
  split; [exact Hrows|]. rewrite Hrows. reflexivity.
Defined.

(* ------------------------------------------------------------------ *)
(** ** One tick, stage by stage *)

Lemma mapM_Forall2 {A B : Type} (f : A -> M B) (P : A -> B -> Prop) :
  (forall x g y g', f x g = Ok (y, g') -> P x y) ->
  forall l g ys g', mapM f l g = Ok (ys, g') -> Forall2 P l ys.
Proof.
  intros Hf. induction l as [|x l IH]; intros g ys g' H; cbn [mapM] in H.
  - unfold ret in H. injection H as <- _. constructor.
  - unfold bind in H.
    destruct (f x g) as [[y g1]|] eqn:E1; [|discriminate].
    destruct (mapM f l g1) as [[ys1 g2]|] eqn:E2; [|discriminate].
    unfold ret in H. injection H as <- _.
    constructor; [exact (Hf _ _ _ _ E1) | exact (IH _ _ _ E2)].
Qed.

Lemma Forall2_nth_error_l {A B : Type} (P : A -> B -> Prop) (l : list A) (l' : list B) :
  Forall2 P l l' ->
  forall i x, nth_error l i = Some x -> exists y, nth_error l' i = Some y /\ P x y.
Proof.
  intros H. induction H as [|x0 y0 l l' Hxy _ IH]; intros i x Hi.
  - destruct i; discriminate.
  - destruct i as [|i]; cbn in Hi |- *.
    + injection Hi as <-. exists y0. split; [reflexivity | exact Hxy].
    + exact (IH i x Hi).
Qed.

Lemma Forall2_map_right {A B C : Type} (P : A -> C -> Prop) (h : B -> C)
    (l : list A) (l' : list B) :
  Forall2 (fun x y => P x (h y)) l l' -> Forall2 P l (map h l').
Proof. intros H. induction H; cbn; constructor; assumption. Qed.

Lemma Forall2_map_eq {A B C : Type} (h : B -> C) (k : A -> C)
    (l : list A) (l' : list B) :
  Forall2 (fun x y => h y = k x) l l' -> map h l' = map k l.
Proof. intros H. induction H; cbn; [reflexivity | congruence]. Qed.

Section StepMore.
Context `{VM : VesselModel}.
Variable tcpa : R -> R -> R -> R -> R -> R -> R -> R -> R.

Lemma handle_map_leaving_on_map (s : FossenEnv) (TS : CyberShipII) (g g' : Rng)
    (p : CyberShipII * bool) :
  _handle_map_leaving s TS true false false g = Ok (p, g') ->
  _is_off_map TS = false -> fst p = TS.
Proof.
  unfold _handle_map_leaving. intros H Hon. rewrite Hon in H.
  unfold ret in H. injection H as <- _. reflexivity.
Qed.

Lemma handle_respawn_flag (s : FossenEnv) (TS : CyberShipII) (g g' : Rng)
    (p : CyberShipII * bool) :
  _handle_respawn tcpa s TS g = Ok (p, g') ->
  snd p = passed tcpa s TS /\ (passed tcpa s TS = false -> fst p = TS).
Proof.
  unfold _handle_respawn, passed. cbv zeta. intros H.
  destruct (Rltb _ (-10)).
  - unfold bind in H. destruct (_get_TS s "line" g) as [[TS' g1]|]; [|discriminate].
    unfold ret in H. injection H as <- _. split; [reflexivity | discriminate].
  - unfold ret in H. injection H as <- _. split; reflexivity.
Qed.

(** What the two passes over the targets leave behind. *)
Lemma targets_pass_inv (s s' : FossenEnv) (g g' : Rng) :
  Z.of_nat (List.length (TSs s)) = N_TSs s ->
  targets_pass tcpa s g = Ok (s', g') ->
  exists (tss1 : list CyberShipII),
    Forall2 (fun TS TS1 => _is_off_map TS = false -> TS1 = TS) (TSs s) tss1
    /\ Forall2 (fun TS1 TS' => passed tcpa s TS1 = false -> TS' = TS1) tss1 (TSs s')
    /\ (TSs s' = [] \/ respawn_flags s' = Some (map (passed tcpa s) tss1))
    /\ same_settings s s'
    /\ OS s' = OS s /\ step_cnt s' = step_cnt s /\ sim_t s' = sim_t s
    /\ TS_COLREGs s' = TS_COLREGs s /\ TS_COLREGs_old s' = TS_COLREGs_old s.
Proof.
  intros Hn H. unfold targets_pass in H.
  destruct (0 <? N_TSs s)%Z eqn:Epos.
  - unfold bind in H.
    destruct (mapM _ (TSs s) g) as [[pairs g1]|] eqn:E1; [|discriminate].
    destruct pairs as [|p ps] eqn:Ep; [discriminate|]. rewrite <- Ep in *.
    assert (Hu : unzip_pairs pairs g1 = Ok ((map fst pairs, map snd pairs), g1))
      by (apply unzip_pairs_ok; rewrite Ep; discriminate).
    replace (unzip_pairs (p :: ps) g1) with (unzip_pairs pairs g1) in H
      by (rewrite Ep; reflexivity).
    rewrite Hu in H. cbv beta iota zeta in H.
    cbn [TSs set_respawn] in H.
    destruct (mapM _ (map fst pairs) g1) as [[pairs0 g2]|] eqn:E2; [|discriminate].
    destruct pairs0 as [|p0 ps0] eqn:Ep0; [discriminate|]. rewrite <- Ep0 in *.
    assert (Hu0 : unzip_pairs pairs0 g2 = Ok ((map fst pairs0, map snd pairs0), g2))
      by (apply unzip_pairs_ok; rewrite Ep0; discriminate).
    replace (unzip_pairs (p0 :: ps0) g2) with (unzip_pairs pairs0 g2) in H
      by (rewrite Ep0; reflexivity).
    rewrite Hu0 in H. cbv beta iota zeta in H. unfold ret in H.
    injection H as <- _.
    exists (map fst pairs).
    cbn [TSs respawn_flags set_respawn OS step_cnt sim_t TS_COLREGs TS_COLREGs_old].
    split; [|split; [|split; [|split; [repeat split|repeat split]]]].
    + apply Forall2_map_right.
      apply (mapM_Forall2 _ _ (fun x g0 y g0' H0 Hon =>
                                 handle_map_leaving_on_map s x g0 g0' y H0 Hon) _ _ _ _ E1).
    + apply Forall2_map_right.
      apply (mapM_Forall2 _ (fun TS1 p1 => passed tcpa s TS1 = false -> fst p1 = TS1)
               (fun x g0 y g0' H0 => proj2 (handle_respawn_flag _ x g0 g0' y H0)) _ _ _ _ E2).
    + right. f_equal.
      apply Forall2_map_eq.
      apply (mapM_Forall2 _ (fun TS1 p1 => snd p1 = passed tcpa s TS1)
               (fun x g0 y g0' H0 => proj1 (handle_respawn_flag _ x g0 g0' y H0)) _ _ _ _ E2).
  - unfold ret in H. injection H as <- _.
    apply Z.ltb_ge in Epos.
    assert (Hnil : TSs s = []) by (destruct (TSs s); [reflexivity | cbn in Hn; lia]).
    exists []. rewrite Hnil.
    split; [constructor|]. split; [constructor|]. split; [left; reflexivity|].
    split; repeat split.
Qed.

End StepMore.

Lemma Forall2_map_l_inv {A B C : Type} (P : C -> B -> Prop) (h : A -> C) (l : list A) :
  forall l' : list B,
    Forall2 P (map h l) l' -> Forall2 (fun x y => P (h x) y) l l'.
Proof.
  induction l as [|x l IH]; intros l' H; cbn [map] in H; inversion H; subst.
  - constructor.
  - constructor; [assumption | apply IH; assumption].
Qed.

Section Tick.
Context `{VM : VesselModel}.
Variable tcpa : R -> R -> R -> R -> R -> R -> R -> R -> R.

(** Under the invariant a tick runs through its stages without error: the
    passes over the targets, the classification, the observation, the
    reward, and the clock. *)
Lemma step_stages (self : FossenEnv) (a : Z) (g : Rng) :
  Z.of_nat (List.length (TSs self)) = N_TSs self ->
  List.length (TS_COLREGs self) = List.length (TSs self) ->
  exists (s4 : FossenEnv) (g4 : Rng) (st : list npfloat) (s5 : FossenEnv),
    targets_pass tcpa
      (set_TSs (set_OS self (OS_after_step self a)) (map _upd_dynamics (TSs self))) g
    = Ok (s4, g4)
    /\ _set_state tcpa (_set_COLREGs s4) = Ok (set_state (_set_COLREGs s4) st)
    /\ Z.of_nat (List.length st) = (8 + N_TSs self * 6)%Z
    /\ _calculate_reward (set_state (_set_COLREGs s4) st) 1 1 1 1 1 = Ok s5
    /\ step tcpa self a g
       = Ok ((st, r s5, _done s5,
              set_clock s5 (step_cnt s5 + 1)%Z (sim_t s5 + delta_t s5)), g4).
Proof.
  intros Hn Hc. unfold step.
  cbv zeta. change (OS (set_OS self ?x)) with x.
  rewrite (bind_ok _ _ _ _ _ (handle_map_leaving_clip self a g)).
  cbv beta iota.
  set (s3 := set_TSs (set_OS self (OS_after_step self a)) (map _upd_dynamics (TSs self))).
  change (set_TSs (set_OS (set_OS self _) (OS_after_step self a)) _) with s3.
  assert (Hn3 : Z.of_nat (List.length (TSs s3)) = N_TSs s3).
  { unfold s3. cbn [TSs set_TSs set_OS N_TSs]. rewrite length_map. exact Hn. }
  destruct (respawn_pass_total tcpa s3 g Hn3) as [s4 [g4 [H4 [Hfr4 [Hlen4 Hflags4]]]]].
  change (targets_pass tcpa s3 g = Ok (s4, g4)) in H4.
  change (if (0 <? N_TSs s3)%Z then _ else ret s3) with (targets_pass tcpa s3).
  rewrite (bind_ok _ _ _ _ _ H4).
  destruct Hfr4 as [HOS4 [Hgoal4 [Hcnt4 [HCOL4 [Hgrd4 [Hmax4 HN4]]]]]].
  assert (HN5 : Z.of_nat (List.length (TSs (_set_COLREGs s4))) = N_TSs (_set_COLREGs s4)).
  { unfold _set_COLREGs. cbn [TSs N_TSs set_COLREGs]. rewrite Hlen4, HN4. exact Hn3. }
  assert (Hlen5 : List.length (TS_COLREGs (_set_COLREGs s4))
                  = List.length (TSs (_set_COLREGs s4))).
  { unfold _set_COLREGs. cbn [TS_COLREGs TSs set_COLREGs]. apply length_map. }
  destruct (set_state_content tcpa (_set_COLREGs s4) HN5 Hlen5)
    as [own [rows [Hst [Hown [_ [_ [Hrl Hall]]]]]]].
  unfold lift at 1. unfold bind at 1. rewrite Hst.
  match type of Hst with
  | _ = Ok (set_state _ ?st0) => set (st := st0) in *
  end.
  destruct (calculate_reward_total (set_state (_set_COLREGs s4) st) 1 1 1 1 1)
    as [s5 [H5 [Hfr5 HTS5]]].
  { exact Hlen5. }
  { unfold _set_COLREGs. cbn [TS_COLREGs_old TSs set_COLREGs set_state].
    rewrite HCOL4. unfold s3. cbn [TS_COLREGs set_TSs set_OS].
    rewrite Hlen4. unfold s3. cbn [TSs set_TSs set_OS]. rewrite length_map. exact Hc. }
  { unfold _set_COLREGs. cbn [respawn_flags TSs set_COLREGs set_state].
    exact Hflags4. }
  unfold lift, bind. rewrite H5. unfold ret.
  exists s4, g4, st, s5.
  split; [exact H4|]. split; [exact Hst|]. split.
  - unfold st. rewrite !length_app, length_map, repeat_length, Hown,
      (concat_rows_length 6 rows Hall).
    unfold _set_COLREGs in Hrl. cbn [TSs set_COLREGs] in Hrl.
    unfold _set_COLREGs. cbn [TSs set_COLREGs].
    unfold s3 in Hlen4. cbn [TSs set_TSs set_OS] in Hlen4.
    rewrite length_map in Hlen4. lia.
  - split; [exact H5|].
    destruct (calculate_reward_result _ _ _ _ _ _ _ H5) as [rr [_ Hs5]].
    rewrite Hs5. reflexivity.
Qed.

End Tick.

Section TickFacts.
Context `{VM : VesselModel}.
Variable tcpa : R -> R -> R -> R -> R -> R -> R -> R -> R.

Lemma moved_targets_count (self : FossenEnv) (a : Z) :
  Z.of_nat (List.length (TSs self)) = N_TSs self ->
  Z.of_nat (List.length
              (TSs (set_TSs (set_OS self (OS_after_step self a))
                            (map _upd_dynamics (TSs self)))))
  = N_TSs (set_TSs (set_OS self (OS_after_step self a)) (map _upd_dynamics (TSs self))).
Proof.
  intros Hn. cbn [TSs set_TSs set_OS N_TSs]. rewrite length_map. exact Hn.
Qed.

(** X15: what a tick does to the targets.  Under the invariant [step]
    returns, and there is the list [tss1] of the targets after the dynamics
    update and the map-leaving pass such that: a target that is on the map
    after its dynamics update stands in [tss1] just updated; a target of
    [tss1] that has not passed the own ship (the time to the closest point
    of approach to the own ship of the end of the tick is not below -10) is
    the target that the tick leaves at that position; and the respawn flags
    are exactly that test on [tss1]: a target replaced because it left the
    map is not flagged for that. *)
Theorem step_moves_or_respawns_targets (self : FossenEnv) (a : Z) (g : Rng) :
  Z.of_nat (List.length (TSs self)) = N_TSs self ->
  List.length (TS_COLREGs self) = List.length (TSs self) ->
  exists obs r0 d self' g' (tss1 : list CyberShipII),
    step tcpa self a g = Ok ((obs, r0, d, self'), g')
    /\ Forall2 (fun TS TS1 =>
                  _is_off_map (_upd_dynamics TS) = false -> TS1 = _upd_dynamics TS)
               (TSs self) tss1
    /\ Forall2 (fun TS1 TS' => passed tcpa self' TS1 = false -> TS' = TS1)
               tss1 (TSs self')
    /\ (TSs self' = [] \/ respawn_flags self' = Some (map (passed tcpa self') tss1)).
Proof.
  intros Hn Hc.
  destruct (step_stages tcpa self a g Hn Hc) as [s4 [g4 [st [s5 [H4 [_ [_ [H5 Hstep]]]]]]]].
  destruct (calculate_reward_result _ _ _ _ _ _ _ H5) as [rr [_ Hs5]].
  destruct (targets_pass_inv tcpa _ _ _ _ (moved_targets_count self a Hn) H4)
    as [tss1 [Hmap [Hpass [Hflags [_ [HOS _]]]]]].
  cbn [TSs set_TSs set_OS OS] in Hmap, HOS.
  do 5 eexists. exists tss1. split; [exact Hstep|].
  assert (Hp : forall TS,
             passed tcpa (set_clock s5 (step_cnt s5 + 1) (sim_t s5 + delta_t s5)) TS
             = passed tcpa
                 (set_TSs (set_OS self (OS_after_step self a))
                          (map _upd_dynamics (TSs self))) TS).
  { intros TS. unfold passed. rewrite Hs5.
    cbn [OS set_clock set_rewards set_state set_TSs set_OS].
    unfold _set_COLREGs. cbn [OS set_COLREGs]. rewrite HOS. reflexivity. }
  assert (HTS : TSs (set_clock s5 (step_cnt s5 + 1) (sim_t s5 + delta_t s5)) = TSs s4).
  { rewrite Hs5. reflexivity. }
  assert (Hfl : respawn_flags (set_clock s5 (step_cnt s5 + 1) (sim_t s5 + delta_t s5))
                = respawn_flags s4).
  { rewrite Hs5. reflexivity. }
  rewrite HTS, Hfl. split; [|split].
  - apply (Forall2_map_l_inv (fun TS TS1 => _is_off_map TS = false -> TS1 = TS)
             _upd_dynamics).
    exact Hmap.
  - eapply Forall2_impl; [|exact Hpass]. cbv beta.
    intros TS1 TS' H Hnot. apply H. rewrite <- Hp. exact Hnot.
  - destruct Hflags as [Hnil | Hsome]; [left; exact Hnil | right].
    rewrite Hsome. f_equal. apply map_ext. intros TS. symmetry. apply Hp.
Qed.

(** X16: the classes across a tick.  Under the invariant [step] returns
    with [TS_COLREGs_old] holding the classes that [TS_COLREGs] held when
    the tick began, and [TS_COLREGs] holding, for each target that the tick
    leaves (moved or respawned), its class relative to the own ship at the
    end of the tick, with no distance cut-off. *)
Theorem step_classes_history (self : FossenEnv) (a : Z) (g : Rng) :
  Z.of_nat (List.length (TSs self)) = N_TSs self ->
  List.length (TS_COLREGs self) = List.length (TSs self) ->
  exists obs r0 d self' g',
    step tcpa self a g = Ok ((obs, r0, d, self'), g')
    /\ OS self' = OS_after_step self a
    /\ TS_COLREGs_old self' = TS_COLREGs self
    /\ TS_COLREGs self'
       = map (fun TS => _get_COLREG_situation (OS self') TS np_inf) (TSs self').
Proof.
  intros Hn Hc.
  destruct (step_stages tcpa self a g Hn Hc) as [s4 [g4 [st [s5 [H4 [_ [_ [H5 Hstep]]]]]]]].
  destruct (calculate_reward_result _ _ _ _ _ _ _ H5) as [rr [_ Hs5]].
  destruct (targets_pass_inv tcpa _ _ _ _ (moved_targets_count self a Hn) H4)
    as [tss1 [_ [_ [_ [_ [HOS [_ [_ [HCOL _]]]]]]]]].
  cbn [TS_COLREGs set_TSs set_OS OS] in HOS, HCOL.
  do 5 eexists. split; [exact Hstep|].
  rewrite Hs5. unfold _set_COLREGs.
  cbn [OS TS_COLREGs TS_COLREGs_old TSs set_clock set_rewards set_state set_COLREGs].
  rewrite HOS, HCOL. repeat split.
Qed.

(** X17: what [step] hands back is what it stores.  Under the invariant
    the observation returned is [self.state] and has [8 + 6 * N_TSs]
    entries, the reward returned is [self.r], the sum of the five stored
    components (all weights are 1), the clock [sim_t] has advanced by
    [delta_t], and the settings of [__init__] and the goal are as
    before. *)
Theorem step_returns_stored_results (self : FossenEnv) (a : Z) (g : Rng) :
  Z.of_nat (List.length (TSs self)) = N_TSs self ->
  List.length (TS_COLREGs self) = List.length (TSs self) ->
  exists obs r0 d self' g',
    step tcpa self a g = Ok ((obs, r0, d, self'), g')
    /\ obs = state self'
    /\ Z.of_nat (List.length obs) = (8 + N_TSs self * 6)%Z
    /\ r0 = r self'
    /\ r self' = r_dist self' + r_head self' + r_coll self' + r_COLREG self' + r_map self'
    /\ sim_t self' = sim_t self + delta_t self
    /\ same_settings self self'.
Proof.
  intros Hn Hc.
  destruct (step_stages tcpa self a g Hn Hc)
    as [s4 [g4 [st [s5 [H4 [_ [Hlen [H5 Hstep]]]]]]]].
  destruct (calculate_reward_result _ _ _ _ _ _ _ H5) as [rr [_ Hs5]].
  destruct (targets_pass_inv tcpa _ _ _ _ (moved_targets_count self a Hn) H4)
    as [tss1 [_ [_ [_ [Hset [_ [_ [Ht _]]]]]]]].
  cbn [sim_t set_TSs set_OS] in Ht.
  do 5 eexists. split; [exact Hstep|].
  split; [rewrite Hs5; reflexivity|]. split; [exact Hlen|].
  split; [rewrite Hs5; reflexivity|]. split; [|split].
  - rewrite Hs5. cbn [r r_dist r_head r_coll r_COLREG r_map set_clock set_rewards]. ring.
  - rewrite Hs5. unfold _set_COLREGs.
    cbn [sim_t delta_t set_clock set_rewards set_state set_COLREGs].
    destruct Hset as [Hdt _]. cbn [delta_t set_TSs set_OS] in Hdt.
    rewrite Ht, Hdt. reflexivity.
  - rewrite Hs5. unfold same_settings, _set_COLREGs.
    cbn [delta_t N_max E_max N_TSs safety_dist TCPA_crit cnt_approach goal_reach_dist
         _max_episode_steps r_coll_sigma state_pad goal
         set_clock set_rewards set_state set_COLREGs].
    unfold same_settings in Hset.
    cbn [delta_t N_max E_max N_TSs safety_dist TCPA_crit cnt_approach goal_reach_dist
         _max_episode_steps r_coll_sigma state_pad goal set_TSs set_OS] in Hset.
    exact Hset.
Qed.

End TickFacts.

(** X15 for one tick of the far pair. *)
Lemma step_moves_or_respawns_targets_witness :
  Z.of_nat (List.length (TSs env_far)) = N_TSs env_far
  /\ List.length (TS_COLREGs env_far) = List.length (TSs env_far)
  /\ exists obs r0 d self' g' (tss1 : list CyberShipII),
       @step kinematic_model tcpa_straight env_far 0 rng_half
       = Ok ((obs, r0, d, self'), g')
       /\ Forall2 (fun TS1 TS' =>
                     @passed kinematic_model tcpa_straight self' TS1 = false -> TS' = TS1)
                  tss1 (TSs self')
       /\ (TSs self' = []
           \/ respawn_flags self'
              = Some (map (@passed kinematic_model tcpa_straight self') tss1)).
Proof.
  split; [exact env_far_targets|]. split; [exact env_far_classes|].
  destruct (@step_moves_or_respawns_targets kinematic_model tcpa_straight env_far 0
              rng_half env_far_targets env_far_classes)
    as [obs [r0 [d [self' [g' [tss1 [Hstep [_ [Hpass Hflags]]]]]]]]].
  exists obs, r0, d, self', g', tss1. auto.
Defined.

(** X16 for one tick of the far pair. *)
Lemma step_classes_history_witness :
  Z.of_nat (List.length (TSs env_far)) = N_TSs env_far
  /\ List.length (TS_COLREGs env_far) = List.length (TSs env_far)
  /\ exists obs r0 d self' g',
       @step kinematic_model tcpa_straight env_far 0 rng_half
       = Ok ((obs, r0, d, self'), g')
       /\ TS_COLREGs_old self' = [0%Z]
       /\ TS_COLREGs self'
          = map (fun TS => @_get_COLREG_situation kinematic_model (OS self') TS np_inf)
                (TSs self').
Proof.
  split; [exact env_far_targets|]. split; [exact env_far_classes|].
  destruct (@step_classes_history kinematic_model tcpa_straight env_far 0
              rng_half env_far_targets env_far_classes)
    as [obs [r0 [d [self' [g' [Hstep [_ [Hold Hnew]]]]]]]].
  exists obs, r0, d, self', g'. auto.
Defined.

(** X17 for one tick of the far pair. *)
Lemma step_returns_stored_results_witness :
  Z.of_nat (List.length (TSs env_far)) = N_TSs env_far
  /\ List.length (TS_COLREGs env_far) = List.length (TSs env_far)
  /\ exists obs r0 d self' g',
       @step kinematic_model tcpa_straight env_far 0 rng_half
       = Ok ((obs, r0, d, self'), g')
       /\ obs = state self'
       /\ Z.of_nat (List.length obs) = 14%Z
       /\ r0 = r self'
       /\ sim_t self' = sim_t env_far + delta_t env_far.
Proof.
  split; [exact env_far_targets|]. split; [exact env_far_classes|].
  destruct (@step_returns_stored_results kinematic_model tcpa_straight env_far 0
              rng_half env_far_targets env_far_classes)
    as [obs [r0 [d [self' [g' [Hstep [Hobs [Hlen [Hr [_ [Ht _]]]]]]]]]]].
  exists obs, r0, d, self', g'. auto.
Defined.

(* ------------------------------------------------------------------ *)
(** ** The start of an episode *)

Section Episode.
Context `{VM : VesselModel}.
Variable tcpa : R -> R -> R -> R -> R -> R -> R -> R -> R.

(** What [reset] computes, stage by stage. *)
Lemma reset_stages (self : FossenEnv) (g : Rng) :
  (0 <= N_TSs self)%Z ->
  exists (tss : list CyberShipII) (st : list npfloat) (g' : Rng),
    List.length tss = Z.to_nat (N_TSs self)
    /\ Z.of_nat (List.length st) = (8 + N_TSs self * 6)%Z
    /\ reset tcpa self g
       = Ok ((st,
              set_state
                (_set_COLREGs
                   (set_COLREGs
                      (set_TSs
                         (set_OS
                            (set_goal (set_clock self 0 0)
                               (N_max self - 25 + (N_max self - (N_max self - 25)) * draw g 0,
                                E_max self - 25 + (E_max self - (E_max self - 25)) * draw g 1))
                            (set_nu0
                               (CyberShipII_init (N_max self / 5) (E_max self / 5)
                                  (0 + (PI / 2 - 0) * draw g 2) 0 0 0
                                  (delta_t self) (N_max self) (E_max self)
                                  (cnt_approach self) 3)
                               (_u_from_tau_u
                                  (CyberShipII_init (N_max self / 5) (E_max self / 5)
                                     (0 + (PI / 2 - 0) * draw g 2) 0 0 0
                                     (delta_t self) (N_max self) (E_max self)
                                     (cnt_approach self) 3) 3)))
                         tss)
                      (TS_COLREGs_old self) (repeat 0%Z (Z.to_nat (N_TSs self)))))
                st), g').
Proof.
  intros HN. unfold reset. cbv zeta.
  unfold bind at 1 2 3. unfold uniform at 1 2 3.
  cbn [np_draws np_pos py_draws py_pos N_TSs N_max E_max delta_t cnt_approach
       TS_COLREGs_old set_clock set_goal set_OS set_TSs tau_u CyberShipII_init].
  match goal with
  | |- context [bind (mapM ?f ?l) _ ?g0] =>
      destruct (mapM_total f l (fun _ g1 => get_TS_line_total _ g1) g0)
        as [tss [g1 [Htss Hlen]]]
  end.
  rewrite (bind_ok _ _ _ _ _ Htss).
  rewrite length_seq in Hlen.
  match goal with
  | |- context [_set_state tcpa ?s] =>
      destruct (set_state_content tcpa s) as [own [rows [Hst [Hown [_ [_ [Hrl Hall]]]]]]]
  end.
  { unfold _set_COLREGs.
    cbn [TSs N_TSs set_COLREGs set_TSs set_OS set_goal set_clock].
    rewrite Hlen. lia. }
  { unfold _set_COLREGs.
    cbn [TSs TS_COLREGs set_COLREGs set_TSs set_OS set_goal set_clock].
    apply length_map. }
  unfold lift, bind. rewrite Hst. unfold ret.
  cbn [state set_state].
  eexists tss, _, g1. split; [exact Hlen|]. split; [|reflexivity].
  rewrite !length_app, length_map, repeat_length, Hown, (concat_rows_length 6 rows Hall).
  unfold _set_COLREGs in Hrl |- *.
  cbn [TSs set_COLREGs set_TSs set_OS set_goal set_clock] in Hrl |- *. lia.
Qed.

(** X18: the state that [reset] sets up.  For a number of targets that is
    not negative and unit draws in [0, 1), [reset] returns the stored
    observation, of [8 + 6 * N_TSs] entries, with both clocks at 0, the goal
    in the upper 25 m of the map on both axes, the own ship at a fifth of
    the map on both axes with a heading in [0, pi/2), no sway or yaw and
    the surge speed that its thrust 3 converges to, [N_TSs] targets, each
    classified relative to the own ship, and all previous classes 0.  The
    respawn flags are not touched. *)
Theorem reset_initial_state (self : FossenEnv) (g : Rng) :
  (0 <= N_TSs self)%Z ->
  (forall k, 0 <= draw g k < 1) ->
  exists obs self' g',
    reset tcpa self g = Ok ((obs, self'), g')
    /\ obs = state self'
    /\ Z.of_nat (List.length obs) = (8 + N_TSs self * 6)%Z
    /\ step_cnt self' = 0%Z /\ sim_t self' = 0
    /\ N_max self - 25 <= goal_N self' < N_max self
    /\ E_max self - 25 <= goal_E self' < E_max self
    /\ eta_N (OS self') = N_max self / 5 /\ eta_E (OS self') = E_max self / 5
    /\ 0 <= eta_psi (OS self') < PI / 2
    /\ tau_u (OS self') = 3
    /\ nu (OS self') = (_u_from_tau_u (set_nu0 (OS self') 0) 3, 0, 0)
    /\ Z.of_nat (List.length (TSs self')) = N_TSs self
    /\ TS_COLREGs_old self' = repeat 0%Z (Z.to_nat (N_TSs self))
    /\ TS_COLREGs self'
       = map (fun TS => _get_COLREG_situation (OS self') TS np_inf) (TSs self')
    /\ respawn_flags self' = respawn_flags self.
Proof.
  intros HN Hdraw.
  destruct (reset_stages self g HN) as [tss [st [g' [Hlen [Hst Hreset]]]]].
  pose proof (Hdraw 0%nat) as H0. pose proof (Hdraw 1%nat) as H1.
  pose proof (Hdraw 2%nat) as H2. pose proof PI_RGT_0 as Hpi.
  do 3 eexists. split; [exact Hreset|].
  unfold _set_COLREGs, goal_N, goal_E, eta_N, eta_E, eta_psi.
  cbn [state step_cnt sim_t goal OS TSs TS_COLREGs TS_COLREGs_old respawn_flags
       set_state set_COLREGs set_TSs set_OS set_goal set_clock
       eta nu tau_u set_nu0 CyberShipII_init fst snd].
  split; [reflexivity|]. split; [exact Hst|].
  split; [reflexivity|]. split; [reflexivity|].
  split; [lra|]. split; [lra|].
  split; [reflexivity|]. split; [reflexivity|].
  split; [nra|]. split; [reflexivity|]. split; [reflexivity|].
  split; [lia|]. split; [reflexivity|]. split; reflexivity.
Qed.

(** X19: the first tick of an episode.  For a number of targets that is
    not negative and an action of the action space that [__init__] declares
    (for which the vessel's own methods, whose bodies are in the missing
    module, are taken to return), the code of the environment in [reset]
    followed by [step] raises nothing, whatever the random draws, also for
    an environment whose respawn flags were never assigned: [reset] does not
    assign them, and [step] assigns them before the reward reads them when
    there are targets, and never reads them when there are none.  The step
    counter is then 1. *)
Theorem first_step_after_reset_returns (self : FossenEnv) (a : Z) (g : Rng) :
  (0 <= N_TSs self)%Z ->
  valid_action self a ->
  exists obs0 s0 g0 obs r0 d s1 g1,
    reset tcpa self g = Ok ((obs0, s0), g0)
    /\ step tcpa s0 a g0 = Ok ((obs, r0, d, s1), g1)
    /\ step_cnt s1 = 1%Z
    /\ exists flags, (TSs s1 = [] \/ respawn_flags s1 = Some flags).
Proof.
  intros HN _.
  destruct (reset_stages self g HN) as [tss [st [g0 [Hlen [_ Hreset]]]]].
  match type of Hreset with
  | _ = Ok ((_, ?s), _) => set (s0 := s) in *
  end.
  assert (Hn0 : Z.of_nat (List.length (TSs s0)) = N_TSs s0).
  { unfold s0, _set_COLREGs.
    cbn [TSs N_TSs set_state set_COLREGs set_TSs set_OS set_goal set_clock]. lia. }
  assert (Hc0 : List.length (TS_COLREGs s0) = List.length (TSs s0)).
  { unfold s0, _set_COLREGs.
    cbn [TSs TS_COLREGs set_state set_COLREGs set_TSs set_OS set_goal set_clock].
    apply length_map. }
  destruct (step_stages tcpa s0 a g0 Hn0 Hc0)
    as [s4 [g4 [st1 [s5 [H4 [_ [_ [H5 Hstep]]]]]]]].
  destruct (calculate_reward_result _ _ _ _ _ _ _ H5) as [rr [_ Hs5]].
  destruct (targets_pass_inv tcpa _ _ _ _ (moved_targets_count s0 a Hn0) H4)
    as [tss1 [_ [_ [Hflags [_ [_ [Hcnt _]]]]]]].
  do 8 eexists. split; [exact Hreset|]. split; [exact Hstep|].
  rewrite Hs5. unfold _set_COLREGs.
  cbn [step_cnt TSs respawn_flags set_clock set_rewards set_state set_COLREGs].
  split.
  - rewrite Hcnt. reflexivity.
  - exists (map (passed tcpa
                   (set_TSs (set_OS s0 (OS_after_step s0 a))
                            (map _upd_dynamics (TSs s0)))) tss1).
    exact Hflags.
Qed.

End Episode.

Lemma fresh_targets : (0 <= N_TSs env_fresh)%Z.
Proof. cbn. lia. Defined.

(** X18 for the environment that [__init__] leaves, with all unit draws
    1/2. *)
Lemma reset_initial_state_witness :
  (0 <= N_TSs env_fresh)%Z
  /\ (forall k, 0 <= draw rng_half k < 1)
  /\ exists obs self' g',
       @reset kinematic_model tcpa_straight env_fresh rng_half = Ok ((obs, self'), g')
       /\ Z.of_nat (List.length obs) = 38%Z
       /\ step_cnt self' = 0%Z
       /\ eta_N (OS self') = N_max env_fresh / 5
       /\ Z.of_nat (List.length (TSs self')) = 5%Z
       /\ respawn_flags self' = None.
Proof.
  split; [exact fresh_targets|]. split; [exact rng_half_draws|].
  destruct (@reset_initial_state kinematic_model tcpa_straight env_fresh rng_half
              fresh_targets rng_half_draws)
    as (obs & self' & g' & Hreset & _ & Hlen & Hcnt & _ & _ & _ & HN & _ & _ & _ & _
        & HTS & _ & _ & Hfl).
  exists obs, self', g'. auto 10.
Defined.

Lemma fresh_action : valid_action env_fresh 0.
Proof. exists 3%Z. split; [reflexivity | lia]. Defined.

(** X19 for the same environment, whose respawn flags were never
    assigned, and the action 0 of its three actions. *)
Lemma first_step_after_reset_returns_witness :
  (0 <= N_TSs env_fresh)%Z
  /\ valid_action env_fresh 0
  /\ respawn_flags env_fresh = None
  /\ exists obs0 s0 g0 obs r0 d s1 g1,
       @reset kinematic_model tcpa_straight env_fresh rng_half = Ok ((obs0, s0), g0)
       /\ @step kinematic_model tcpa_straight s0 0 g0 = Ok ((obs, r0, d, s1), g1)
       /\ step_cnt s1 = 1%Z
       /\ exists flags, (TSs s1 = [] \/ respawn_flags s1 = Some flags).
Proof.
  split; [exact fresh_targets|]. split; [exact fresh_action|]. split; [reflexivity|].
  exact (@first_step_after_reset_returns kinematic_model tcpa_straight env_fresh 0
           rng_half fresh_targets fresh_action).
Defined.
